(** * mysql-gtid-position: transaction-boundary tracking, file selection and
      scan coordination

    A shallow embedding of the Go packages [searcher] and [models] of
    quyetmv/mysql-gtid-position, followed by the properties that the
    specification states about them.

    Layout:
    - machine integers, errors and the [fmt] verbs;
    - [replication]: decoded binlog events (the go-mysql dependency);
    - [models]: [GTIDPosition] and [Config];
    - [searchBinlogFile] and [CheckPreviousGTIDs] (searcher/binlog.go),
      [sortSearch] and [FindStartFileUsingHeaders];
    - [RemoteSearch] (the method [RemoteSearcher.Search]);
    - [SearchParallel] as an interleaving semantics of its goroutines;
    - a GTID-set library and the mock parsers of the Go tests, to run the
      searchers on concrete inputs;
    - observations, invariants, the transactions of a sequence in the
      words of the specification, and the inputs of the scenarios;
    - [parser] (parser/gtid.go), [GetBinlogFiles], and [validateConfig]
      and [findGTIDPosition] of main.go, with their inputs;
    - the properties, claim by claim, then the same claims on the inputs
      of the tests;
    - further properties of the searchers, the coordinator, the parser
      and [main], and these on concrete inputs. *)

From Stdlib Require Import ZArith Lia String Ascii Bool DecimalString.
From stdpp Require Import base tactics option list strings gmap.

Open Scope Z_scope.

(** ** Machine integers *)

(** Go's [uint32(x)] and [uint64(x)] conversions, and arithmetic on these
    types, wrap modulo the word size. *)
Definition uint32 (z : Z) : Z := z mod 2 ^ 32.
Definition uint64 (z : Z) : Z := z mod 2 ^ 64.

(** ** Errors *)

(** Go's [error] values.  The code under study only ever inspects
    [err.Error()], so an error is its message. *)
Inductive error : Type := Errorf (msg : string).

Definition Error (e : error) : string := let 'Errorf m := e in m.

(** [fmt.Errorf("prefix: %w", err)] *)
Definition wrapError (prefix : string) (e : error) : error :=
  Errorf (prefix +:+ Error e).

Inductive res (A : Type) : Type :=
| Ok (a : A)
| Err (e : error).
Arguments Ok {A} a.
Arguments Err {A} e.

(** ** The [fmt] verbs used to print a GTID *)

Module fmt.

Definition hexDigit (n : N) : ascii :=
  match n with
  | 0 => "0" | 1 => "1" | 2 => "2" | 3 => "3" | 4 => "4" | 5 => "5"
  | 6 => "6" | 7 => "7" | 8 => "8" | 9 => "9" | 10 => "a" | 11 => "b"
  | 12 => "c" | 13 => "d" | 14 => "e" | _ => "f"
  end%N%char.

Definition hexByte (b : Byte.byte) : string :=
  let n := Byte.to_N b in
  String (hexDigit (n / 16)) (String (hexDigit (n mod 16)) EmptyString).

(** [%x] applied to a byte slice: two lower-case digits per byte. *)
Definition x (bs : list Byte.byte) : string :=
  foldr (fun b acc => hexByte b +:+ acc) EmptyString bs.

(** [%d] applied to an [int64]. *)
Definition d (z : Z) : string := NilZero.string_of_int (Z.to_int z).

End fmt.

(** ** Decoded binlog events (package [replication] of go-mysql) *)

Module replication.

Record EventHeader : Type := {
  Timestamp : Z;   (* uint32 *)
  LogPos : Z;      (* uint32, end offset of the event *)
  EventSize : Z;   (* uint32 *)
}.

(** The payload.  The decoder builds the payload from the header's event
    type, so the type is read off the constructor; a header type that
    disagrees with its payload (where the Go type assertion would panic)
    cannot be written. *)
Inductive Event : Type :=
| GTIDEvent (SID : list Byte.byte) (GNO : Z)   (* 16 bytes, int64 *)
| XIDEvent
| QueryEvent (Schema Query : string)
| PreviousGTIDsEvent (GTIDSets : string)
| RotateEvent (NextLogName : string)
| GenericEvent.

Inductive EventType : Type :=
| GTID_EVENT | XID_EVENT | QUERY_EVENT | PREVIOUS_GTIDS_EVENT
| ROTATE_EVENT | UNKNOWN_EVENT.

Record BinlogEvent : Type := {
  Header : EventHeader;
  Payload : Event;
}.

Definition EventTypeOf (e : BinlogEvent) : EventType :=
  match Payload e with
  | GTIDEvent _ _ => GTID_EVENT
  | XIDEvent => XID_EVENT
  | QueryEvent _ _ => QUERY_EVENT
  | PreviousGTIDsEvent _ => PREVIOUS_GTIDS_EVENT
  | RotateEvent _ => ROTATE_EVENT
  | GenericEvent => UNKNOWN_EVENT
  end.

Definition isGTID (e : BinlogEvent) : bool :=
  match Payload e with GTIDEvent _ _ => true | _ => false end.

Definition isPreviousGTIDs (e : BinlogEvent) : bool :=
  match Payload e with PreviousGTIDsEvent _ => true | _ => false end.

(** What [BinlogParser.ParseFile] delivers for one file: the decoded
    events in order, then end of file or a transport error. *)
Record Stream : Type := {
  events : list BinlogEvent;
  failure : option error;
}.

End replication.

Import replication.

(** ** Package [models] *)

Module time.
(** [time.Time], as far as the searchers look at it: [IsZero] and
    [Unix]. *)
Inductive Time : Type := Zero | Unix (sec : Z).
End time.

Module models.

(** [CreatedAt] (the wall clock at creation) is left out: nothing in the
    searchers reads it. *)
Record GTIDPosition : Type := {
  BinlogFile : string;
  Position : Z;         (* uint32 *)
  CommitPosition : Z;   (* uint32 *)
  ResumePosition : Z;   (* uint32 *)
  Timestamp : Z;        (* uint32 *)
  GTID : string;
  ServerUUID : string;
  GNO : Z;              (* uint64 *)
  Database : string;
  NextGTID : string;
}.

Record Config : Type := {
  StartFile : string;
  Parallel : Z;
  FilterDatabase : string;
  StartTime : time.Time;
  EndTime : time.Time;
}.

Definition setBinlogFile (f : string) (p : GTIDPosition) : GTIDPosition :=
  {| BinlogFile := f; Position := Position p;
     CommitPosition := CommitPosition p; ResumePosition := ResumePosition p;
     Timestamp := Timestamp p; GTID := GTID p; ServerUUID := ServerUUID p;
     GNO := GNO p; Database := Database p; NextGTID := NextGTID p |}.

(** The three assignments made when a transaction end is seen. *)
Definition setCommit (pos ts : Z) (p : GTIDPosition) : GTIDPosition :=
  {| BinlogFile := BinlogFile p; Position := Position p;
     CommitPosition := pos; ResumePosition := pos;
     Timestamp := ts; GTID := GTID p; ServerUUID := ServerUUID p;
     GNO := GNO p; Database := Database p; NextGTID := NextGTID p |}.

(** The two assignments made when the next GTID is seen. *)
Definition setNext (gtid : string) (pos : Z) (p : GTIDPosition) : GTIDPosition :=
  {| BinlogFile := BinlogFile p; Position := Position p;
     CommitPosition := CommitPosition p; ResumePosition := pos;
     Timestamp := Timestamp p; GTID := GTID p; ServerUUID := ServerUUID p;
     GNO := GNO p; Database := Database p; NextGTID := gtid |}.

End models.

Import models.

(** ** The GTID-set capability (package [mysql] of go-mysql)

    [mysql.GTIDSet] is a Go interface; the searchers use its parser and
    its containment test and nothing else. *)
Class GTIDSetLib : Type := {
  GTIDSet : Type;
  ParseMysqlGTIDSet : string -> res GTIDSet;
  Contain : GTIDSet -> GTIDSet -> bool;
}.

(** [BinlogParser]: the interface with the one method [ParseFile]. *)
Definition BinlogParser : Type := string -> Stream.

Record Searcher : Type := {
  config : Config;
  parserFactory : BinlogParser;
}.

(** ** [searchBinlogFile] (searcher/binlog.go) *)

Section Tracker.

Context `{GTIDSetLib}.

(** The variables captured by the callback of [searchBinlogFile]. *)
Record ScanState : Type := {
  result : option GTIDPosition;
  currentDatabase : string;
  currentTransaction : option GTIDPosition;
}.

Definition initialState : ScanState :=
  {| result := None; currentDatabase := EmptyString;
     currentTransaction := None |}.

Definition setResult (r : option GTIDPosition) (st : ScanState) : ScanState :=
  {| result := r; currentDatabase := currentDatabase st;
     currentTransaction := currentTransaction st |}.

Definition setDatabase (db : string) (st : ScanState) : ScanState :=
  {| result := result st; currentDatabase := db;
     currentTransaction := currentTransaction st |}.

Definition setTransaction (t : option GTIDPosition) (st : ScanState) : ScanState :=
  {| result := result st; currentDatabase := currentDatabase st;
     currentTransaction := t |}.

(** [startTimestamp], [endTimestamp]: zero when the bound is not set. *)
Definition timestampOf (t : time.Time) : Z :=
  match t with
  | time.Zero => 0
  | time.Unix sec => uint32 sec
  end.

Definition startTimestamp (c : Config) : Z := timestampOf (StartTime c).
Definition endTimestamp (c : Config) : Z := timestampOf (EndTime c).

Definition beforeStart (c : Config) (e : BinlogEvent) : bool :=
  (0 <? startTimestamp c) && (replication.Timestamp (Header e) <? startTimestamp c).

Definition afterEnd (c : Config) (e : BinlogEvent) : bool :=
  (0 <? endTimestamp c) && (endTimestamp c <? replication.Timestamp (Header e)).

(** [fmt.Sprintf("%x-%x-%x-%x-%x", SID[0:4], SID[4:6], SID[6:8],
    SID[8:10], SID[10:16])].  The decoder always delivers 16 bytes. *)
Definition uuidStr (sid : list Byte.byte) : string :=
  fmt.x (take 4 sid) +:+ "-" +:+ fmt.x (take 2 (drop 4 sid)) +:+ "-"
  +:+ fmt.x (take 2 (drop 6 sid)) +:+ "-" +:+ fmt.x (take 2 (drop 8 sid))
  +:+ "-" +:+ fmt.x (take 6 (drop 10 sid)).

(** [fmt.Sprintf("%s:%d", uuidStr, gtidEvent.GNO)] *)
Definition gtidStr (sid : list Byte.byte) (gno : Z) : string :=
  uuidStr sid +:+ ":" +:+ fmt.d gno.

(** "Track database context from QueryEvent". *)
Definition trackDatabase (st : ScanState) (e : BinlogEvent) : ScanState :=
  match Payload e with
  | QueryEvent schema _ =>
      if (0 <? Z.of_nat (String.length schema)) then setDatabase schema st else st
  | _ => st
  end.

(** The record built when a GTID of the target set starts a
    transaction. *)
Definition openTransaction (file : string) (e : BinlogEvent)
    (sid : list Byte.byte) (gno : Z) (db : string) : GTIDPosition :=
  {| BinlogFile := file;
     Position := uint32 (LogPos (Header e) - EventSize (Header e));
     CommitPosition := LogPos (Header e);
     ResumePosition := LogPos (Header e);
     models.Timestamp := replication.Timestamp (Header e);
     GTID := gtidStr sid gno;
     ServerUUID := uuidStr sid;
     GNO := uint64 gno;
     Database := db;
     NextGTID := EmptyString |}.

Definition databaseMismatch (c : Config) (st : ScanState) : bool :=
  negb (String.eqb (FilterDatabase c) EmptyString)
  && negb (String.eqb (currentDatabase st) (FilterDatabase c)).

(** How the GTID block of a searcher leaves: it falls through to the
    rest of the loop body, it skips the rest of the body, or it has
    recorded the next GTID and stops the scan. *)
Inductive gtidExit : Type := FallThrough | SkipEvent | FoundNext.

(** "Check for GTID event (start of transaction)": the block shared, line
    for line, by [searchBinlogFile] and [RemoteSearcher.Search]. *)
Definition onGTID (c : Config) (file : string) (targetGTID : GTIDSet)
    (st : ScanState) (e : BinlogEvent) : ScanState * gtidExit :=
  match Payload e with
  | GTIDEvent sid gno =>
      match ParseMysqlGTIDSet (gtidStr sid gno) with
      | Err _ => (st, SkipEvent)
      | Ok currentGTID =>
          if Contain targetGTID currentGTID then
            if databaseMismatch c st then (setTransaction None st, SkipEvent)
            else
              (setTransaction
                 (Some (openTransaction file e sid gno (currentDatabase st))) st,
               FallThrough)
          else
            match result st with
            | Some r =>
                if String.eqb (NextGTID r) EmptyString then
                  (setResult
                     (Some (setNext (gtidStr sid gno) (LogPos (Header e)) r)) st,
                   FoundNext)
                else (setTransaction None st, FallThrough)
            | None => (setTransaction None st, FallThrough)
            end
      end
  | _ => (st, FallThrough)
  end.

(** Does the event end a transaction: an XID event, or a query event
    whose text is COMMIT. *)
Definition isCommit (e : BinlogEvent) : bool :=
  match Payload e with
  | XIDEvent => true
  | QueryEvent _ query => String.eqb query "COMMIT" || String.eqb query "commit"
  | _ => false
  end.

(** "Keep the match with highest GNO". *)
Definition keepHighest (r : option GTIDPosition) (t : GTIDPosition)
    : option GTIDPosition :=
  match r with
  | None => Some t
  | Some r0 => if GNO r0 <? GNO t then Some t else Some r0
  end.

(** "Track transaction end (XID_EVENT or COMMIT)". *)
Definition trackCommit (st : ScanState) (e : BinlogEvent) : ScanState :=
  match currentTransaction st with
  | Some t =>
      if isCommit e then
        let t' := setCommit (LogPos (Header e)) (replication.Timestamp (Header e)) t in
        setTransaction None (setResult (keepHighest (result st) t') st)
      else st
  | None => st
  end.

Definition found_next_gtid : error := Errorf "found_next_gtid".

(** The callback handed to [ParseFile]: the new values of the captured
    variables and the returned error. *)
Definition onEvent (c : Config) (file : string) (targetGTID : GTIDSet)
    (st : ScanState) (e : BinlogEvent) : ScanState * option error :=
  if beforeStart c e then (st, None)
  else if afterEnd c e then (st, None)
  else
    let st1 := trackDatabase st e in
    match onGTID c file targetGTID st1 e with
    | (st2, SkipEvent) => (st2, None)
    | (st2, FoundNext) => (st2, Some found_next_gtid)
    | (st2, FallThrough) => (trackCommit st2 e, None)
    end.

(** [ParseFile]: call [execution] on each event in order, return its
    error as soon as it gives one, and the stream's own outcome at the
    end. *)
Fixpoint parseEvents {S : Type} (execution : S -> BinlogEvent -> S * option error)
    (st : S) (evs : list BinlogEvent) (failure : option error)
    : S * option error :=
  match evs with
  | [] => (st, failure)
  | e :: rest =>
      match execution st e with
      | (st', Some err) => (st', Some err)
      | (st', None) => parseEvents execution st' rest failure
      end
  end.

Definition ParseFile {S : Type} (p : BinlogParser) (name : string)
    (execution : S -> BinlogEvent -> S * option error) (st : S)
    : S * option error :=
  parseEvents execution st (events (p name)) (failure (p name)).

Definition searchBinlogFile (s : Searcher) (filepath : string)
    (targetGTID : GTIDSet) : option GTIDPosition * option error :=
  let '(st, err) :=
    ParseFile (parserFactory s) filepath
      (onEvent (config s) filepath targetGTID) initialState in
  match err with
  | Some e =>
      if negb (String.eqb (Error e) "found_next_gtid") then (None, Some e)
      else (result st, None)
  | None => (result st, None)
  end.

End Tracker.

(** ** [CheckPreviousGTIDs], [sortSearch] and [FindStartFileUsingHeaders] *)

Section SmartSelection.

Context `{GTIDSetLib}.

(** The variables captured by the callback of [CheckPreviousGTIDs]. *)
Record HeaderState : Type := {
  previousGTIDs : option GTIDSet;
  foundHeader : bool;
}.

Definition noHeader : HeaderState :=
  {| previousGTIDs := None; foundHeader := false |}.

Definition stop_scan : error := Errorf "stop_scan".

Definition onHeaderEvent (st : HeaderState) (e : BinlogEvent)
    : HeaderState * option error :=
  match Payload e with
  | PreviousGTIDsEvent sets =>
      match ParseMysqlGTIDSet sets with
      | Err err => (st, Some (wrapError "failed to parse GTID set: " err))
      | Ok gtidSet =>
          ({| previousGTIDs := Some gtidSet; foundHeader := true |},
           Some stop_scan)
      end
  | _ => (st, None)
  end.

Definition CheckPreviousGTIDs (s : Searcher) (filepath : string)
    (targetGTID : GTIDSet) : bool * option error :=
  let '(st, err) :=
    ParseFile (parserFactory s) filepath onHeaderEvent noHeader in
  let verdict (_ : unit) :=
    match foundHeader st, previousGTIDs st with
    | true, Some prev => if Contain prev targetGTID then (true, None) else (false, None)
    | _, _ => (false, None)
    end in
  match err with
  | Some e =>
      if negb (String.eqb (Error e) "stop_scan") then (false, Some e)
      else verdict ()
  | None => verdict ()
  end.

(** [files[i]].  Every index used below is within the slice; outside it
    (where Go panics) the model answers the empty name. *)
Definition fileAt (files : list string) (i : Z) : string :=
  if i <? 0 then EmptyString else default EmptyString (files !! Z.to_nat i).

(** [sortSearch]: the loop [for i < j].  [int(uint(i+j) >> 1)] is written
    with the conversion to the unsigned word; the shifted value is below
    2^63, so converting it back to [int] changes nothing.  Each iteration
    shrinks [j - i], so [fuel] counts iterations and [sortSearch] hands
    out [n] of them (see [sortSearchLoop_fuel]). *)
Fixpoint sortSearchLoop (fuel : nat) (f : Z -> bool) (i j : Z) : Z :=
  match fuel with
  | O => i
  | S fuel' =>
      if i <? j then
        let h := Z.shiftr (uint64 (i + j)) 1 in
        if negb (f h) then sortSearchLoop fuel' f (h + 1) j
        else sortSearchLoop fuel' f i h
      else i
  end.

Definition sortSearch (n : Z) (f : Z -> bool) : Z :=
  sortSearchLoop (Z.to_nat n) f 0 n.

(** The closure passed to [sortSearch]: an error of the probe counts as
    "not contained". *)
Definition headerPredicate (s : Searcher) (files : list string)
    (targetGTID : GTIDSet) (i : Z) : bool :=
  match CheckPreviousGTIDs s (fileAt files i) targetGTID with
  | (_, Some _) => false
  | (skipped, None) => skipped
  end.

Definition FindStartFileUsingHeaders (s : Searcher) (files : list string)
    (targetGTID : GTIDSet) : string * option error :=
  let n := Z.of_nat (length files) in
  if n =? 0 then (EmptyString, Some (Errorf "no files to search"))
  else
    let idx := sortSearch n (headerPredicate s files targetGTID) in
    if idx =? 0 then (fileAt files 0, None)
    else if idx =? n then (fileAt files (n - 1), None)
    else (fileAt files (idx - 1), None).

(** The index the comments of [FindStartFileUsingHeaders] speak of, found
    the slow way: the first [i] in [[lo, lo + k)] where [P] holds, and
    [lo + k] when there is none. *)
Fixpoint firstTrueFrom (P : Z -> bool) (lo : Z) (k : nat) : Z :=
  match k with
  | O => lo
  | S k' => if P lo then lo else firstTrueFrom P (lo + 1) k'
  end.

Definition firstTrue (P : Z -> bool) (n : Z) : Z :=
  firstTrueFrom P 0 (Z.to_nat n).

(** Once true, true for every later file. *)
Definition monotonic (P : Z -> bool) (n : Z) : Prop :=
  forall i j, 0 <= i -> i <= j -> j < n -> P i = true -> P j = true.

End SmartSelection.

(** ** [RemoteSearcher.Search] *)

Module remote.

(** What one call of [streamer.GetEvent] with the 30 s deadline gives. *)
Inductive Delivery : Type :=
| Event (ev : BinlogEvent)
| DeadlineExceeded
| Failed (err : error).

(** The server side of a remote search: the outcome of [StartSync], then
    the deliveries in order.  When the list is over nothing more arrives,
    and the next [GetEvent] runs into its deadline. *)
Record Connection : Type := {
  startSyncError : option error;
  deliveries : list Delivery;
}.

End remote.

Section RemoteSearcher.

Context `{GTIDSetLib}.

Record RemoteState : Type := {
  scan : ScanState;
  startFile : string;
}.

(** "Handle Rotation to update filename". *)
Definition trackRotation (file : string) (e : BinlogEvent) : string :=
  match Payload e with
  | RotateEvent next => next
  | _ => file
  end.

(** "Transaction End" of the remote loop: the file name is refreshed on
    every event while a transaction is open. *)
Definition remoteTrackCommit (file : string) (st : ScanState)
    (e : BinlogEvent) : ScanState :=
  match currentTransaction st with
  | Some t =>
      trackCommit (setTransaction (Some (setBinlogFile file t)) st) e
  | None => st
  end.

(** One turn of the [for] loop on a delivered event: either the loop goes
    on with new variables, or [Search] returns. *)
Inductive turn : Type :=
| Continue (st : RemoteState)
| Return (r : option GTIDPosition) (err : option error).

Definition remoteEvent (c : Config) (targetGTID : GTIDSet)
    (st : RemoteState) (ev : BinlogEvent) : turn :=
  if beforeStart c ev then Continue st
  else if afterEnd c ev then Return (result (scan st)) None
  else
    let st1 := trackDatabase (scan st) ev in
    match onGTID c (startFile st) targetGTID st1 ev with
    | (st2, SkipEvent) => Continue {| scan := st2; startFile := startFile st |}
    | (st2, FoundNext) => Return (result st2) None
    | (st2, FallThrough) =>
        let file := trackRotation (startFile st) ev in
        Continue {| scan := remoteTrackCommit file st2 ev; startFile := file |}
    end.

Fixpoint remoteLoop (c : Config) (targetGTID : GTIDSet) (st : RemoteState)
    (ds : list remote.Delivery) : option GTIDPosition * option error :=
  match ds with
  | [] => (result (scan st), None)
  | remote.DeadlineExceeded :: _ => (result (scan st), None)
  | remote.Failed err :: _ => (None, Some (wrapError "get event error: " err))
  | remote.Event ev :: rest =>
      match remoteEvent c targetGTID st ev with
      | Continue st' => remoteLoop c targetGTID st' rest
      | Return r err => (r, err)
      end
  end.

(** [RemoteSearcher.Search] *)
Definition RemoteSearch (c : Config) (conn : remote.Connection)
    (targetGTID : GTIDSet) : option GTIDPosition * option error :=
  if String.eqb (StartFile c) EmptyString then
    (None, Some (Errorf "remote search currently requires -start-file to be specified"))
  else
    match remote.startSyncError conn with
    | Some err => (None, Some (wrapError "failed to start sync: " err))
    | None =>
        remoteLoop c targetGTID
          {| scan := initialState; startFile := StartFile c |}
          (remote.deliveries conn)
    end.

End RemoteSearcher.

(** ** [SearchParallel] (searcher/binlog.go)

    One goroutine per file.  Each goroutine is a short straight-line
    program, so its state is a program counter; the shared state is the
    cancellation flag of [ctx], the two buffered channels (which never fill:
    their capacity is the number of files) and the semaphore, whose
    occupancy is the number of goroutines between their send to it and
    their deferred receive.  A run is a schedule: the list of goroutines in
    the order in which they take their steps. *)

Module coordinator.

Inductive pc : Type :=
| Queued       (* before [semaphore <- struct{}{}] *)
| Holding      (* slot taken, before the [select] on [ctx.Done()] *)
| Scanning     (* before [searchBinlogFile] and the send of its outcome *)
| Cancelling   (* result sent, before [cancel()] *)
| Exiting      (* before the deferred [<-semaphore] and [wg.Done()] *)
| Finished.

Record State : Type := {
  tasks : list pc;
  cancelled : bool;
  resultChan : list GTIDPosition;   (* in the order sent *)
  errorChan : list error;
}.

Definition holdsSlot (p : pc) : bool :=
  match p with
  | Holding | Scanning | Cancelling | Exiting => true
  | Queued | Finished => false
  end.

Definition inUse (st : State) : Z :=
  Z.of_nat (length (filter (fun p => holdsSlot p = true) (tasks st))).

Definition isFinished (p : pc) : bool :=
  match p with Finished => true | _ => false end.

Definition setTask (i : nat) (p : pc) (st : State) : State :=
  {| tasks := <[i := p]> (tasks st); cancelled := cancelled st;
     resultChan := resultChan st; errorChan := errorChan st |}.

End coordinator.

Section Coordinator.

Context `{GTIDSetLib}.

Import coordinator.

Definition initialCoordinator (files : list string) : State :=
  {| tasks := replicate (length files) Queued; cancelled := false;
     resultChan := []; errorChan := [] |}.

(** The next step of goroutine [i], when it can take one. *)
Definition stepTask (s : Searcher) (files : list string) (targetGTID : GTIDSet)
    (st : State) (i : nat) : option State :=
  match tasks st !! i, files !! i with
  | Some Queued, Some _ =>
      if inUse st <? Parallel (config s) then Some (setTask i Holding st) else None
  | Some Holding, Some _ =>
      Some (setTask i (if cancelled st then Exiting else Scanning) st)
  | Some Scanning, Some filepath =>
      match searchBinlogFile s filepath targetGTID with
      | (_, Some err) =>
          Some {| tasks := <[i := Exiting]> (tasks st); cancelled := cancelled st;
                  resultChan := resultChan st;
                  errorChan := errorChan st ++
                    [wrapError ("error scanning " +:+ filepath +:+ ": ") err] |}
      | (Some r, None) =>
          Some {| tasks := <[i := Cancelling]> (tasks st); cancelled := cancelled st;
                  resultChan := resultChan st ++ [r];
                  errorChan := errorChan st |}
      | (None, None) => Some (setTask i Exiting st)
      end
  | Some Cancelling, Some _ =>
      Some {| tasks := <[i := Exiting]> (tasks st); cancelled := true;
              resultChan := resultChan st; errorChan := errorChan st |}
  | Some Exiting, Some _ => Some (setTask i Finished st)
  | _, _ => None
  end.

Fixpoint runSchedule (s : Searcher) (files : list string) (targetGTID : GTIDSet)
    (st : State) (schedule : list nat) : option State :=
  match schedule with
  | [] => Some st
  | i :: rest =>
      match stepTask s files targetGTID st i with
      | Some st' => runSchedule s files targetGTID st' rest
      | None => None
      end
  end.

(** "Collect best result (highest GNO)": the loop over [resultChan], with
    the same test as in the callback of [searchBinlogFile]. *)
Definition collectBest (results : list GTIDPosition) : option GTIDPosition :=
  foldl keepHighest None results.

(** The same searcher with another width of the semaphore. *)
Definition withParallelism (n : Z) (s : Searcher) : Searcher :=
  {| config :=
       {| StartFile := StartFile (config s); Parallel := n;
          FilterDatabase := FilterDatabase (config s);
          StartTime := StartTime (config s); EndTime := EndTime (config s) |};
     parserFactory := parserFactory s |}.

(** [wg.Wait()] has returned: every goroutine is through. *)
Definition allFinished (st : State) : bool :=
  forallb isFinished (tasks st).

(** What [SearchParallel] returns under a schedule; [None] when the
    schedule is not a complete run (it asks a goroutine for a step it cannot
    take, or leaves one unfinished), and when [make] panics on a negative
    width.  With width 0 no goroutine ever gets its slot. *)
Definition SearchParallel (s : Searcher) (files : list string)
    (targetGTID : GTIDSet) (schedule : list nat)
    : option (option GTIDPosition * option error) :=
  if Parallel (config s) <? 0 then None
  else
    match runSchedule s files targetGTID (initialCoordinator files) schedule with
    | Some st =>
        if allFinished st then Some (collectBest (resultChan st), None) else None
    | None => None
    end.

(** The results that [SearchParallel] can return. *)
Definition mayReturn (s : Searcher) (files : list string)
    (targetGTID : GTIDSet) (r : option GTIDPosition) : Prop :=
  exists schedule, SearchParallel s files targetGTID schedule = Some (r, None).

End Coordinator.

(** ** A GTID-set library to run the searchers on

    The sets of package [mysql] of go-mysql, which is not part of this
    repository: a map from server UUID to half-open intervals of
    transaction numbers, built from the text [UUID:n] or
    [UUID:n-m[:n-m...][,UUID:...]], with "contains" as interval
    inclusion. *)

Module mysql.

Record Interval : Type := { Start : Z; Stop : Z }.

Fixpoint splitOn (sep : ascii) (s : string) : list string :=
  match s with
  | EmptyString => [EmptyString]
  | String c rest =>
      if Ascii.eqb c sep then EmptyString :: splitOn sep rest
      else
        match splitOn sep rest with
        | w :: ws => String c w :: ws
        | [] => [String c EmptyString]
        end
  end.

Definition digitOf (c : ascii) : option Z :=
  let n := Z.of_N (N_of_ascii c) in
  if (48 <=? n) && (n <=? 57) then Some (n - 48) else None.

Fixpoint parseDigits (acc : Z) (s : string) : option Z :=
  match s with
  | EmptyString => Some acc
  | String c rest =>
      match digitOf c with
      | Some v => parseDigits (acc * 10 + v) rest
      | None => None
      end
  end.

(** [strconv.ParseInt(s, 10, 64)] *)
Definition ParseInt (s : string) : option Z :=
  let checked (v : option Z) :=
    match v with
    | Some z => if (- 2 ^ 63 <=? z) && (z <? 2 ^ 63) then Some z else None
    | None => None
    end in
  match s with
  | EmptyString => None
  | String "-"%char EmptyString => None
  | String "+"%char EmptyString => None
  | String "-"%char rest => checked (Z.opp <$> parseDigits 0 rest)
  | String "+"%char rest => checked (parseDigits 0 rest)
  | _ => checked (parseDigits 0 s)
  end.

Definition parseInterval (s : string) : option Interval :=
  match splitOn "-" s with
  | [a] =>
      match ParseInt a with
      | Some n => Some {| Start := n; Stop := n + 1 |}
      | None => None
      end
  | [a; b] =>
      match ParseInt a, ParseInt b with
      | Some n, Some m => if m + 1 <=? n then None else Some {| Start := n; Stop := m + 1 |}
      | _, _ => None
      end
  | _ => None
  end.

Fixpoint insertSorted (iv : Interval) (l : list Interval) : list Interval :=
  match l with
  | [] => [iv]
  | x :: rest => if Start iv <=? Start x then iv :: l else x :: insertSorted iv rest
  end.

(** Merge a list sorted by [Start]; [last] is the interval being grown. *)
Fixpoint mergeSorted (last : Interval) (l : list Interval) : list Interval :=
  match l with
  | [] => [last]
  | x :: rest =>
      if Stop last <? Start x then last :: mergeSorted x rest
      else mergeSorted {| Start := Start last; Stop := Z.max (Stop last) (Stop x) |} rest
  end.

Definition Normalize (l : list Interval) : list Interval :=
  match foldr insertSorted [] l with
  | [] => []
  | x :: rest => mergeSorted x rest
  end.

Definition isHex (c : ascii) : bool :=
  let n := Z.of_N (N_of_ascii c) in
  ((48 <=? n) && (n <=? 57)) || ((97 <=? n) && (n <=? 102)) || ((65 <=? n) && (n <=? 70)).

Definition lower (c : ascii) : ascii :=
  let n := N_of_ascii c in
  if ((65 <=? n) && (n <=? 90))%N then ascii_of_N (n + 32) else c.

Fixpoint lowerString (s : string) : string :=
  match s with
  | EmptyString => EmptyString
  | String c rest => String (lower c) (lowerString rest)
  end.

(** The canonical form 8-4-4-4-12 of a UUID. *)
Fixpoint uuidShape (groups : list nat) (s : string) : bool :=
  match groups with
  | [] => false
  | O :: [] => if s is EmptyString then true else false
  | O :: more => if s is String "-"%char rest then uuidShape more rest else false
  | S k :: more => if s is String c rest then isHex c && uuidShape (k :: more) rest else false
  end.

Definition parseUUID (s : string) : option string :=
  if uuidShape [8; 4; 4; 4; 12]%nat s then Some (lowerString s) else None.

Definition MysqlGTIDSet : Type := gmap string (list Interval).

Definition ParseUUIDSet (s : string) : option (string * list Interval) :=
  match splitOn ":" s with
  | uuid :: first :: more =>
      match parseUUID uuid, mapM parseInterval (first :: more) with
      | Some sid, Some ivs => Some (sid, Normalize ivs)
      | _, _ => None
      end
  | _ => None
  end.

Definition AddSet (set : string * list Interval) (m : gmap string (list Interval))
    : gmap string (list Interval) :=
  match m !! set.1 with
  | Some ivs => <[set.1 := Normalize (ivs ++ set.2)]> m
  | None => <[set.1 := set.2]> m
  end.

(** Modelled from the spec: [parse(text) -> (GTIDSet, error)] of section 6,
    on the textual form of section 3; go-mysql is not part of the
    repository. *)
Definition ParseMysqlGTIDSet (s : string) : res (gmap string (list Interval)) :=
  if String.eqb s EmptyString then Ok ∅
  else
    match mapM ParseUUIDSet (splitOn "," s) with
    | Some sets => Ok (foldl (fun m set => AddSet set m) ∅ sets)
    | None => Err (Errorf ("invalid GTID set: " +:+ s))
    end.

Fixpoint dropBefore (x : Z) (s : list Interval) : list Interval :=
  match s with
  | [] => []
  | iv :: rest => if Stop iv <? x then dropBefore x rest else s
  end.

Fixpoint containIntervals (s sub : list Interval) : bool :=
  match sub with
  | [] => true
  | iv :: rest =>
      match dropBefore (Start iv) s with
      | [] => false
      | sj :: _ as s' =>
          if (Start iv <? Start sj) || (Stop sj <? Stop iv) then false
          else containIntervals s' rest
      end
  end.

(** Modelled from the spec: [contains(A, B)], "does set A fully contain set
    B"; go-mysql is not part of the repository. *)
Definition Contain (s sub : gmap string (list Interval)) : bool :=
  map_fold
    (fun sid ivs acc =>
       acc && match s !! sid with
              | Some mine => containIntervals mine ivs
              | None => false
              end)
    true sub.

End mysql.

(** Modelled from the spec: the GTID-set value type of go-mysql, an external
    dependency of the repository, with the two operations of section 6:
    [parse(text)] and [contains(A, B)]. *)
Definition mysqlLib : GTIDSetLib := {|
  GTIDSet := gmap string (list mysql.Interval);
  ParseMysqlGTIDSet := mysql.ParseMysqlGTIDSet;
  Contain := mysql.Contain;
|}.

(** ** The mock parsers of the Go tests (searcher/binlog_test.go) *)

(** [SmartMockParser]: dispatches on the file name. *)
Definition SmartMockParser (files : gmap string Stream) : BinlogParser :=
  fun name =>
    match files !! name with
    | Some stream => stream
    | None =>
        {| events := [];
           failure := Some (Errorf ("file not found in mock: " +:+ name)) |}
    end.

(** [MockBinlogParser]: one stream whatever the name. *)
Definition MockBinlogParser (evs : list BinlogEvent) (forcedError : option error)
    : BinlogParser :=
  fun _ => {| events := evs; failure := forcedError |}.

(** ** Observations on a scan

    Specification-side functions: they record what a scan does, built from
    the pieces of the callback above, and are not part of the program. *)

Section Observations.

Context `{GTIDSetLib}.

(** The transaction that the callback promotes at event [e], as it stands
    right after its commit fields are set. *)
Definition committedAt (c : Config) (file : string) (targetGTID : GTIDSet)
    (st : ScanState) (e : BinlogEvent) : option GTIDPosition :=
  if beforeStart c e then None
  else if afterEnd c e then None
  else
    match onGTID c file targetGTID (trackDatabase st e) e with
    | (st2, FallThrough) =>
        match currentTransaction st2 with
        | Some t =>
            if isCommit e then
              Some (setCommit (LogPos (Header e)) (replication.Timestamp (Header e)) t)
            else None
        | None => None
        end
    | _ => None
    end.

(** Every transaction committed while the scan runs, in order: the
    "committed matches observed in one scan".  Nothing is observed once the
    callback has stopped the scan. *)
Fixpoint committed (c : Config) (file : string) (targetGTID : GTIDSet)
    (st : ScanState) (evs : list BinlogEvent) : list GTIDPosition :=
  match evs with
  | [] => []
  | e :: rest =>
      match onEvent c file targetGTID st e with
      | (st', None) =>
          option_list (committedAt c file targetGTID st e)
          ++ committed c file targetGTID st' rest
      | (_, Some _) => []
      end
  end.

(** The scan of an event list, without the stream's own outcome. *)
Definition scanEvents (c : Config) (file : string) (targetGTID : GTIDSet)
    (st : ScanState) (evs : list BinlogEvent) : ScanState * option error :=
  parseEvents (onEvent c file targetGTID) st evs None.

(** The remote loop over a list of delivered events: where it stands
    afterwards. *)
Fixpoint remoteEvents (c : Config) (targetGTID : GTIDSet) (st : RemoteState)
    (evs : list BinlogEvent) : turn :=
  match evs with
  | [] => Continue st
  | ev :: rest =>
      match remoteEvent c targetGTID st ev with
      | Continue st' => remoteEvents c targetGTID st' rest
      | Return r err => Return r err
      end
  end.

End Observations.

(** The events among a list of deliveries. *)
Definition deliveredEvents (ds : list remote.Delivery) : list BinlogEvent :=
  omap (fun d => match d with remote.Event ev => Some ev | _ => None end) ds.

(** Offsets as a single well-formed binlog file has them: every field a
    [uint32], no event larger than its end offset, and end offsets that
    never decrease from [lo] on. *)
Fixpoint offsetsAscend (lo : Z) (evs : list BinlogEvent) : bool :=
  match evs with
  | [] => true
  | e :: rest =>
      (lo <=? LogPos (Header e))
      && (0 <=? EventSize (Header e))
      && (EventSize (Header e) <=? LogPos (Header e))
      && (LogPos (Header e) <? 2 ^ 32)
      && offsetsAscend (LogPos (Header e)) rest
  end.

(** The order that the data model asks of a returned position. *)
Definition ordered (p : GTIDPosition) : Prop :=
  Position p <= CommitPosition p /\ CommitPosition p <= ResumePosition p.

(** ** Invariants

    Specification-side predicates on the states above, used by the
    proofs. *)

Section Invariants.

Context `{GTIDSetLib}.

(** While the scan runs, the best match carries no next GTID and resumes
    where it commits; an open transaction carries no next GTID either. *)
Definition unfinished (st : ScanState) : Prop :=
  (forall r, result st = Some r ->
     NextGTID r = EmptyString /\ ResumePosition r = CommitPosition r)
  /\ (forall t, currentTransaction st = Some t -> NextGTID t = EmptyString).

(** Every position held by the scan is ordered and lies at or below the
    last end offset [m] seen. *)
Definition within (m : Z) (st : ScanState) : Prop :=
  (forall r, result st = Some r -> ordered r /\ ResumePosition r <= m)
  /\ (forall t, currentTransaction st = Some t ->
        Position t <= CommitPosition t /\ CommitPosition t <= m).

Definition offsetOk (lo : Z) (e : BinlogEvent) : Prop :=
  lo <= LogPos (Header e)
  /\ 0 <= EventSize (Header e) <= LogPos (Header e)
  /\ LogPos (Header e) < 2 ^ 32.

(** [r] is what the scan of file [f] finds. *)
Definition isMatch (s : Searcher) (targetGTID : GTIDSet) (f : string)
    (r : GTIDPosition) : Prop :=
  searchBinlogFile s f targetGTID = (Some r, None).

(** What a goroutine at [p], working on file [f], has contributed. *)
Definition accounted (s : Searcher) (targetGTID : GTIDSet)
    (st : coordinator.State) (p : coordinator.pc) (f : string) : Prop :=
  match p with
  | coordinator.Cancelling => coordinator.resultChan st <> []
  | coordinator.Exiting | coordinator.Finished =>
      coordinator.resultChan st <> [] \/ forall r, ~ isMatch s targetGTID f r
  | _ => True
  end.

(** Every published result is the match of one of the files; the flag is
    only raised after a result is published; and a goroutine only leaves
    without publishing when its file has no match or a result is already
    there. *)
Definition coherent (s : Searcher) (files : list string) (targetGTID : GTIDSet)
    (st : coordinator.State) : Prop :=
  Forall (fun r => exists f, f ∈ files /\ isMatch s targetGTID f r)
    (coordinator.resultChan st)
  /\ (coordinator.cancelled st = true -> coordinator.resultChan st <> [])
  /\ (forall i p f, coordinator.tasks st !! i = Some p -> files !! i = Some f ->
        accounted s targetGTID st p f).

End Invariants.

(** ** The transactions of a sequence, in the words of the specification

    Section 4.1 of the specification read on a whole event sequence,
    without the early termination of its rule 3: the transactions of the
    target set that commit in the sequence, in order.  The scan is compared
    with this reading. *)

Section Sequence.

Context `{GTIDSetLib}.

(** Rule 3, second case: a GTID event within the time bounds whose GTID
    decodes and is not contained in the target set. *)
Definition outsideTarget (c : Config) (targetGTID : GTIDSet) (e : BinlogEvent)
    : bool :=
  negb (beforeStart c e || afterEnd c e)
  && match Payload e with
     | GTIDEvent sid gno =>
         match ParseMysqlGTIDSet (gtidStr sid gno) with
         | Ok gtid => negb (Contain targetGTID gtid)
         | Err _ => false
         end
     | _ => false
     end.

(** Rules 1 to 4 from the current database [database] and the open
    transaction [inFlight]: an event outside the time bounds is skipped; a
    query event with a schema sets the current database; a GTID event of
    the target set opens a transaction, unless a database filter is set
    and the current database is another, and any other readable GTID event
    discards the open transaction; an XID event or a COMMIT query commits
    the open transaction. *)
Fixpoint commitsFrom (c : Config) (file : string) (targetGTID : GTIDSet)
    (database : string) (inFlight : option GTIDPosition)
    (evs : list BinlogEvent) : list GTIDPosition :=
  match evs with
  | [] => []
  | e :: rest =>
      if beforeStart c e || afterEnd c e then
        commitsFrom c file targetGTID database inFlight rest
      else
        match Payload e with
        | GTIDEvent sid gno =>
            match ParseMysqlGTIDSet (gtidStr sid gno) with
            | Err _ => commitsFrom c file targetGTID database inFlight rest
            | Ok gtid =>
                if Contain targetGTID gtid then
                  if negb (String.eqb (FilterDatabase c) EmptyString)
                     && negb (String.eqb database (FilterDatabase c))
                  then commitsFrom c file targetGTID database None rest
                  else
                    commitsFrom c file targetGTID database
                      (Some (openTransaction file e sid gno database)) rest
                else commitsFrom c file targetGTID database None rest
            end
        | payload =>
            let database :=
              match payload with
              | QueryEvent schema _ =>
                  if String.eqb schema EmptyString then database else schema
              | _ => database
              end in
            match inFlight with
            | Some t =>
                if isCommit e then
                  setCommit (LogPos (Header e)) (replication.Timestamp (Header e)) t
                  :: commitsFrom c file targetGTID database None rest
                else commitsFrom c file targetGTID database inFlight rest
            | None => commitsFrom c file targetGTID database None rest
            end
        end
  end.

(** The transactions of the target set that commit in a sequence. *)
Definition inRangeCommits (c : Config) (file : string) (targetGTID : GTIDSet)
    (evs : list BinlogEvent) : list GTIDPosition :=
  commitsFrom c file targetGTID EmptyString None evs.

End Sequence.

(** ** Inputs of the Go tests and of the specification's scenarios *)

Module scenario.

(** 3e11fa47-71ca-11e1-9e33-c80aa9429562 *)
Definition sid : list Byte.byte :=
  [Byte.x3e; Byte.x11; Byte.xfa; Byte.x47; Byte.x71; Byte.xca; Byte.x11;
   Byte.xe1; Byte.x9e; Byte.x33; Byte.xc8; Byte.x0a; Byte.xa9; Byte.x42;
   Byte.x95; Byte.x62].

Definition U : string := "3e11fa47-71ca-11e1-9e33-c80aa9429562".

Definition event (ts pos size : Z) (payload : Event) : BinlogEvent :=
  {| Header := {| replication.Timestamp := ts; LogPos := pos; EventSize := size |};
     Payload := payload |}.

Definition parsed (text : string) : gmap string (list mysql.Interval) :=
  match mysql.ParseMysqlGTIDSet text with
  | Ok set => set
  | Err _ => ∅
  end.

(** U:1-100 *)
Definition target : gmap string (list mysql.Interval) := parsed (U +:+ ":1-100").

Definition plainConfig : Config :=
  {| StartFile := "mysql-bin.000001"; Parallel := 2; FilterDatabase := EmptyString;
     StartTime := time.Zero; EndTime := time.Zero |}.

Definition withParallel (n : Z) : Config :=
  {| StartFile := "mysql-bin.000001"; Parallel := n; FilterDatabase := EmptyString;
     StartTime := time.Zero; EndTime := time.Zero |}.

(** An end-time bound at second 1000. *)
Definition endAt1000 : Config :=
  {| StartFile := "mysql-bin.000001"; Parallel := 2; FilterDatabase := EmptyString;
     StartTime := time.Zero; EndTime := time.Unix 1000 |}.

Definition mock (c : Config) (evs : list BinlogEvent) : Searcher :=
  {| config := c; parserFactory := MockBinlogParser evs None |}.

Definition header (text : string) : Stream :=
  {| events := [event 0 0 0 (PreviousGTIDsEvent text)]; failure := None |}.

Definition body (evs : list BinlogEvent) : Stream :=
  {| events := evs; failure := None |}.

(** Headers U:1-50, U:1-80, U:1-120 ([TestFindStartFileUsingHeaders]). *)
Definition threeHeaders : Searcher :=
  {| config := plainConfig;
     parserFactory :=
       SmartMockParser
         (<["bin.001" := header (U +:+ ":1-50")]>
          (<["bin.002" := header (U +:+ ":1-80")]>
           (<["bin.003" := header (U +:+ ":1-120")]> ∅))) |}.

(** The committed record of transaction [gno] that started at [pos] and
    committed at [commit], as the scan of [file] builds it. *)
Definition matchOf (file : string) (pos commit ts gno : Z) : GTIDPosition :=
  {| BinlogFile := file; Position := pos; CommitPosition := commit;
     ResumePosition := commit; models.Timestamp := ts;
     GTID := U +:+ ":" +:+ fmt.d gno; ServerUUID := U; GNO := gno;
     Database := EmptyString; NextGTID := EmptyString |}.

(** [GTID(U,50) start, XID commit@2000] *)
Definition oneTransaction : list BinlogEvent :=
  [event 10 1000 100 (GTIDEvent sid 50); event 10 2000 100 XIDEvent].

(** The same plus a trailing GTID(U,200) at end offset 2100. *)
Definition withNextGTID : list BinlogEvent :=
  oneTransaction ++ [event 10 2100 100 (GTIDEvent sid 200)].

(** Two transactions of the target set and the next GTID
    ([TestResumePosition_HighestGNOInRange]). *)
Definition twoTransactions : list BinlogEvent :=
  [event 10 500 100 (GTIDEvent sid 10); event 10 600 100 XIDEvent;
   event 10 1500 100 (GTIDEvent sid 50); event 10 2000 100 XIDEvent;
   event 10 2500 100 (GTIDEvent sid 200)].

(** A committed transaction followed by a GTID that is itself in the
    target set and has not committed when the file ends. *)
Definition nextInRange : list BinlogEvent :=
  [event 10 1000 100 (GTIDEvent sid 10); event 10 2000 100 XIDEvent;
   event 10 3000 100 (GTIDEvent sid 50)].

(** A GTID event whose size field exceeds its end offset. *)
Definition oversized : list BinlogEvent :=
  [event 10 50 100 (GTIDEvent sid 50); event 10 2000 100 XIDEvent].

(** A rotation between the commit and the next GTID: the next GTID sits
    near the start of the new file. *)
Definition rotated : list remote.Delivery :=
  [remote.Event (event 10 1000 100 (GTIDEvent sid 50));
   remote.Event (event 10 2000 100 XIDEvent);
   remote.Event (event 10 0 50 (RotateEvent "mysql-bin.000002"));
   remote.Event (event 10 300 65 (GTIDEvent sid 200))].

(** An event later than the end-time bound, then a whole transaction
    stamped within it. *)
Definition lateThenMatch : list BinlogEvent :=
  [event 2000 120 100 GenericEvent;
   event 10 1000 100 (GTIDEvent sid 50); event 10 2000 100 XIDEvent].

(** Two files, each holding one committed transaction of the target set. *)
Definition twoMatches (n : Z) : Searcher :=
  {| config := withParallel n;
     parserFactory :=
       SmartMockParser
         (<["bin.001" :=
              body [event 10 1000 100 (GTIDEvent sid 10); event 10 2000 100 XIDEvent]]>
          (<["bin.002" :=
               body [event 20 1000 100 (GTIDEvent sid 50); event 20 2000 100 XIDEvent]]>
           ∅)) |}.

(** A stream that breaks with a read error ([TestSearchBinlogFile_Error]). *)
Definition readError : Searcher :=
  {| config := plainConfig;
     parserFactory := MockBinlogParser oneTransaction (Some (Errorf "read error")) |}.

Definition connection (ds : list remote.Delivery) : remote.Connection :=
  {| remote.startSyncError := None; remote.deliveries := ds |}.

(** Goroutine 0 runs to its end before goroutine 1 gets its slot. *)
Definition oneAfterTheOther : list nat := [0; 0; 0; 0; 0; 1; 1; 1]%nat.

(** Both goroutines pass the cancellation check before either publishes. *)
Definition sideBySide : list nat := [0; 1; 0; 1; 0; 1; 0; 1; 0; 1]%nat.

End scenario.

From stdpp Require sorting.


(** ** Further observations *)

Section MoreObservations.

Context `{GTIDSetLib}.

(** Does the event carry a GTID that parses and lies in the target set. *)
Definition inTarget (targetGTID : GTIDSet) (e : BinlogEvent) : bool :=
  match Payload e with
  | GTIDEvent sid gno =>
      match ParseMysqlGTIDSet (gtidStr sid gno) with
      | Ok currentGTID => Contain targetGTID currentGTID
      | Err _ => false
      end
  | _ => false
  end.

(** The identity of [p] is that of the GTID event [e]. *)
Definition openedBy (targetGTID : GTIDSet) (e : BinlogEvent) (p : GTIDPosition)
    : Prop :=
  exists sid gno,
    Payload e = GTIDEvent sid gno
    /\ inTarget targetGTID e = true
    /\ Position p = uint32 (LogPos (Header e) - EventSize (Header e))
    /\ GTID p = gtidStr sid gno
    /\ ServerUUID p = uuidStr sid
    /\ GNO p = uint64 gno.

(** The commit fields of [p] are those of the event [e]. *)
Definition committedBy (e : BinlogEvent) (p : GTIDPosition) : Prop :=
  isCommit e = true
  /\ CommitPosition p = LogPos (Header e)
  /\ models.Timestamp p = replication.Timestamp (Header e).

(** Is the event a rotation to another file. *)
Definition isRotate (e : BinlogEvent) : bool :=
  match Payload e with RotateEvent _ => true | _ => false end.

(** The first file, in the order of the list, whose scan finds a match. *)
Fixpoint firstMatch (s : Searcher) (targetGTID : GTIDSet) (files : list string)
    : option GTIDPosition :=
  match files with
  | [] => None
  | f :: rest =>
      match searchBinlogFile s f targetGTID with
      | (Some r, None) => Some r
      | _ => firstMatch s targetGTID rest
      end
  end.

(** The schedule that runs the goroutines one after the other, in the
    order of the files, from goroutine [i] on: five steps for a goroutine
    that publishes, four for one that scans and finds nothing, three for
    one that finds the context cancelled. *)
Fixpoint sequentialFrom (s : Searcher) (targetGTID : GTIDSet) (i : nat)
    (cancelled : bool) (files : list string) : list nat :=
  match files with
  | [] => []
  | f :: rest =>
      if cancelled then replicate 3 i ++ sequentialFrom s targetGTID (S i) true rest
      else
        match searchBinlogFile s f targetGTID with
        | (Some _, None) =>
            replicate 5 i ++ sequentialFrom s targetGTID (S i) true rest
        | _ => replicate 4 i ++ sequentialFrom s targetGTID (S i) false rest
        end
  end.

(** The event passes both time bounds of the configuration. *)
Definition inWindow (c : Config) (e : BinlogEvent) : bool :=
  negb (beforeStart c e) && negb (afterEnd c e).

(** The delivery is not an event from before the start time. *)
Definition notEarly (c : Config) (d : remote.Delivery) : bool :=
  match d with
  | remote.Event ev => negb (beforeStart c ev)
  | _ => true
  end.

(** The goroutines that have sent what they had to send. *)
Definition pastScan (p : coordinator.pc) : bool :=
  match p with
  | coordinator.Cancelling | coordinator.Exiting | coordinator.Finished => true
  | _ => false
  end.

End MoreObservations.

(** ** parser/gtid.go *)

Module parser.

Import mysql.

Section WithStrings.

(** [strings.TrimSpace] *)
Variable TrimSpace : string -> string.

Definition ParseGTID (gtidStr : string) : res MysqlGTIDSet :=
  if String.eqb gtidStr "" then Err (Errorf "GTID string cannot be empty")
  else
    let gtidStr := TrimSpace gtidStr in
    match ParseMysqlGTIDSet gtidStr with
    | Err err => Err (wrapError ("invalid GTID format '" +:+ gtidStr +:+ "': ") err)
    | Ok gtidSet => Ok gtidSet
    end.

End WithStrings.

Record UUIDInfo : Type := {
  UUID : string;
  MaxTransaction : Z;
  MinTransaction : Z;
  TotalCount : Z;
}.

(** The body of the loop of [ExtractUUIDs] for one entry of the map; no
    information for a UUID without intervals. *)
Definition infoOf (uuid : string) (intervals : list Interval) : option UUIDInfo :=
  match intervals, last intervals with
  | first :: _, Some final =>
      Some {| UUID := uuid;
              MinTransaction := uint64 (Start first);
              MaxTransaction := uint64 (Stop final - 1);
              TotalCount :=
                foldl (fun total interval =>
                         uint64 (total + uint64 (Stop interval - Start interval)))
                      0 intervals |}
  | _, _ => None
  end.

(** [ExtractUUIDs] on a set that is a [MysqlGTIDSet]; [ranged] is
    [mysqlSet.Sets] in the order in which the [range] statement yields
    its entries, which Go leaves open. *)
Definition ExtractUUIDs (ranged : list (string * list Interval)) : list UUIDInfo :=
  omap (fun entry => infoOf entry.1 entry.2) ranged.

Definition higher (activeMaster info : UUIDInfo) : UUIDInfo :=
  if MaxTransaction activeMaster <? MaxTransaction info then info else activeMaster.

Definition FindActiveMasterUUID (ranged : list (string * list Interval))
    : res string :=
  match ExtractUUIDs ranged with
  | [] => Err (Errorf "no UUIDs found in GTID set")
  | first :: rest => Ok (UUID (foldl higher first rest))
  end.

Fixpoint FilterByUUID (ranged : list (string * list Interval)) (targetUUID : string)
    : res MysqlGTIDSet :=
  match ranged with
  | [] => Err (Errorf ("UUID " +:+ targetUUID +:+ " not found in GTID set"))
  | (uuid, intervals) :: rest =>
      if String.eqb uuid targetUUID then Ok {[ uuid := intervals ]}
      else FilterByUUID rest targetUUID
  end.

(** The highest transaction number of a UUID, as [ExtractUUIDs] computes
    it. *)
Definition highest (intervals : list Interval) : option Z :=
  (fun final => uint64 (Stop final - 1)) <$> last intervals.

End parser.

(** ** [GetBinlogFiles] (searcher/binlog.go) *)

Module gostrings.

(** [strings.HasSuffix] *)
Fixpoint HasSuffix (s suffix : string) : bool :=
  String.eqb s suffix
  || match s with
     | EmptyString => false
     | String _ rest => HasSuffix rest suffix
     end.

End gostrings.

Module gosort.

(** The order of [sort.Strings]: Go's [<=] on strings, byte by byte. *)
Definition stringLe (a b : string) : Prop := String.leb a b = true.

#[global] Instance stringLe_dec : RelDecision stringLe :=
  fun a b => decide (String.leb a b = true).

(** [sort.Strings]; equal strings cannot be told apart, so that the
    sorted list does not depend on the algorithm. *)
Definition Strings (l : list string) : list string := sorting.merge_sort stringLe l.

End gosort.

Section Discovery.

(** [filepath.Join] and [filepath.Glob]. *)
Variable Join : string -> string -> string.
Variable Glob : string -> res (list string).

Definition GetBinlogFiles (dir pattern : string) : res (list string) :=
  match Glob (Join dir pattern) with
  | Err err => Err (wrapError "failed to glob files: " err)
  | Ok files =>
      Ok (gosort.Strings
            (filter (fun f => gostrings.HasSuffix f ".index" = false) files))
  end.

End Discovery.

(** ** main.go *)

Module cli.

(** The fields of [models.Config] that only [main] reads, beside those the
    searchers read. *)
Record Flags : Type := {
  search : Config;
  BinlogDir : string;
  TargetGTID : string;
  GTIDFile : string;
  FilePattern : string;
  OutputFormat : string;
  FindActiveMaster : bool;
  FilterUUID : string;
  Host : string;
  User : string;
  Password : string;
}.

(** [ExportFormat.IsValid] *)
Definition IsValid (f : string) : bool :=
  String.eqb f "console" || String.eqb f "csv" || String.eqb f "json".

Section WithOS.

(** [os.Stat] followed by [os.IsNotExist], and [filepath.Base]. *)
Variable notExist : string -> bool.
Variable Base : string -> string.

Definition validateConfig (cfg : Flags) : option error :=
  if String.eqb (BinlogDir cfg) "" && String.eqb (Host cfg) "" then
    Some (Errorf "either binlog directory (-dir) or mysql host (-host) is required")
  else if negb (String.eqb (BinlogDir cfg) "") && negb (String.eqb (Host cfg) "") then
    Some (Errorf "cannot specify both -dir and -host")
  else if negb (String.eqb (Host cfg) "")
          && (String.eqb (User cfg) "" || String.eqb (Password cfg) "") then
    Some (Errorf "user and password are required when using -host")
  else if String.eqb (TargetGTID cfg) "" && String.eqb (GTIDFile cfg) "" then
    Some (Errorf "either -gtid or -gtid-file is required")
  else if negb (String.eqb (TargetGTID cfg) "") && negb (String.eqb (GTIDFile cfg) "") then
    Some (Errorf "cannot specify both -gtid and -gtid-file")
  else if notExist (BinlogDir cfg) then
    Some (Errorf ("binlog directory does not exist: " +:+ BinlogDir cfg))
  else if negb (String.eqb (Host cfg) "") && FindActiveMaster cfg then
    Some (Errorf
      "-find-active-master is currently supported only for local binlog files (-dir)")
  else if negb (String.eqb (Host cfg) "") && String.eqb (StartFile (search cfg)) "" then
    Some (Errorf "-start-file is required when using -host")
  else if negb (IsValid (OutputFormat cfg)) then
    Some (Errorf ("invalid output format: " +:+ OutputFormat cfg
                  +:+ " (must be console, csv, or json)"))
  else None.

(** The test of the loop "Filter binlog files if start-file is
    specified". *)
Definition isStartFile (startFile file : string) : bool :=
  gostrings.HasSuffix file startFile || String.eqb (Base file) startFile.

(** That loop: the files kept so far and [startFound]. *)
Fixpoint filterLoop (startFile : string) (filteredFiles : list string)
    (startFound : bool) (binlogFiles : list string) : list string * bool :=
  match binlogFiles with
  | [] => (filteredFiles, startFound)
  | file :: rest =>
      if negb startFound then
        if isStartFile startFile file then
          filterLoop startFile (filteredFiles ++ [file]) true rest
        else filterLoop startFile filteredFiles startFound rest
      else filterLoop startFile (filteredFiles ++ [file]) startFound rest
  end.

(** The block of [findGTIDPosition] that narrows the files to scan when
    [cfg.StartFile] is set. *)
Definition filterFromStartFile (startFile : string) (binlogFiles : list string)
    : res (list string) :=
  if negb (String.eqb startFile "") then
    match filterLoop startFile [] false binlogFiles with
    | (_, false) =>
        Err (Errorf ("start file '" +:+ startFile +:+ "' not found in binlog files"))
    | (filteredFiles, true) => Ok filteredFiles
    end
  else Ok binlogFiles.

End WithOS.

Section StartFile.

Context `{GTIDSetLib}.
Variable Base : string -> string.

(** The block "Smart File Selection" of [findGTIDPosition]: the new value
    of [cfg.StartFile].  [parsedTarget] is what [parser.ParseGTID] made of
    [cfg.TargetGTID]. *)
Definition smartStartFile (s : Searcher) (startFile : string)
    (binlogFiles : list string) (parsedTarget : res GTIDSet) : string :=
  if String.eqb startFile "" then
    if 0 <? Z.of_nat (length binlogFiles) then
      match parsedTarget with
      | Ok targetGTIDToCheck =>
          match FindStartFileUsingHeaders s binlogFiles targetGTIDToCheck with
          | (found, None) =>
              if negb (String.eqb found "") then Base found else startFile
          | (_, Some _) => startFile
          end
      | Err _ => startFile
      end
    else startFile
  else startFile.

(** The two blocks together: the files handed to [SearchParallel]. *)
Definition filesToScan (s : Searcher) (startFile : string)
    (binlogFiles : list string) (parsedTarget : res GTIDSet) : res (list string) :=
  filterFromStartFile Base (smartStartFile s startFile binlogFiles parsedTarget)
    binlogFiles.

End StartFile.

Section Program.

(** What [findGTIDPosition] gets from outside: the string and path
    functions, the directory listing, the binlog files on disk as the
    parser of go-mysql reads them, the server of a remote search, the order
    in which the two [range] statements over the sets of the target yield
    its entries, and the schedule of the goroutines. *)
Variable TrimSpace : string -> string.
Variable Base : string -> string.
Variable Join : string -> string -> string.
Variable Glob : string -> res (list string).
Variable onDisk : BinlogParser.
Variable server : remote.Connection.
Variables rangeInfos rangeFilter
  : mysql.MysqlGTIDSet -> list (string * list mysql.Interval).
Variable schedule : list nat.

(** [cfg.StartFile = startFile] *)
Definition withStartFile (startFile : string) (c : Config) : Config :=
  {| StartFile := startFile; Parallel := Parallel c;
     FilterDatabase := FilterDatabase c;
     StartTime := StartTime c; EndTime := EndTime c |}.

(** [searcher.NewSearcher] *)
Definition NewSearcher (c : Config) : Searcher :=
  {| config := c; parserFactory := onDisk |}.

(** "Handle active master detection": the new value of [cfg.FilterUUID]. *)
Definition activeMasterFilter (cfg : Flags) (targetGTID : mysql.MysqlGTIDSet)
    : res string :=
  if FindActiveMaster cfg then
    match parser.FindActiveMasterUUID (rangeInfos targetGTID) with
    | Err err => Err (Errorf ("failed to find active master: " +:+ Error err))
    | Ok activeMasterUUID => Ok activeMasterUUID
    end
  else Ok (FilterUUID cfg).

(** "Filter by UUID if specified": the new value of [targetGTID]. *)
Definition filterTarget (filterUUID : string) (targetGTID : mysql.MysqlGTIDSet)
    : res mysql.MysqlGTIDSet :=
  if negb (String.eqb filterUUID "") then
    match parser.FilterByUUID (rangeFilter targetGTID) filterUUID with
    | Err err => Err (Errorf ("failed to filter by UUID: " +:+ Error err))
    | Ok filtered => Ok filtered
    end
  else Ok targetGTID.

(** [findGTIDPosition]; [None] when [SearchParallel] does not return.
    The searcher holds the pointer [cfg], so that it sees the start file
    written by the smart selection. *)
Definition findGTIDPosition (cfg : Flags)
    : option (option GTIDPosition * option error) :=
  match parser.ParseGTID TrimSpace (TargetGTID cfg) with
  | Err err => Some (None, Some (Errorf ("invalid GTID format: " +:+ Error err)))
  | Ok targetGTID =>
      if negb (String.eqb (Host cfg) "") then
        Some (RemoteSearch (H := mysqlLib) (search cfg) server targetGTID)
      else
        match GetBinlogFiles Join Glob (BinlogDir cfg) (FilePattern cfg) with
        | Err err => Some (None, Some err)
        | Ok binlogFiles =>
            if Z.of_nat (length binlogFiles) =? 0 then
              Some (None, Some (Errorf "no binlog files found"))
            else
              let startFile :=
                smartStartFile (H := mysqlLib) Base (NewSearcher (search cfg))
                  (StartFile (search cfg)) binlogFiles
                  (parser.ParseGTID TrimSpace (TargetGTID cfg)) in
              let s := NewSearcher (withStartFile startFile (search cfg)) in
              match filterFromStartFile Base startFile binlogFiles with
              | Err err => Some (None, Some err)
              | Ok binlogFiles =>
                  match activeMasterFilter cfg targetGTID with
                  | Err err => Some (None, Some err)
                  | Ok filterUUID =>
                      match filterTarget filterUUID targetGTID with
                      | Err err => Some (None, Some err)
                      | Ok targetGTID =>
                          SearchParallel (H := mysqlLib) s binlogFiles targetGTID
                            schedule
                      end
                  end
              end
        end
  end.

End Program.

End cli.

(** ** Further invariants *)

Section MoreInvariants.

Context `{GTIDSetLib}.

(** [p] stems from a GTID event of [all] that lies in the target set, and
    it passed the database filter. *)
Definition traced (c : Config) (targetGTID : GTIDSet) (all : list BinlogEvent)
    (p : GTIDPosition) : Prop :=
  (exists e, e ∈ all /\ openedBy targetGTID e p)
  /\ (FilterDatabase c = EmptyString \/ Database p = FilterDatabase c).

Definition tracedState (c : Config) (targetGTID : GTIDSet)
    (all : list BinlogEvent) (st : ScanState) : Prop :=
  (forall r, result st = Some r ->
     traced c targetGTID all r /\ exists e, e ∈ all /\ committedBy e r)
  /\ (forall t, currentTransaction st = Some t -> traced c targetGTID all t).

(** Every position held by the scan of [file] names that file. *)
Definition filed (file : string) (st : ScanState) : Prop :=
  (forall r, result st = Some r -> BinlogFile r = file)
  /\ (forall t, currentTransaction st = Some t -> BinlogFile t = file).

End MoreInvariants.

(** ** Inputs of the further properties *)

Module inputs.

Import scenario.

(** A second server. *)
Definition V : string := "5f2c8a10-0000-11e2-8000-c80aa9429562".

(** A transaction outside the target set U:1-100. *)
Definition outsideOnly : list BinlogEvent :=
  [event 10 1000 100 (GTIDEvent sid 200); event 10 2000 100 XIDEvent].

Definition shopOnly : Config :=
  {| StartFile := "mysql-bin.000001"; Parallel := 2; FilterDatabase := "shop";
     StartTime := time.Zero; EndTime := time.Zero |}.

(** A statement on the database [shop], then a transaction of the
    target set. *)
Definition inShop : list BinlogEvent :=
  [event 10 400 100 (QueryEvent "shop" "BEGIN");
   event 10 1000 100 (GTIDEvent sid 50); event 10 2000 100 XIDEvent].

Definition inShopMatch : GTIDPosition :=
  {| BinlogFile := "mysql-bin.000001"; Position := 900; CommitPosition := 2000;
     ResumePosition := 2000; models.Timestamp := 10;
     GTID := U +:+ ":50"; ServerUUID := U; GNO := 50;
     Database := "shop"; NextGTID := EmptyString |}.

(** The variables of the remote loop after [oneTransaction]. *)
Definition afterOneTransaction : RemoteState :=
  {| scan := {| result := Some (matchOf "mysql-bin.000001" 900 2000 10 50);
                currentDatabase := EmptyString;
                currentTransaction := None |};
     startFile := "mysql-bin.000001" |}.

Definition fourFiles : list string := ["bin.001"; "bin.002"; "bin.003"; "bin.004"].

Definition twoFiles : list string := ["bin.001"; "bin.002"].

(** [filepath.Base] on names that hold no separator. *)
Definition flatBase (f : string) : string :=
  if String.eqb f "" then "." else f.

(** Only the empty path is missing. *)
Definition onlyEmptyMissing (dir : string) : bool := String.eqb dir "".

Definition localFlags : cli.Flags :=
  {| cli.search := plainConfig; cli.BinlogDir := "/var/lib/mysql";
     cli.TargetGTID := U +:+ ":1-100"; cli.GTIDFile := EmptyString;
     cli.FilePattern := "bin.*"; cli.OutputFormat := "console";
     cli.FindActiveMaster := false; cli.FilterUUID := EmptyString;
     cli.Host := EmptyString; cli.User := EmptyString;
     cli.Password := EmptyString |}.

(** No start file: the smart selection picks one. *)
Definition autoFlags : cli.Flags :=
  {| cli.search := {| StartFile := EmptyString; Parallel := 2;
                      FilterDatabase := EmptyString;
                      StartTime := time.Zero; EndTime := time.Zero |};
     cli.BinlogDir := "/var/lib/mysql";
     cli.TargetGTID := U +:+ ":1-100"; cli.GTIDFile := EmptyString;
     cli.FilePattern := "bin.*"; cli.OutputFormat := "console";
     cli.FindActiveMaster := false; cli.FilterUUID := EmptyString;
     cli.Host := EmptyString; cli.User := EmptyString;
     cli.Password := EmptyString |}.

Definition remoteFlags : cli.Flags :=
  {| cli.search := plainConfig; cli.BinlogDir := EmptyString;
     cli.TargetGTID := U +:+ ":1-100"; cli.GTIDFile := EmptyString;
     cli.FilePattern := "bin.*"; cli.OutputFormat := "console";
     cli.FindActiveMaster := false; cli.FilterUUID := EmptyString;
     cli.Host := "db1"; cli.User := "repl"; cli.Password := "secret" |}.

Definition gtidFileFlags : cli.Flags :=
  {| cli.search := plainConfig; cli.BinlogDir := "/var/lib/mysql";
     cli.TargetGTID := EmptyString; cli.GTIDFile := "gtids.txt";
     cli.FilePattern := "bin.*"; cli.OutputFormat := "console";
     cli.FindActiveMaster := false; cli.FilterUUID := EmptyString;
     cli.Host := EmptyString; cli.User := EmptyString;
     cli.Password := EmptyString |}.

Definition activeMasterFlags : cli.Flags :=
  {| cli.search := plainConfig; cli.BinlogDir := "/var/lib/mysql";
     cli.TargetGTID := U +:+ ":1-100," +:+ V +:+ ":1-5"; cli.GTIDFile := EmptyString;
     cli.FilePattern := "bin.*"; cli.OutputFormat := "console";
     cli.FindActiveMaster := true; cli.FilterUUID := EmptyString;
     cli.Host := EmptyString; cli.User := EmptyString;
     cli.Password := EmptyString |}.

(** U:1-100 and V:1-5. *)
Definition twoServers : mysql.MysqlGTIDSet := parsed (U +:+ ":1-100," +:+ V +:+ ":1-5").

(** Two orders of a [range] over the sets. *)
Definition forwards (m : mysql.MysqlGTIDSet) : list (string * list mysql.Interval) :=
  map_to_list m.

Definition backwards (m : mysql.MysqlGTIDSet) : list (string * list mysql.Interval) :=
  reverse (map_to_list m).

(** A directory with the two files of [twoMatches] and the index file. *)
Definition join (dir pattern : string) : string := dir +:+ "/" +:+ pattern.

Definition listing (path : string) : res (list string) :=
  Ok ["bin.002"; "bin.index"; "bin.001"].

(** The events of [lateThenMatch] within the bound of [endAt1000]. *)
Definition matchOnly : list BinlogEvent :=
  [event 10 1000 100 (GTIDEvent sid 50); event 10 2000 100 XIDEvent].

(** An event from before second 5, then [oneTransaction]. *)
Definition startAt5 : Config :=
  {| StartFile := "mysql-bin.000001"; Parallel := 2; FilterDatabase := EmptyString;
     StartTime := time.Unix 5; EndTime := time.Zero |}.

Definition earlyThenMatch : list remote.Delivery :=
  [remote.Event (event 1 120 100 (GTIDEvent sid 7));
   remote.Event (event 10 1000 100 (GTIDEvent sid 50));
   remote.Event (event 10 2000 100 XIDEvent)].

(** Transaction 10 commits, a transaction of another range starts, then
    transaction 50 commits. *)
Definition interrupted : list BinlogEvent :=
  [event 10 500 100 (GTIDEvent sid 10); event 10 600 100 XIDEvent;
   event 10 1000 100 (GTIDEvent sid 200);
   event 10 1500 100 (GTIDEvent sid 50); event 10 2000 100 XIDEvent].

End inputs.

(** * Properties *)

(** ** The scan of one event sequence *)

Section TrackerFacts.

Context `{GTIDSetLib}.
Variables (c : Config) (file : string) (targetGTID : GTIDSet).

Lemma parseEvents_app {S : Type} (f : S -> BinlogEvent -> S * option error)
    (pre post : list BinlogEvent) (st : S) (failure : option error) :
  parseEvents f st (pre ++ post) failure =
    match parseEvents f st pre None with
    | (st', Some err) => (st', Some err)
    | (st', None) => parseEvents f st' post failure
    end.
Proof.
  revert st. induction pre as [|e pre IH]; intros st; simpl; [done|].
  destruct (f st e) as [st' [err|]]; [done|]. apply IH.
Qed.

(** The callback has one error to give: the signal. *)
Lemma onEvent_error (st st' : ScanState) (e : BinlogEvent) (err : error) :
  onEvent c file targetGTID st e = (st', Some err) -> err = found_next_gtid.
Proof.
  unfold onEvent. repeat case_match; intros; simplify_eq; done.
Qed.

Lemma unfinished_initial : unfinished initialState.
Proof. split; intros ?; simpl; discriminate. Qed.

Lemma keepHighest_cases (r : option GTIDPosition) (t : GTIDPosition) :
  keepHighest r t = Some t \/ keepHighest r t = r.
Proof. unfold keepHighest. repeat case_match; auto. Qed.

Lemma onGTID_result (st st' : ScanState) (e : BinlogEvent) (x : gtidExit) :
  onGTID c file targetGTID st e = (st', x) -> x <> FoundNext ->
  result st' = result st /\ currentDatabase st' = currentDatabase st.
Proof.
  unfold onGTID. repeat case_match; intros; simplify_eq; done.
Qed.

Lemma onGTID_transaction (st st' : ScanState) (e : BinlogEvent) (x : gtidExit)
    (t : GTIDPosition) :
  onGTID c file targetGTID st e = (st', x) ->
  currentTransaction st' = Some t ->
  currentTransaction st = Some t
  \/ exists sid gno, Payload e = GTIDEvent sid gno
                     /\ t = openTransaction file e sid gno (currentDatabase st).
Proof.
  unfold onGTID. repeat case_match; intros; simplify_eq; simpl in *;
    simplify_eq; eauto.
Qed.

Lemma unfinished_step (st st' : ScanState) (e : BinlogEvent) :
  unfinished st -> onEvent c file targetGTID st e = (st', None) -> unfinished st'.
Proof.
  intros [Hr Ht]. unfold onEvent.
  destruct (beforeStart c e); [intros; simplify_eq; by split|].
  destruct (afterEnd c e); [intros; simplify_eq; by split|].
  destruct (onGTID c file targetGTID (trackDatabase st e) e) as [st2 x] eqn:Hg.
  assert (Hdb : result (trackDatabase st e) = result st
                /\ currentTransaction (trackDatabase st e) = currentTransaction st).
  { unfold trackDatabase. repeat case_match; done. }
  destruct Hdb as [Hdb1 Hdb2].
  assert (Ht2 : forall t, currentTransaction st2 = Some t -> NextGTID t = EmptyString).
  { intros t Hst2. destruct (onGTID_transaction _ _ _ _ _ Hg Hst2) as [Hold|(sid & gno & _ & ->)].
    - apply Ht. by rewrite <- Hdb2.
    - done. }
  destruct x; intros Hst; simplify_eq.
  - destruct (onGTID_result _ _ _ _ Hg) as [Hres _]; [done|].
    unfold trackCommit. destruct (currentTransaction st2) as [t|] eqn:Hcur.
    + destruct (isCommit e).
      * split; simpl; [|intros ? ?; discriminate]. intros r Hk.
        destruct (keepHighest_cases (result st2)
                    (setCommit (LogPos (Header e)) (replication.Timestamp (Header e)) t))
          as [Hk'|Hk']; rewrite Hk' in Hk.
        -- simplify_eq. simpl. split; [by apply Ht2|done].
        -- apply Hr. by rewrite <- Hdb1, <- Hres.
      * split; [|intros t' Ht'; apply Ht2; congruence].
        intros r Hk. apply Hr. by rewrite <- Hdb1, <- Hres.
    + split; [|intros ? ?; congruence]. intros r Hk. apply Hr. by rewrite <- Hdb1, <- Hres.
  - destruct (onGTID_result _ _ _ _ Hg) as [Hres _]; [done|].
    split; [|exact Ht2]. intros r Hk. apply Hr. by rewrite <- Hdb1, <- Hres.
Qed.

Lemma unfinished_scan (evs : list BinlogEvent) (st st' : ScanState) :
  unfinished st -> scanEvents c file targetGTID st evs = (st', None) -> unfinished st'.
Proof.
  unfold scanEvents. revert st. induction evs as [|e evs IH]; intros st Hst; simpl.
  - intros; by simplify_eq.
  - destruct (onEvent c file targetGTID st e) as [st1 [err|]] eqn:He; [done|].
    apply IH. by eapply unfinished_step.
Qed.


Lemma trackDatabase_fields (st : ScanState) (e : BinlogEvent) :
  result (trackDatabase st e) = result st
  /\ currentTransaction (trackDatabase st e) = currentTransaction st.
Proof. unfold trackDatabase. repeat case_match; done. Qed.

(** [committedAt] is the commit of the open transaction: an event that
    passes the time filter and ends a transaction, met while one is open. *)
Lemma committedAt_spec (st : ScanState) (e : BinlogEvent) (t : GTIDPosition) :
  committedAt c file targetGTID st e = Some t <->
  beforeStart c e = false /\ afterEnd c e = false /\ isCommit e = true
  /\ exists t0,
       currentTransaction st = Some t0
       /\ t = setCommit (LogPos (Header e)) (replication.Timestamp (Header e)) t0.
Proof.
  unfold committedAt. destruct (trackDatabase_fields st e) as [_ Hcur].
  destruct (beforeStart c e); [split; [done|by intros (? & _)]|].
  destruct (afterEnd c e); [split; [done|by intros (_ & ? & _)]|].
  assert (Hg : isGTID e = false ->
               onGTID c file targetGTID (trackDatabase st e) e
               = (trackDatabase st e, FallThrough)).
  { unfold onGTID, isGTID. by destruct (Payload e). }
  destruct (isGTID e) eqn:Hgtid.
  - assert (isCommit e = false) as Hc.
    { unfold isGTID, isCommit in *. by destruct (Payload e). }
    rewrite Hc. split; [|by intros (_ & _ & ? & _)].
    destruct (onGTID _ _ _ _ _) as [st2 []]; [|done..].
    by destruct (currentTransaction st2).
  - rewrite Hg by done. rewrite Hcur.
    destruct (currentTransaction st) as [t0|].
    + destruct (isCommit e).
      * split; [intros; simplify_eq; by eauto 10|]. intros (_ & _ & _ & t1 & ? & ->).
        by simplify_eq.
      * split; [done|by intros (_ & _ & ? & _)].
    + split; [done|]. by intros (_ & _ & _ & t1 & ? & _).
Qed.

(** What one running step does to the best match: it folds in the
    transaction committed at that event, if there is one. *)
Lemma onEvent_running_result (st st' : ScanState) (e : BinlogEvent) :
  onEvent c file targetGTID st e = (st', None) ->
  result st' =
    foldl keepHighest (result st) (option_list (committedAt c file targetGTID st e)).
Proof.
  unfold onEvent, committedAt.
  destruct (beforeStart c e); [intros; by simplify_eq|].
  destruct (afterEnd c e); [intros; by simplify_eq|].
  destruct (trackDatabase_fields st e) as [Hdb _].
  destruct (onGTID c file targetGTID (trackDatabase st e) e) as [st2 x] eqn:Hg.
  destruct x; intros Hst; simplify_eq.
  - destruct (onGTID_result _ _ _ _ Hg) as [Hres _]; [done|].
    unfold trackCommit. destruct (currentTransaction st2); [|simpl; congruence].
    destruct (isCommit e); simpl; congruence.
  - destruct (onGTID_result _ _ _ _ Hg) as [Hres _]; [done|]. simpl. congruence.
Qed.

(** The step that stops the scan: a GTID event outside the target set,
    met while a best match is held. *)
Lemma onEvent_stopped (st st' : ScanState) (e : BinlogEvent) (err : error) :
  onEvent c file targetGTID st e = (st', Some err) ->
  exists r sid gno,
    result st = Some r /\ Payload e = GTIDEvent sid gno
    /\ result st' = Some (setNext (gtidStr sid gno) (LogPos (Header e)) r).
Proof.
  unfold onEvent.
  destruct (beforeStart c e); [done|]. destruct (afterEnd c e); [done|].
  destruct (trackDatabase_fields st e) as [Hdb _].
  destruct (onGTID c file targetGTID (trackDatabase st e) e) as [st2 x] eqn:Hg.
  destruct x; intros Hst; simplify_eq.
  revert Hg. unfold onGTID. rewrite Hdb.
  repeat case_match; intros; simplify_eq. eauto 10.
Qed.

(** The best match of a scan, read off the list of committed
    transactions. *)
Lemma scan_result (evs : list BinlogEvent) (st st' : ScanState) (err : option error) :
  scanEvents c file targetGTID st evs = (st', err) ->
  match err with
  | None => result st' = foldl keepHighest (result st) (committed c file targetGTID st evs)
  | Some _ =>
      exists r gtid pos,
        foldl keepHighest (result st) (committed c file targetGTID st evs) = Some r
        /\ result st' = Some (setNext gtid pos r)
  end.
Proof.
  unfold scanEvents. revert st. induction evs as [|e evs IH]; intros st; simpl.
  - intros; by simplify_eq.
  - destruct (onEvent c file targetGTID st e) as [st1 [e1|]] eqn:He.
    + intros; simplify_eq.
      destruct (onEvent_stopped _ _ _ _ He) as (r & sid & gno & Hr & _ & Hr').
      simpl. eauto.
    + intros Hrest. specialize (IH _ Hrest).
      rewrite foldl_app, <- (onEvent_running_result _ _ _ He). exact IH.
Qed.

Lemma keepHighest_foldl_bound (l : list GTIDPosition) (r0 : GTIDPosition) :
  (forall x, x ∈ l -> GNO x <= GNO r0) -> foldl keepHighest (Some r0) l = Some r0.
Proof.
  induction l as [|a l IH]; intros Hle; simpl; [done|].
  assert (GNO a <= GNO r0) by (apply Hle; left).
  destruct (GNO r0 <? GNO a) eqn:Hlt; [lia|].
  apply IH. intros x Hx. apply Hle. by right.
Qed.

(** "Keep the match with highest GNO" returns the first entry that no
    earlier entry reaches and no later entry exceeds. *)
Lemma keepHighest_foldl_first_max (l1 l2 : list GTIDPosition) (m : GTIDPosition)
    (r : option GTIDPosition) :
  (forall r0, r = Some r0 -> GNO r0 < GNO m) ->
  (forall x, x ∈ l1 -> GNO x < GNO m) ->
  (forall x, x ∈ l2 -> GNO x <= GNO m) ->
  foldl keepHighest r (l1 ++ m :: l2) = Some m.
Proof.
  revert r. induction l1 as [|a l1 IH]; intros r Hr H1 H2; simpl.
  - assert (keepHighest r m = Some m) as ->.
    { destruct r as [r0|]; simpl; [|done].
      specialize (Hr r0 eq_refl). destruct (GNO r0 <? GNO m) eqn:?; [done|lia]. }
    by apply keepHighest_foldl_bound.
  - apply IH; [|intros x Hx; apply H1; by right|done].
    intros r0 Hk. assert (GNO a < GNO m) by (apply H1; left).
    destruct (keepHighest_cases r a) as [Hk'|Hk']; rewrite Hk' in Hk; simplify_eq; [done|].
    by apply Hr.
Qed.

Lemma keepHighest_foldl_some (l : list GTIDPosition) (r0 : GTIDPosition) :
  exists r, foldl keepHighest (Some r0) l = Some r.
Proof.
  revert r0. induction l as [|a l IH]; intros r0; simpl; [eauto|].
  destruct (GNO r0 <? GNO a); apply IH.
Qed.

(** A best match is held exactly when something has been committed. *)
Lemma keepHighest_foldl_none (l : list GTIDPosition) :
  foldl keepHighest None l = None -> l = [].
Proof.
  destruct l as [|a l]; [done|]. simpl.
  destruct (keepHighest_foldl_some l a) as [r ->]. done.
Qed.

(** A running scan holds a best match exactly when a transaction of the
    target set has committed. *)
Lemma result_iff_committed (evs : list BinlogEvent) (st' : ScanState) :
  scanEvents c file targetGTID initialState evs = (st', None) ->
  result st' = None <-> committed c file targetGTID initialState evs = [].
Proof.
  intros Hscan. pose proof (scan_result _ _ _ _ Hscan) as Hres. simpl in Hres.
  rewrite Hres. split; [apply keepHighest_foldl_none|by intros ->].
Qed.

(** Nothing committed: the scan has not stopped and holds no match. *)
Lemma scan_nothing_committed (evs : list BinlogEvent) (st' : ScanState)
    (err : option error) :
  scanEvents c file targetGTID initialState evs = (st', err) ->
  committed c file targetGTID initialState evs = [] ->
  err = None /\ result st' = None.
Proof.
  intros Hscan Hnone. pose proof (scan_result _ _ _ _ Hscan) as Hres.
  rewrite Hnone in Hres. simpl in Hres.
  destruct err; [by destruct Hres as (? & ? & ? & ? & ?)|done].
Qed.

(** Events other than GTID events, met with no transaction open, leave
    the best match alone and never stop the scan. *)
Lemma scan_no_gtid (evs : list BinlogEvent) (st : ScanState) :
  Forall (fun e => isGTID e = false) evs ->
  currentTransaction st = None ->
  exists st', scanEvents c file targetGTID st evs = (st', None)
              /\ result st' = result st.
Proof.
  unfold scanEvents. revert st. induction evs as [|e evs IH]; intros st Hall Hcur; simpl.
  - eauto.
  - inversion Hall as [|? ? He Hrest]; subst.
    assert (Hstep : exists st1, onEvent c file targetGTID st e = (st1, None)
                      /\ result st1 = result st /\ currentTransaction st1 = None).
    { unfold onEvent. destruct (beforeStart c e); [eauto|].
      destruct (afterEnd c e); [eauto|].
      destruct (trackDatabase_fields st e) as [Hd1 Hd2].
      unfold onGTID, isGTID in *. destruct (Payload e) eqn:Hp; try done;
        (eexists; split; [reflexivity|]); unfold trackCommit;
        rewrite Hd2, Hcur; split; congruence. }
    destruct Hstep as (st1 & -> & Hr1 & Hc1).
    destruct (IH st1 Hrest Hc1) as (st' & -> & Hr'). eexists; split; [done|congruence].
Qed.

(** *** The scan against the transactions of the sequence *)

(** One event that is not a GTID event outside the target set after a
    commit: the callback goes on, and what it does to its variables is
    what the sequence says. *)
Lemma onEvent_walk (st : ScanState) (e : BinlogEvent) :
  (outsideTarget c targetGTID e = true -> result st = None) ->
  exists st' new,
    onEvent c file targetGTID st e = (st', None)
    /\ result st' = foldl keepHighest (result st) new
    /\ forall rest,
         commitsFrom c file targetGTID (currentDatabase st)
           (currentTransaction st) (e :: rest)
         = new ++ commitsFrom c file targetGTID (currentDatabase st')
                    (currentTransaction st') rest.
Proof.
  intros Hhead. destruct st as [res db tx]. unfold outsideTarget in Hhead.
  unfold onEvent. cbn [commitsFrom result currentDatabase currentTransaction] in *.
  destruct (beforeStart c e); [by eexists _, []|].
  destruct (afterEnd c e); [by eexists _, []|]. cbn [orb negb andb] in *.
  unfold onGTID, trackDatabase, trackCommit, databaseMismatch, isCommit.
  destruct (Payload e) as [sid gno| |schema query| | |] eqn:Hpayload;
    cbn [result currentDatabase currentTransaction setTransaction setResult
         setDatabase].
  - destruct (ParseMysqlGTIDSet (gtidStr sid gno)) as [gtid|err];
      [|by eexists _, []].
    destruct (Contain targetGTID gtid); cbn [negb] in *.
    + destruct (negb (String.eqb (FilterDatabase c) EmptyString)
                && negb (String.eqb db (FilterDatabase c)));
        cbn [result currentDatabase currentTransaction setTransaction];
        rewrite ?Hpayload; by eexists _, [].
    + rewrite (Hhead eq_refl).
      cbn [result currentDatabase currentTransaction setTransaction].
      by eexists _, [].
  - destruct tx as [t|]; [by eexists _, [_]|by eexists _, []].
  - destruct schema as [|a schema]; cbn [String.eqb String.length];
      [|change (0 <? Z.of_nat (S (String.length schema))) with true; cbn iota];
      cbn [result currentDatabase currentTransaction setTransaction setResult
           setDatabase];
      (destruct tx as [t|]; [|by eexists _, []]);
      (destruct (String.eqb query "COMMIT" || String.eqb query "commit");
       [by eexists _, [_]|by eexists _, []]).
  - destruct tx as [t|]; by eexists _, [].
  - destruct tx as [t|]; by eexists _, [].
  - destruct tx as [t|]; by eexists _, [].
Qed.

(** While no GTID event outside the target set comes after a commit, the
    scan goes on and holds the highest of the transactions of the
    sequence that have committed. *)
Lemma scan_walk (evs : list BinlogEvent) (st : ScanState) :
  (forall a g b, evs = a ++ g :: b -> outsideTarget c targetGTID g = true ->
     result st = None
     /\ commitsFrom c file targetGTID (currentDatabase st) (currentTransaction st) a
        = []) ->
  exists st',
    scanEvents c file targetGTID st evs = (st', None)
    /\ result st'
       = foldl keepHighest (result st)
           (commitsFrom c file targetGTID (currentDatabase st)
              (currentTransaction st) evs).
Proof.
  unfold scanEvents. revert st. induction evs as [|e evs IH]; intros st Hquiet.
  - by exists st.
  - destruct (onEvent_walk st e) as (st1 & new & Hstep & Hres & Hwalk).
    { intros Hout. by destruct (Hquiet [] e evs eq_refl Hout). }
    destruct (IH st1) as (st' & Hscan & Hres').
    { intros a g b -> Hout. destruct (Hquiet (e :: a) g b eq_refl Hout) as [Hnone Hno].
      rewrite Hwalk in Hno. apply app_eq_nil in Hno as [-> Hno].
      split; [by rewrite Hres, Hnone|done]. }
    exists st'. cbn [parseEvents]. rewrite Hstep. split; [done|].
    by rewrite Hres', Hres, Hwalk, foldl_app.
Qed.

End TrackerFacts.


(** ** [searchBinlogFile] *)

Section TrackerClaims.

Context `{GTIDSetLib}.
Variables (s : Searcher) (filepath : string) (targetGTID : GTIDSet).

Lemma scan_error (evs : list BinlogEvent) (st st' : ScanState) (err : error) :
  scanEvents (config s) filepath targetGTID st evs = (st', Some err) ->
  err = found_next_gtid.
Proof.
  unfold scanEvents. revert st. induction evs as [|e evs IH]; intros st; simpl; [done|].
  destruct (onEvent (config s) filepath targetGTID st e) as [st1 [e1|]] eqn:He.
  - intros; simplify_eq. by eapply onEvent_error.
  - apply IH.
Qed.

(** The callback stopped the scan somewhere in the file. *)
Lemma search_stopped (pre post : list BinlogEvent) (st : ScanState) (err : error) :
  events (parserFactory s filepath) = pre ++ post ->
  scanEvents (config s) filepath targetGTID initialState pre = (st, Some err) ->
  searchBinlogFile s filepath targetGTID = (result st, None).
Proof.
  intros Hev Hscan. unfold searchBinlogFile, ParseFile.
  rewrite Hev, parseEvents_app. unfold scanEvents in Hscan. rewrite Hscan.
  by rewrite (scan_error _ _ _ _ Hscan).
Qed.

(** The callback let the whole file through. *)
Lemma search_completed (st : ScanState) :
  scanEvents (config s) filepath targetGTID initialState
    (events (parserFactory s filepath)) = (st, None) ->
  searchBinlogFile s filepath targetGTID =
    match failure (parserFactory s filepath) with
    | Some e =>
        if negb (String.eqb (Error e) "found_next_gtid") then (None, Some e)
        else (result st, None)
    | None => (result st, None)
    end.
Proof.
  intros Hscan. unfold searchBinlogFile, ParseFile.
  pose proof (parseEvents_app (onEvent (config s) filepath targetGTID)
                (events (parserFactory s filepath)) [] initialState
                (failure (parserFactory s filepath))) as Happ.
  rewrite app_nil_r in Happ. rewrite Happ.
  unfold scanEvents in Hscan. rewrite Hscan. simpl. done.
Qed.

(** A committing step: the callback goes on, the transaction is closed,
    and the committed record sits at the event's end offset. *)
Lemma committedAt_step (st : ScanState) (e : BinlogEvent) (t : GTIDPosition) :
  committedAt (config s) filepath targetGTID st e = Some t ->
  exists st1,
    onEvent (config s) filepath targetGTID st e = (st1, None)
    /\ currentTransaction st1 = None
    /\ CommitPosition t = LogPos (Header e)
    /\ ResumePosition t = LogPos (Header e).
Proof.
  unfold committedAt, onEvent.
  destruct (beforeStart (config s) e); [done|].
  destruct (afterEnd (config s) e); [done|].
  destruct (onGTID (config s) filepath targetGTID (trackDatabase st e) e) as [st2 x].
  destruct x; try done.
  unfold trackCommit. destruct (currentTransaction st2); [|done].
  destruct (isCommit e); [|done].
  intros; simplify_eq. eexists; split; [done|]. done.
Qed.

(** C1 (as amended): once a transaction of the target set has committed
    and the scan, still running, meets a GTID event that passes the time
    filter, parses, and lies OUTSIDE the target set, the returned result has
    that event's end offset as resume position and its GTID text as next
    GTID, whatever follows in the file (more events or a read error): the
    scan ends at that event. *)
Theorem next_gtid_outside_target_finalizes
    (pre post : list BinlogEvent) (g : BinlogEvent) (st : ScanState)
    (r : GTIDPosition) (sid : list Byte.byte) (gno : Z) (currentGTID : GTIDSet) :
  events (parserFactory s filepath) = pre ++ g :: post ->
  scanEvents (config s) filepath targetGTID initialState pre = (st, None) ->
  result st = Some r ->
  Payload g = GTIDEvent sid gno ->
  beforeStart (config s) g = false ->
  afterEnd (config s) g = false ->
  ParseMysqlGTIDSet (gtidStr sid gno) = Ok currentGTID ->
  Contain targetGTID currentGTID = false ->
  exists r',
    searchBinlogFile s filepath targetGTID = (Some r', None)
    /\ r' = setNext (gtidStr sid gno) (LogPos (Header g)) r
    /\ ResumePosition r' = LogPos (Header g)
    /\ NextGTID r' = gtidStr sid gno.
Proof.
  intros Hev Hpre Hr Hg Hbs Hae Hparse Hout.
  assert (Hun : unfinished st).
  { eapply unfinished_scan; [apply unfinished_initial|exact Hpre]. }
  destruct Hun as [Hun _]. destruct (Hun r Hr) as [Hnext _].
  eexists. split; [|split; [reflexivity|done]].
  replace (pre ++ g :: post) with ((pre ++ [g]) ++ post) in Hev
    by (by rewrite <- app_assoc).
  erewrite search_stopped; [|exact Hev|].
  2:{ unfold scanEvents in *. rewrite parseEvents_app, Hpre. simpl.
      unfold onEvent. rewrite Hbs, Hae.
      unfold onGTID, trackDatabase. rewrite Hg, Hparse, Hout. simpl.
      rewrite Hr, Hnext. simpl. reflexivity. }
  done.
Qed.

(** C2 (as amended): the scan returns the transaction with the strictly
    highest transaction number among the transactions of the target set
    that commit in the sequence BEFORE the scan stops.  The scan stops at
    the first GTID event outside the target set that comes after a commit:
    [pre] is the sequence up to there, or the whole sequence when there is
    no such event and the file ends normally.  The transaction returned
    carries the next GTID when the scan stopped.  Transactions of the
    target set that commit after that event are not looked at. *)
Theorem highest_commit_before_stop_returned
    (pre post : list BinlogEvent) (l1 l2 : list GTIDPosition) (m : GTIDPosition) :
  events (parserFactory s filepath) = pre ++ post ->
  (forall a g b, pre = a ++ g :: b ->
     outsideTarget (config s) targetGTID g = true ->
     inRangeCommits (config s) filepath targetGTID a = []) ->
  match post with
  | [] => failure (parserFactory s filepath) = None
  | g :: _ => outsideTarget (config s) targetGTID g = true
  end ->
  inRangeCommits (config s) filepath targetGTID pre = l1 ++ m :: l2 ->
  (forall x, x ∈ l1 -> GNO x < GNO m) ->
  (forall x, x ∈ l2 -> GNO x < GNO m) ->
  exists r,
    searchBinlogFile s filepath targetGTID = (Some r, None)
    /\ GNO r = GNO m
    /\ match post with
       | [] => r = m
       | g :: _ =>
           exists sid gno,
             Payload g = GTIDEvent sid gno
             /\ r = setNext (gtidStr sid gno) (LogPos (Header g)) m
       end.
Proof.
  intros Hev Hquiet Hpost Hcom H1 H2.
  destruct (scan_walk (config s) filepath targetGTID pre initialState)
    as (st & Hscan & Hres).
  { intros a g b Hpre Hout. split; [done|]. by apply (Hquiet a g b). }
  change (commitsFrom (config s) filepath targetGTID
            (currentDatabase initialState) (currentTransaction initialState) pre)
    with (inRangeCommits (config s) filepath targetGTID pre) in Hres.
  rewrite Hcom in Hres. cbn [result initialState] in Hres.
  rewrite keepHighest_foldl_first_max in Hres;
    [|done|done|intros x Hx; specialize (H2 x Hx); lia].
  destruct post as [|g post].
  - exists m. split; [|done]. rewrite app_nil_r in Hev. rewrite <- Hev in Hscan.
    by rewrite (search_completed _ Hscan), Hpost, Hres.
  - assert (Hun : unfinished st).
    { eapply unfinished_scan; [apply unfinished_initial|exact Hscan]. }
    destruct Hun as [Hun _]. destruct (Hun m Hres) as [Hnext _].
    unfold outsideTarget in Hpost.
    destruct (beforeStart (config s) g) eqn:Hbefore; [done|].
    destruct (afterEnd (config s) g) eqn:Hafter; [done|].
    destruct (Payload g) as [sid gno| | | | |] eqn:Hg; try done.
    destruct (ParseMysqlGTIDSet (gtidStr sid gno)) as [gtid|] eqn:Hparse; [|done].
    destruct (Contain targetGTID gtid) eqn:Hin; [done|].
    exists (setNext (gtidStr sid gno) (LogPos (Header g)) m).
    split; [|split; [done|by exists sid, gno]].
    replace (pre ++ g :: post) with ((pre ++ [g]) ++ post) in Hev
      by (by rewrite <- app_assoc).
    erewrite search_stopped; [|exact Hev|].
    2:{ unfold scanEvents in *. rewrite parseEvents_app, Hscan. simpl.
        unfold onEvent. rewrite Hbefore, Hafter.
        unfold onGTID, trackDatabase. rewrite Hg, Hparse, Hin. simpl.
        rewrite Hres, Hnext. simpl. reflexivity. }
    done.
Qed.

(** C3: when the file ends normally, one transaction of the target set
    commits, none committed before it and no GTID event comes after its
    commit, the result is that transaction, it resumes where it commits and
    it has no next GTID. *)
Theorem single_commit_resumes_at_commit
    (pre post : list BinlogEvent) (e : BinlogEvent) (t : GTIDPosition) :
  events (parserFactory s filepath) = pre ++ e :: post ->
  failure (parserFactory s filepath) = None ->
  committed (config s) filepath targetGTID initialState pre = [] ->
  committedAt (config s) filepath targetGTID
    (scanEvents (config s) filepath targetGTID initialState pre).1 e = Some t ->
  Forall (fun x => isGTID x = false) post ->
  exists r,
    searchBinlogFile s filepath targetGTID = (Some r, None)
    /\ r = t
    /\ ResumePosition r = CommitPosition r
    /\ CommitPosition r = LogPos (Header e)
    /\ NextGTID r = EmptyString.
Proof.
  intros Hev Hfail Hnone Hcommit Hpost.
  destruct (scanEvents (config s) filepath targetGTID initialState pre)
    as [st err] eqn:Hpre.
  destruct (scan_nothing_committed _ _ _ _ _ _ Hpre Hnone) as [-> Hres0].
  simpl in Hcommit.
  assert (Hun : unfinished st).
  { eapply unfinished_scan; [apply unfinished_initial|exact Hpre]. }
  destruct (committedAt_step _ _ _ Hcommit) as (st1 & Hstep & Hcur1 & Hcp & Hrp).
  assert (Hr1 : result st1 = Some t).
  { rewrite (onEvent_running_result _ _ _ _ _ _ Hstep), Hcommit, Hres0. done. }
  pose proof (unfinished_step _ _ _ _ _ _ Hun Hstep) as [Hun1 _].
  destruct (Hun1 t Hr1) as [Hnext Heq].
  destruct (scan_no_gtid (config s) filepath targetGTID post st1 Hpost Hcur1)
    as (st2 & Hscan2 & Hr2).
  exists t. split; [|done].
  assert (Hall : scanEvents (config s) filepath targetGTID initialState
                   (events (parserFactory s filepath)) = (st2, None)).
  { unfold scanEvents in *. rewrite Hev, parseEvents_app, Hpre. simpl.
    rewrite Hstep. exact Hscan2. }
  rewrite (search_completed _ Hall), Hfail. congruence.
Qed.

(** C8: when the callback stops the scan (its only error is the
    next-GTID signal), [searchBinlogFile] returns the completed result and a
    nil error; an error of the stream provider whose text is not the
    signal's is returned as it is, with no result. *)
Theorem early_stop_is_not_a_failure :
  (forall (pre post : list BinlogEvent) (g : BinlogEvent) (st st' : ScanState)
          (err : error),
      events (parserFactory s filepath) = pre ++ g :: post ->
      scanEvents (config s) filepath targetGTID initialState pre = (st, None) ->
      onEvent (config s) filepath targetGTID st g = (st', Some err) ->
      err = found_next_gtid
      /\ exists r,
           searchBinlogFile s filepath targetGTID = (Some r, None)
           /\ result st' = Some r
           /\ ResumePosition r = LogPos (Header g))
  /\ (forall (st : ScanState) (err : error),
        scanEvents (config s) filepath targetGTID initialState
          (events (parserFactory s filepath)) = (st, None) ->
        failure (parserFactory s filepath) = Some err ->
        Error err <> "found_next_gtid" ->
        searchBinlogFile s filepath targetGTID = (None, Some err)).
Proof.
  split.
  - intros pre post g st st' err Hev Hpre Hstop.
    split; [by eapply onEvent_error|].
    destruct (onEvent_stopped _ _ _ _ _ _ _ Hstop) as (r & sid & gno & Hr & Hg & Hr').
    eexists. split; [|split; [exact Hr'|done]].
    replace (pre ++ g :: post) with ((pre ++ [g]) ++ post) in Hev
      by (by rewrite <- app_assoc).
    erewrite search_stopped; [by rewrite Hr'|exact Hev|].
    unfold scanEvents in *. rewrite parseEvents_app, Hpre. simpl. by rewrite Hstop.
  - intros st err Hscan Hfail Hne.
    rewrite (search_completed _ Hscan), Hfail.
    destruct (String.eqb (Error err) "found_next_gtid") eqn:Heq; [|done].
    apply String.eqb_eq in Heq. done.
Qed.

End TrackerClaims.


(** ** Offsets *)

Section OffsetFacts.

Context `{GTIDSetLib}.
Variables (c : Config) (targetGTID : GTIDSet).

Lemma offsetsAscend_cons (lo : Z) (e : BinlogEvent) (evs : list BinlogEvent) :
  offsetsAscend lo (e :: evs) = true ->
  offsetOk lo e /\ offsetsAscend (LogPos (Header e)) evs = true.
Proof.
  intros Hall. cbn [offsetsAscend] in Hall. unfold offsetOk.
  repeat (apply andb_prop in Hall as [Hall ?]). repeat split; (lia || done).
Qed.

Lemma within_initial (m : Z) : within m initialState.
Proof. split; intros ?; simpl; discriminate. Qed.

Lemma within_mono (m m' : Z) (st : ScanState) :
  m <= m' -> within m st -> within m' st.
Proof.
  intros Hle [Hr Ht]. split.
  - intros r Hres. destruct (Hr r Hres). split; [done|lia].
  - intros t Hcur. destruct (Ht t Hcur). lia.
Qed.

Lemma within_trackDatabase (m : Z) (st : ScanState) (e : BinlogEvent) :
  within m st -> within m (trackDatabase st e).
Proof.
  destruct (trackDatabase_fields st e) as [H1 H2].
  intros [Hr Ht]. split; intros ?; rewrite ?H1, ?H2; auto.
Qed.

Lemma uint32_sub (pos size : Z) :
  0 <= size <= pos -> pos < 2 ^ 32 -> uint32 (pos - size) = pos - size.
Proof. intros. unfold uint32. apply Z.mod_small. lia. Qed.

Lemma within_onGTID (m : Z) (file : string) (st st' : ScanState)
    (e : BinlogEvent) (x : gtidExit) :
  within m st -> offsetOk m e ->
  onGTID c file targetGTID st e = (st', x) ->
  within (LogPos (Header e)) st'.
Proof.
  intros Hin (Hlo & Hsize & Hmax) Hg.
  pose proof (within_mono _ _ _ Hlo Hin) as [Hr Ht].
  revert Hg. unfold onGTID.
  repeat case_match; intros; simplify_eq; try (by split);
    split; simpl; try (by intros; simplify_eq); try done.
  - intros t ?; simplify_eq. simpl. rewrite uint32_sub by lia. lia.
  - intros r ?; simplify_eq.
    match goal with Hg : result st = Some ?g |- _ =>
      destruct (Hr g) as [[? ?] ?]; [congruence|] end.
    unfold ordered. simpl. lia.
  - intros r ?; apply Hr; congruence.
Qed.

Lemma within_keepHighest (m : Z) (r : option GTIDPosition) (t p : GTIDPosition) :
  (forall r0, r = Some r0 -> ordered r0 /\ ResumePosition r0 <= m) ->
  ordered t /\ ResumePosition t <= m ->
  keepHighest r t = Some p -> ordered p /\ ResumePosition p <= m.
Proof.
  intros Hr Ht Hk. destruct (keepHighest_cases r t) as [Hk'|Hk'];
    rewrite Hk' in Hk; simplify_eq; auto.
Qed.

Lemma within_trackCommit (st : ScanState) (e : BinlogEvent) :
  within (LogPos (Header e)) st -> within (LogPos (Header e)) (trackCommit st e).
Proof.
  intros Hin. unfold trackCommit.
  destruct (currentTransaction st) as [t|] eqn:Hcur; [|exact Hin].
  destruct (isCommit e); [|exact Hin].
  destruct Hin as [Hr Ht]. split; simpl; [|done]. intros p Hk.
  eapply within_keepHighest; [exact Hr| |exact Hk].
  destruct (Ht t Hcur). unfold ordered. simpl. lia.
Qed.

Lemma within_onEvent (m : Z) (file : string) (st st' : ScanState)
    (e : BinlogEvent) (err : option error) :
  within m st -> offsetOk m e ->
  onEvent c file targetGTID st e = (st', err) ->
  within (LogPos (Header e)) st'.
Proof.
  intros Hin Hok. pose proof Hok as (Hlo & _).
  unfold onEvent.
  destruct (beforeStart c e); [intros; simplify_eq; by eapply within_mono|].
  destruct (afterEnd c e); [intros; simplify_eq; by eapply within_mono|].
  destruct (onGTID c file targetGTID (trackDatabase st e) e) as [st2 x] eqn:Hg.
  pose proof (within_onGTID _ _ _ _ _ _ (within_trackDatabase _ _ e Hin) Hok Hg).
  destruct x; intros; simplify_eq; [by apply within_trackCommit|done|done].
Qed.

Lemma within_scan (file : string) (evs : list BinlogEvent) (m : Z)
    (st st' : ScanState) (failure err : option error) :
  offsetsAscend m evs = true -> within m st ->
  parseEvents (onEvent c file targetGTID) st evs failure = (st', err) ->
  exists m', within m' st'.
Proof.
  revert m st. induction evs as [|e evs IH]; intros m st Hasc Hin; simpl.
  - intros; simplify_eq; eauto.
  - destruct (offsetsAscend_cons _ _ _ Hasc) as [Hok Hrest].
    destruct (onEvent c file targetGTID st e) as [st1 err1] eqn:He.
    pose proof (within_onEvent _ _ _ _ _ _ Hin Hok He) as Hin1.
    destruct err1; [intros; simplify_eq; eauto|]. by apply (IH _ _ Hrest Hin1).
Qed.

Lemma within_setBinlogFile (m : Z) (file : string) (st : ScanState)
    (t : GTIDPosition) :
  within m st -> currentTransaction st = Some t ->
  within m (setTransaction (Some (setBinlogFile file t)) st).
Proof.
  intros [Hr Ht] Hcur. split; [done|]. simpl. intros ? ?; simplify_eq. simpl.
  by apply Ht.
Qed.

Lemma within_remoteEvent (m : Z) (st : RemoteState) (ev : BinlogEvent) :
  within m (scan st) -> offsetOk m ev ->
  match remoteEvent c targetGTID st ev with
  | Continue st' => within (LogPos (Header ev)) (scan st')
  | Return r _ => forall p, r = Some p -> ordered p
  end.
Proof.
  intros Hin Hok. pose proof Hok as (Hlo & _). unfold remoteEvent.
  destruct (beforeStart c ev); [by eapply within_mono|].
  destruct (afterEnd c ev).
  { intros p Hp. destruct Hin as [Hr _]. by destruct (Hr p Hp). }
  destruct (onGTID c (startFile st) targetGTID (trackDatabase (scan st) ev) ev)
    as [st2 x] eqn:Hg.
  pose proof (within_onGTID _ _ _ _ _ _ (within_trackDatabase _ _ ev Hin) Hok Hg)
    as Hin2.
  destruct x; simpl; [|done|].
  - unfold remoteTrackCommit. destruct (currentTransaction st2) eqn:Hcur; [|done].
    apply within_trackCommit. by apply within_setBinlogFile.
  - intros p Hp. destruct Hin2 as [Hr _]. by destruct (Hr p Hp).
Qed.

Lemma within_remoteLoop (ds : list remote.Delivery) (m : Z) (st : RemoteState)
    (p : GTIDPosition) (err : option error) :
  offsetsAscend m (deliveredEvents ds) = true -> within m (scan st) ->
  remoteLoop c targetGTID st ds = (Some p, err) -> ordered p.
Proof.
  revert m st. induction ds as [|d ds IH]; intros m st Hasc Hin; simpl.
  - intros; simplify_eq. destruct Hin as [Hr _]. by destruct (Hr p).
  - destruct d as [ev| |e]; [| |done].
    + unfold deliveredEvents in Hasc. simpl in Hasc.
      destruct (offsetsAscend_cons _ _ _ Hasc) as [Hok Hrest].
      pose proof (within_remoteEvent _ _ _ Hin Hok) as Hstep.
      destruct (remoteEvent c targetGTID st ev) as [st'|r e'].
      * by apply (IH _ _ Hrest Hstep).
      * intros; simplify_eq. by apply Hstep.
    + intros; simplify_eq. destruct Hin as [Hr _]. by destruct (Hr p).
Qed.

End OffsetFacts.

Section OffsetClaims.

Context `{GTIDSetLib}.

(** C4 (as amended): when every event of the sequence has [uint32]
    offsets with a size no larger than its end offset, and the end offsets
    never decrease along the sequence, every position returned by the file
    scan or by the remote search satisfies
    position <= commit_position <= resume_position. *)
Theorem ascending_offsets_give_ordered_result
    (s : Searcher) (filepath : string) (c : Config) (conn : remote.Connection)
    (targetGTID : GTIDSet) :
  (offsetsAscend 0 (events (parserFactory s filepath)) = true ->
   forall r err, searchBinlogFile s filepath targetGTID = (Some r, err) -> ordered r)
  /\ (offsetsAscend 0 (deliveredEvents (remote.deliveries conn)) = true ->
      forall r err, RemoteSearch c conn targetGTID = (Some r, err) -> ordered r).
Proof.
  split.
  - intros Hasc r err. unfold searchBinlogFile, ParseFile.
    destruct (parseEvents _ _ _ _) as [st e] eqn:Hscan.
    destruct (within_scan _ _ _ _ _ _ _ _ _ Hasc (within_initial 0) Hscan)
      as [m [Hr _]].
    repeat case_match; intros; simplify_eq; by destruct (Hr r).
  - intros Hasc r err. unfold RemoteSearch.
    repeat case_match; try done.
    apply (within_remoteLoop _ _ _ 0); [done|apply within_initial].
Qed.

End OffsetClaims.

(** ** The end-time bound *)

Section EndTime.

Context `{GTIDSetLib}.

Lemma remoteLoop_events (c : Config) (targetGTID : GTIDSet)
    (pre : list BinlogEvent) (rest : list remote.Delivery) (st : RemoteState) :
  remoteLoop c targetGTID st (map remote.Event pre ++ rest) =
    match remoteEvents c targetGTID st pre with
    | Continue st' => remoteLoop c targetGTID st' rest
    | Return r err => (r, err)
    end.
Proof.
  revert st. induction pre as [|e pre IH]; intros st; simpl; [done|].
  destruct (remoteEvent c targetGTID st e); [apply IH|done].
Qed.

(** The file scan passes over an event that the time filter rejects. *)
Lemma filtered_event_skipped (c : Config) (file : string) (targetGTID : GTIDSet)
    (st : ScanState) (e : BinlogEvent) :
  beforeStart c e = true \/ afterEnd c e = true ->
  onEvent c file targetGTID st e = (st, None).
Proof.
  unfold onEvent. intros [->| ->]; [done|]. by destruct (beforeStart c e).
Qed.

(** C5 (as amended): in the remote search, an event stamped later than
    the end-time bound (and not earlier than the start bound, which is
    tested first) ends the search normally with the best match held so far.
    In the scan of a file such an event is only skipped: the scan goes on
    and returns what it would return if the event were not in the file. *)
Theorem end_time_stops_remote_search_only
    (c : Config) (targetGTID : GTIDSet) (e : BinlogEvent) :
  afterEnd c e = true ->
  (forall (conn : remote.Connection) (pre : list BinlogEvent)
          (post : list remote.Delivery) (st : RemoteState),
      StartFile c <> EmptyString ->
      remote.startSyncError conn = None ->
      remote.deliveries conn = map remote.Event pre ++ remote.Event e :: post ->
      remoteEvents c targetGTID
        {| scan := initialState; startFile := StartFile c |} pre = Continue st ->
      beforeStart c e = false ->
      RemoteSearch c conn targetGTID = (result (scan st), None))
  /\ (forall (filepath : string) (pre post : list BinlogEvent)
             (failure : option error),
        searchBinlogFile
          {| config := c; parserFactory := MockBinlogParser (pre ++ e :: post) failure |}
          filepath targetGTID
        = searchBinlogFile
            {| config := c; parserFactory := MockBinlogParser (pre ++ post) failure |}
            filepath targetGTID).
Proof.
  intros Hae. split.
  - intros conn pre post st Hfile Hsync Hds Hpre Hbs. unfold RemoteSearch.
    apply String.eqb_neq in Hfile. rewrite Hfile, Hsync, Hds, remoteLoop_events, Hpre.
    simpl. unfold remoteEvent. by rewrite Hbs, Hae.
  - intros filepath pre post failure. unfold searchBinlogFile, ParseFile. simpl.
    rewrite !(parseEvents_app _ pre). destruct (parseEvents _ _ pre None) as [st [err|]];
      [done|]. simpl. rewrite filtered_event_skipped by auto. done.
Qed.

End EndTime.

(** ** The start position *)

(** C10: a GTID event that passes the time filter, parses, lies in the
    target set and passes the database filter opens a transaction whose
    start position is [LogPos - EventSize] in [uint32] arithmetic, in the
    file scan and in the remote search alike; and there is an input with
    [EventSize > LogPos] for which the returned start position has wrapped
    and exceeds the commit position. *)
Theorem start_position_is_uint32_difference :
  (forall (L : GTIDSetLib) (c : Config) (file : string) (targetGTID : GTIDSet) (st : ScanState)
          (e : BinlogEvent) (sid : list Byte.byte) (gno : Z) (currentGTID : GTIDSet),
      Payload e = GTIDEvent sid gno ->
      beforeStart c e = false -> afterEnd c e = false ->
      ParseMysqlGTIDSet (gtidStr sid gno) = Ok currentGTID ->
      Contain targetGTID currentGTID = true ->
      databaseMismatch c st = false ->
      exists st' rst' t,
        onEvent c file targetGTID st e = (st', None)
        /\ remoteEvent c targetGTID {| scan := st; startFile := file |} e = Continue rst'
        /\ currentTransaction st' = Some t
        /\ currentTransaction (scan rst') = Some t
        /\ Position t = uint32 (LogPos (Header e) - EventSize (Header e))
        /\ CommitPosition t = LogPos (Header e))
  /\ (exists (s : Searcher) (filepath : string) (targetGTID : GTIDSet)
             (e : BinlogEvent) (r : GTIDPosition),
        e ∈ events (parserFactory s filepath)
        /\ isGTID e = true
        /\ EventSize (Header e) > LogPos (Header e)
        /\ searchBinlogFile (H := mysqlLib) s filepath targetGTID = (Some r, None)
        /\ Position r = LogPos (Header e) - EventSize (Header e) + 2 ^ 32
        /\ Position r > CommitPosition r).
Proof.
  split.
  - intros L c file targetGTID st e sid gno currentGTID Hp Hbs Hae Hparse Hin Hdb.
    unfold onEvent, remoteEvent. rewrite Hbs, Hae.
    unfold trackDatabase, onGTID. simpl. rewrite Hp, Hparse, Hin, Hdb.
    unfold trackCommit, remoteTrackCommit, trackCommit, trackRotation, isCommit.
    simpl. rewrite Hp. do 3 eexists. repeat split.
  - exists (scenario.mock scenario.plainConfig scenario.oversized), "mysql-bin.000001",
      scenario.target, (scenario.event 10 50 100 (GTIDEvent scenario.sid 50)).
    eexists. split; [left|]. split; [done|]. split; [done|].
    split; [vm_compute; reflexivity|]. simpl. split; [done|]. done.
Qed.


(** ** The header probe and the file selector *)

Section SelectorFacts.

Context `{GTIDSetLib}.

(** The probe passes over everything that is not a previous-GTIDs
    event. *)
Lemma header_scan_passes (evs : list BinlogEvent) (st : HeaderState)
    (failure : option error) :
  Forall (fun e => isPreviousGTIDs e = false) evs ->
  parseEvents onHeaderEvent st evs failure = (st, failure).
Proof.
  induction 1 as [|e evs He _ IH]; simpl; [done|].
  unfold onHeaderEvent, isPreviousGTIDs in *. by destruct (Payload e).
Qed.

(** An error of the probe always comes with the answer "not
    contained". *)
Lemma CheckPreviousGTIDs_error (s : Searcher) (filepath : string)
    (targetGTID : GTIDSet) (err : error) :
  (CheckPreviousGTIDs s filepath targetGTID).2 = Some err ->
  (CheckPreviousGTIDs s filepath targetGTID).1 = false.
Proof.
  unfold CheckPreviousGTIDs. repeat case_match; simpl; intros; simplify_eq; done.
Qed.

(** C9: when the events of the probed file hold no previous-GTIDs event,
    or when the probe returns an error, the selector's predicate is false
    for that file; and at the first previous-GTIDs event the answer is
    settled by that event alone, whatever the file holds after it. *)
Theorem unknown_header_is_not_skipped
    (s : Searcher) (files : list string) (targetGTID : GTIDSet) (i : Z) :
  (Forall (fun e => isPreviousGTIDs e = false)
     (events (parserFactory s (fileAt files i))) ->
   headerPredicate s files targetGTID i = false)
  /\ (forall err,
        (CheckPreviousGTIDs s (fileAt files i) targetGTID).2 = Some err ->
        (CheckPreviousGTIDs s (fileAt files i) targetGTID).1 = false
        /\ headerPredicate s files targetGTID i = false)
  /\ (forall (pre post : list BinlogEvent) (e : BinlogEvent) (sets : string),
        events (parserFactory s (fileAt files i)) = pre ++ e :: post ->
        Forall (fun e => isPreviousGTIDs e = false) pre ->
        Payload e = PreviousGTIDsEvent sets ->
        CheckPreviousGTIDs s (fileAt files i) targetGTID =
          match ParseMysqlGTIDSet sets with
          | Ok prev => (Contain prev targetGTID, None)
          | Err err => (false, Some (wrapError "failed to parse GTID set: " err))
          end).
Proof.
  split; [|split].
  - intros Hnone. unfold headerPredicate, CheckPreviousGTIDs, ParseFile.
    rewrite (header_scan_passes _ _ _ Hnone). simpl.
    destruct (failure _) as [e|]; [|done].
    by destruct (negb (Error e =? "stop_scan")%string).
  - intros err Herr. split; [by eapply CheckPreviousGTIDs_error|].
    unfold headerPredicate. destruct (CheckPreviousGTIDs _ _ _) as [b o].
    simpl in Herr. by subst.
  - intros pre post e sets Hev Hpre He. unfold CheckPreviousGTIDs, ParseFile.
    rewrite Hev, parseEvents_app, (header_scan_passes _ _ _ Hpre). simpl.
    unfold onHeaderEvent. rewrite He.
    destruct (ParseMysqlGTIDSet sets) as [prev|err]; simpl; [|done].
    by destruct (Contain prev targetGTID).
Qed.

(** The first index where [P] holds, characterised. *)
Lemma firstTrueFrom_spec (P : Z -> bool) (k : nat) (lo : Z) :
  lo <= firstTrueFrom P lo k <= lo + Z.of_nat k
  /\ (forall x, lo <= x < firstTrueFrom P lo k -> P x = false)
  /\ (firstTrueFrom P lo k < lo + Z.of_nat k -> P (firstTrueFrom P lo k) = true).
Proof.
  revert lo. induction k as [|k IH]; intros lo; simpl firstTrueFrom.
  - split; [lia|]. split; intros; lia.
  - destruct (P lo) eqn:Hlo.
    + split; [lia|]. split; [intros; lia|done].
    + destruct (IH (lo + 1)) as (Hrange & Hbelow & Hat).
      split; [lia|]. split.
      * intros x Hx. destruct (decide (x = lo)) as [->|]; [done|]. apply Hbelow. lia.
      * intros. apply Hat. lia.
Qed.

Lemma firstTrue_spec (P : Z -> bool) (n : Z) :
  0 <= n ->
  0 <= firstTrue P n <= n
  /\ (forall x, 0 <= x < firstTrue P n -> P x = false)
  /\ (firstTrue P n < n -> P (firstTrue P n) = true).
Proof.
  intros Hn. unfold firstTrue.
  pose proof (firstTrueFrom_spec P (Z.to_nat n) 0) as Hs.
  rewrite Z2Nat.id in Hs by done. exact Hs.
Qed.

Lemma midpoint (i j : Z) :
  0 <= i -> i < j -> j < 2 ^ 63 ->
  Z.shiftr (uint64 (i + j)) 1 = (i + j) / 2 /\ i <= (i + j) / 2 < j.
Proof.
  intros Hi Hij Hj. unfold uint64.
  rewrite Z.mod_small by lia. rewrite Z.shiftr_div_pow2 by lia.
  change (2 ^ 1) with 2. split; [done|].
  split; [apply Z.div_le_lower_bound; lia|apply Z.div_lt_upper_bound; lia].
Qed.

(** The loop never runs out of iterations: [j - i] of them are enough,
    and more change nothing. *)
Lemma sortSearchLoop_fuel (f : Z -> bool) (fuel extra : nat) (i j : Z) :
  0 <= i -> j < 2 ^ 63 -> (Z.to_nat (j - i) <= fuel)%nat ->
  sortSearchLoop (fuel + extra) f i j = sortSearchLoop fuel f i j.
Proof.
  revert i j. induction fuel as [|fuel IH]; intros i j Hi Hj Hfuel.
  - destruct extra; simpl; [done|].
    destruct (i <? j) eqn:Hlt; [|done]. apply Z.ltb_lt in Hlt. lia.
  - cbn [Nat.add sortSearchLoop]. destruct (i <? j) eqn:Hlt; [|done].
    apply Z.ltb_lt in Hlt. destruct (midpoint i j) as [-> Hh]; [done..|].
    destruct (negb (f ((i + j) / 2))); apply IH; lia.
Qed.

(** On a monotonic predicate the binary search finds the first index
    where it holds. *)
Lemma sortSearchLoop_first (f : Z -> bool) (n : Z) (fuel : nat) (i j : Z) :
  monotonic f n -> n < 2 ^ 63 ->
  0 <= i -> i <= firstTrue f n -> firstTrue f n <= j -> j <= n ->
  (Z.to_nat (j - i) <= fuel)%nat ->
  sortSearchLoop fuel f i j = firstTrue f n.
Proof.
  intros Hmono Hn. assert (0 <= n \/ n < 0) as [Hn0|Hn0] by lia.
  2:{ intros. lia. }
  destruct (firstTrue_spec f n Hn0) as (Hrange & Hbelow & Hat).
  revert i j. induction fuel as [|fuel IH]; intros i j Hi Hlo Hhi Hj Hfuel.
  - simpl. lia.
  - cbn [sortSearchLoop]. destruct (i <? j) eqn:Hlt.
    + apply Z.ltb_lt in Hlt. destruct (midpoint i j) as [-> Hh]; [lia..|].
      destruct (f ((i + j) / 2)) eqn:Hfh; simpl.
      * apply IH; [lia|lia| |lia|lia].
        destruct (Z_le_gt_dec (firstTrue f n) ((i + j) / 2)); [done|].
        rewrite Hbelow in Hfh by lia. done.
      * apply IH; [lia| |lia|lia|lia].
        destruct (Z_lt_le_dec ((i + j) / 2) (firstTrue f n)); [lia|].
        rewrite (Hmono (firstTrue f n) ((i + j) / 2)) in Hfh; [done|lia..|].
        apply Hat. lia.
    + apply Z.ltb_ge in Hlt. lia.
Qed.

Lemma sortSearch_first (f : Z -> bool) (n : Z) :
  monotonic f n -> 0 <= n < 2 ^ 63 -> sortSearch n f = firstTrue f n.
Proof.
  intros Hmono [Hn0 Hn]. destruct (firstTrue_spec f n Hn0) as (Hrange & _).
  unfold sortSearch. apply sortSearchLoop_first; try done; try lia.
Qed.

Lemma fileAt_lookup (files : list string) (i : Z) (f : string) :
  0 <= i -> files !! Z.to_nat i = Some f -> fileAt files i = f.
Proof.
  intros Hi Hf. unfold fileAt. destruct (i <? 0) eqn:Hneg; [lia|]. by rewrite Hf.
Qed.

End SelectorFacts.

(** C6: over a file list whose header predicate is monotonic, with [idx]
    the first index where the predicate holds (the number of files when it
    holds nowhere), [FindStartFileUsingHeaders] returns [files[0]] when
    [idx = 0], the last file when [idx = n], and [files[idx-1]] otherwise;
    and for the target U:1-100 over headers U:1-50, U:1-80, U:1-120 it
    returns the second file. *)
Theorem smart_selector_returns_boundary_file :
  (forall (L : GTIDSetLib) (s : Searcher) (files : list string) (targetGTID : GTIDSet),
      let n := Z.of_nat (length files) in
      let P := headerPredicate s files targetGTID in
      let idx := firstTrue P n in
      n < 2 ^ 63 ->
      monotonic P n ->
      (idx = 0 -> forall f, files !! 0%nat = Some f ->
         FindStartFileUsingHeaders s files targetGTID = (f, None))
      /\ (idx = n -> forall f, files !! (length files - 1)%nat = Some f ->
            FindStartFileUsingHeaders s files targetGTID = (f, None))
      /\ (0 < idx < n -> forall f, files !! Z.to_nat (idx - 1) = Some f ->
            FindStartFileUsingHeaders s files targetGTID = (f, None)))
  /\ FindStartFileUsingHeaders (H := mysqlLib) scenario.threeHeaders
       ["bin.001"; "bin.002"; "bin.003"] scenario.target
     = ("bin.002", None).
Proof.
  split; [|vm_compute; reflexivity].
  intros L s files targetGTID n P idx Hn Hmono.
  assert (Hsearch : sortSearch n P = idx) by (apply sortSearch_first; [done|lia]).
  unfold FindStartFileUsingHeaders. fold n. fold P. rewrite Hsearch.
  split; [|split].
  - intros Hidx f Hf. destruct (n =? 0) eqn:Hz.
    + apply Z.eqb_eq in Hz. apply lookup_lt_Some in Hf. lia.
    + rewrite Hidx. simpl. by rewrite (fileAt_lookup files 0 f).
  - intros Hidx f Hf. destruct (n =? 0) eqn:Hz.
    + apply Z.eqb_eq in Hz. apply lookup_lt_Some in Hf. lia.
    + apply Z.eqb_neq in Hz. rewrite Hidx.
      destruct (n =? 0) eqn:Hz'; [apply Z.eqb_eq in Hz'; lia|].
      rewrite Z.eqb_refl. rewrite (fileAt_lookup files (n - 1) f); [done|lia|].
      replace (Z.to_nat (n - 1)) with (length files - 1)%nat by lia. done.
  - intros Hidx f Hf. destruct (n =? 0) eqn:Hz; [apply Z.eqb_eq in Hz; lia|].
    destruct (idx =? 0) eqn:Hz1; [apply Z.eqb_eq in Hz1; lia|].
    destruct (idx =? n) eqn:Hz2; [apply Z.eqb_eq in Hz2; lia|].
    by rewrite (fileAt_lookup files (idx - 1) f) by (done || lia).
Qed.


(** ** The coordinator *)

Section CoordinatorFacts.

Context `{GTIDSetLib}.
Variables (s : Searcher) (files : list string) (targetGTID : GTIDSet).

Import coordinator.


Lemma coherent_initial : coherent s files targetGTID (initialCoordinator files).
Proof.
  split; [by constructor|]. split; [done|].
  intros i p f Hp _. simpl in Hp. apply lookup_replicate in Hp as [-> _]. done.
Qed.

Lemma accounted_grows (st st' : State) (p : pc) (f : string) (extra : list GTIDPosition) :
  resultChan st' = resultChan st ++ extra ->
  accounted s targetGTID st p f -> accounted s targetGTID st' p f.
Proof.
  intros Heq. assert (Hne : resultChan st <> [] -> resultChan st' <> []).
  { rewrite Heq. destruct (resultChan st); simpl; done. }
  destruct p; simpl; tauto.
Qed.

(** One step of goroutine [i], which stood at [p] and now stands at [q],
    possibly publishing [extra]. *)
Lemma coherent_update (st st' : State) (i : nat) (p q : pc) (f : string)
    (extra : list GTIDPosition) :
  coherent s files targetGTID st -> tasks st !! i = Some p -> files !! i = Some f ->
  tasks st' = <[i := q]> (tasks st) ->
  resultChan st' = resultChan st ++ extra ->
  Forall (fun r => isMatch s targetGTID f r) extra ->
  (cancelled st' = true -> resultChan st' <> []) ->
  accounted s targetGTID st' q f ->
  coherent s files targetGTID st'.
Proof.
  intros (Hpub & Hcan & Hacc) Hp Hf Htasks Hres Hextra Hcan' Hq.
  split; [|split; [done|]].
  - rewrite Hres. apply Forall_app_2; [done|].
    eapply Forall_impl; [exact Hextra|]. intros r Hr. exists f.
    split; [by eapply list_elem_of_lookup_2|done].
  - intros j p' f' Hp' Hf'. rewrite Htasks in Hp'.
    destruct (decide (i = j)) as [<-|Hne].
    + rewrite list_lookup_insert_eq in Hp' by (by eapply lookup_lt_Some).
      by simplify_eq.
    + rewrite list_lookup_insert_ne in Hp' by done.
      eapply accounted_grows; [exact Hres|]. by eapply Hacc.
Qed.

(** A step that publishes nothing. *)
Ltac silent_step st i q f :=
  eapply (coherent_update st _ i _ q f []); eauto; simpl; rewrite ?app_nil_r.

Lemma coherent_step (st st' : State) (i : nat) :
  coherent s files targetGTID st ->
  stepTask s files targetGTID st i = Some st' ->
  coherent s files targetGTID st'.
Proof.
  intros Hco. pose proof Hco as (Hpub & Hcan & Hacc). unfold stepTask.
  destruct (tasks st !! i) as [p|] eqn:Hp; [|done].
  destruct (files !! i) as [f|] eqn:Hf; [|by destruct p].
  pose proof (Hacc i p f Hp Hf) as Hi.
  destruct p; simpl in Hi.
  - (* Queued *)
    destruct (inUse st <? Parallel (config s)); [|done]. intros; simplify_eq.
    silent_step st i Holding f; done.
  - (* Holding *)
    intros; simplify_eq. destruct (cancelled st) eqn:Hflag.
    + silent_step st i Exiting f; try done; auto.
    + silent_step st i Scanning f; done.
  - (* Scanning *)
    destruct (searchBinlogFile s f targetGTID) as [[r|] [err|]] eqn:Hscan;
      intros; simplify_eq.
    + silent_step st i Exiting f; try done.
      right. intros r' Hr'. unfold isMatch in Hr'. congruence.
    + eapply (coherent_update st _ i _ Cancelling f [r]); eauto; simpl.
      * intros _. by destruct (resultChan st).
      * by destruct (resultChan st).
    + silent_step st i Exiting f; try done.
      right. intros r' Hr'. unfold isMatch in Hr'. congruence.
    + silent_step st i Exiting f; try done.
      right. intros r' Hr'. unfold isMatch in Hr'. congruence.
  - (* Cancelling *)
    intros; simplify_eq. silent_step st i Exiting f; auto.
  - (* Exiting *)
    intros; simplify_eq. silent_step st i Finished f; auto.
  - done.
Qed.

Lemma stepTask_length (st st' : State) (i : nat) :
  stepTask s files targetGTID st i = Some st' ->
  length (tasks st') = length (tasks st).
Proof.
  unfold stepTask. repeat case_match; intros; simplify_eq; simpl;
    by rewrite length_insert.
Qed.

Lemma coherent_run (schedule : list nat) (st st' : State) :
  coherent s files targetGTID st ->
  runSchedule s files targetGTID st schedule = Some st' ->
  coherent s files targetGTID st' /\ length (tasks st') = length (tasks st).
Proof.
  revert st. induction schedule as [|i schedule IH]; intros st Hco; simpl.
  - intros; by simplify_eq.
  - destruct (stepTask s files targetGTID st i) as [st1|] eqn:Hstep; [|done].
    intros Hrun. destruct (IH st1 (coherent_step _ _ _ Hco Hstep) Hrun) as [? Hlen].
    split; [done|]. rewrite Hlen. by eapply stepTask_length.
Qed.

(** "Collect best result": the selected result is one of those published
    and no published result has a higher transaction number. *)
Lemma keepHighest_foldl_max (l : list GTIDPosition) (r0 r : GTIDPosition) :
  foldl keepHighest (Some r0) l = Some r ->
  (r = r0 \/ r ∈ l) /\ GNO r0 <= GNO r /\ forall x, x ∈ l -> GNO x <= GNO r.
Proof.
  revert r0. induction l as [|a l IH]; intros r0; simpl.
  - intros; simplify_eq. split; [auto|]. split; [lia|]. intros x Hx. inversion Hx.
  - destruct (GNO r0 <? GNO a) eqn:Hlt; intros Hfold;
      destruct (IH _ Hfold) as (Hin & Hle & Hall).
    + apply Z.ltb_lt in Hlt. split; [right; destruct Hin as [->|]; [left|by right]|].
      split; [lia|]. intros x Hx. inversion Hx; subst; auto.
    + apply Z.ltb_ge in Hlt. split; [destruct Hin; [auto|right; by right]|].
      split; [lia|]. intros x Hx. inversion Hx; subst; [lia|auto].
Qed.

Lemma collectBest_max (l : list GTIDPosition) (r : GTIDPosition) :
  collectBest l = Some r -> r ∈ l /\ forall x, x ∈ l -> GNO x <= GNO r.
Proof.
  unfold collectBest. destruct l as [|a l]; simpl; [done|]. intros Hfold.
  destruct (keepHighest_foldl_max _ _ _ Hfold) as (Hin & Hle & Hall).
  split; [destruct Hin as [->|]; [left|by right]|].
  intros x Hx. inversion Hx; subst; auto.
Qed.

(** A complete run: what it returns, and from which published results. *)
Lemma complete_run_outcome (schedule : list nat)
    (out : option GTIDPosition * option error) :
  SearchParallel s files targetGTID schedule = Some out ->
  exists published,
    out = (collectBest published, None)
    /\ Forall (fun r => exists f, f ∈ files /\ isMatch s targetGTID f r) published
    /\ (forall r, collectBest published = Some r ->
          r ∈ published /\ forall x, x ∈ published -> GNO x <= GNO r)
    /\ (collectBest published = None ->
        forall f r, f ∈ files -> ~ isMatch s targetGTID f r).
Proof.
  unfold SearchParallel. destruct (Parallel (config s) <? 0); [done|].
  destruct (runSchedule _ _ _ _ _) as [st|] eqn:Hrun; [|done].
  destruct (allFinished st) eqn:Hfin; [|done]. intros; simplify_eq.
  destruct (coherent_run _ _ _ coherent_initial Hrun) as [(Hpub & _ & Hacc) Hlen].
  exists (resultChan st). split; [done|]. split; [done|].
  split; [apply collectBest_max|].
  intros Hnone f r Hf Hm. apply keepHighest_foldl_none in Hnone.
  apply list_elem_of_lookup_1 in Hf as [i Hi].
  simpl in Hlen. rewrite length_replicate in Hlen.
  destruct (tasks st !! i) as [p|] eqn:Hp.
  2:{ apply lookup_ge_None in Hp. apply lookup_lt_Some in Hi. lia. }
  unfold allFinished in Hfin. rewrite forallb_forall in Hfin.
  assert (Hp' : isFinished p = true).
  { apply Hfin. apply list_elem_of_In. by eapply list_elem_of_lookup_2. }
  destruct p; try done. destruct (Hacc i Finished f Hp Hi) as [?|Hno]; [done|].
  by apply (Hno r).
Qed.

(** "Collect best result (highest GNO)" picks, of the results received,
    the first that none before it reaches and none after it exceeds. *)
Lemma keepHighest_foldl_split (l : list GTIDPosition) (acc : option GTIDPosition)
    (r : GTIDPosition) :
  foldl keepHighest acc l = Some r ->
  (acc = Some r /\ forall x, x ∈ l -> GNO x <= GNO r)
  \/ exists l1 l2,
       l = l1 ++ r :: l2
       /\ (forall a, acc = Some a -> GNO a < GNO r)
       /\ (forall x, x ∈ l1 -> GNO x < GNO r)
       /\ (forall x, x ∈ l2 -> GNO x <= GNO r).
Proof.
  revert acc. induction l as [|a l IH]; intros acc; simpl.
  - intros ->. left. split; [done|]. intros x Hx. inversion Hx.
  - intros Hfold. destruct (IH _ Hfold) as [[Hkeep Hle]|(l1 & l2 & -> & Hacc & H1 & H2)].
    + destruct acc as [r0|]; simpl in Hkeep.
      * destruct (GNO r0 <? GNO a) eqn:Hlt; simplify_eq.
        -- apply Z.ltb_lt in Hlt. right. exists [], l. split; [done|].
           split; [intros ? ?; simplify_eq; lia|]. split; [|done].
           intros x Hx. inversion Hx.
        -- apply Z.ltb_ge in Hlt. left. split; [done|].
           intros x Hx. apply elem_of_cons in Hx as [->|Hx]; [lia|auto].
      * simplify_eq. right. exists [], l. split; [done|].
        split; [done|]. split; [|done]. intros x Hx. inversion Hx.
    + right. exists (a :: l1), l2. split; [done|].
      assert (Ha : GNO a < GNO r /\ forall r0, acc = Some r0 -> GNO r0 < GNO r).
      { destruct acc as [r0|]; simpl in Hacc.
        - destruct (GNO r0 <? GNO a) eqn:Hlt;
            [apply Z.ltb_lt in Hlt|apply Z.ltb_ge in Hlt];
            specialize (Hacc _ eq_refl); split; try lia;
            intros ? ?; simplify_eq; lia.
        - specialize (Hacc _ eq_refl). split; [lia|done]. }
      destruct Ha as [Ha Hacc']. split; [done|]. split; [|done].
      intros x Hx. apply elem_of_cons in Hx as [->|Hx]; [lia|auto].
Qed.

Lemma collectBest_first_max (l : list GTIDPosition) (r : GTIDPosition) :
  collectBest l = Some r ->
  exists earlier later,
    l = earlier ++ r :: later
    /\ (forall x, x ∈ earlier -> GNO x < GNO r)
    /\ (forall x, x ∈ later -> GNO x <= GNO r).
Proof.
  unfold collectBest. intros Hfold.
  destruct (keepHighest_foldl_split _ _ _ Hfold)
    as [[? _]|(l1 & l2 & -> & _ & H1 & H2)]; [done|].
  by exists l1, l2.
Qed.

(** A complete run: its result channel when every goroutine is through,
    and what is selected from it. *)
Lemma complete_run_selection (schedule : list nat)
    (out : option GTIDPosition * option error) :
  SearchParallel s files targetGTID schedule = Some out ->
  exists st,
    runSchedule s files targetGTID (initialCoordinator files) schedule = Some st
    /\ allFinished st = true
    /\ out.2 = None
    /\ Forall (fun r => exists f, f ∈ files
                 /\ searchBinlogFile s f targetGTID = (Some r, None))
         (resultChan st)
    /\ match out.1 with
       | Some r =>
           exists earlier later,
             resultChan st = earlier ++ r :: later
             /\ (forall x, x ∈ earlier -> GNO x < GNO r)
             /\ (forall x, x ∈ later -> GNO x <= GNO r)
       | None =>
           resultChan st = []
           /\ forall f r, f ∈ files ->
                searchBinlogFile s f targetGTID <> (Some r, None)
       end.
Proof.
  intros Hrun. pose proof Hrun as Hout. apply complete_run_outcome in Hout.
  revert Hrun Hout. unfold SearchParallel.
  destruct (Parallel (config s) <? 0); [done|].
  destruct (runSchedule _ _ _ _ _) as [st|] eqn:Hsteps; [|done].
  destruct (allFinished st) eqn:Hfin; [|done]. intros ? Hout; simplify_eq.
  assert (Hco : coherent s files targetGTID st).
  { eapply coherent_run; [apply coherent_initial|exact Hsteps]. }
  destruct Hco as (Hpub & _).
  exists st. split_and!; [done..|]. cbn [fst].
  destruct Hout as (published & Heq & _ & _ & Hnone). injection Heq as Heq.
  destruct (collectBest (resultChan st)) as [r|] eqn:Hbest.
  - by apply collectBest_first_max.
  - split; [by apply keepHighest_foldl_none|].
    intros f r Hf. by apply Hnone.
Qed.

End CoordinatorFacts.

Lemma searchBinlogFile_withParallelism `{GTIDSetLib} (n : Z) (s : Searcher)
    (filepath : string) (targetGTID : GTIDSet) :
  searchBinlogFile (withParallelism n s) filepath targetGTID
  = searchBinlogFile s filepath targetGTID.
Proof. reflexivity. Qed.

(** C7 (as amended): a complete run of [SearchParallel] returns no error
    and, of the matches in its result channel once every goroutine is
    through, the first received with the highest transaction number; each
    match in the channel is the match of one of the files, and the channel
    is empty only when no file has a match.  Which matches get into the
    channel depends on the schedule, so runs with 1 and with 8 slots are
    only bound to return the same result when the files hold at most one
    distinct match. *)
Theorem highest_published_match_selected `{GTIDSetLib}
    (s : Searcher) (files : list string) (targetGTID : GTIDSet) :
  (forall schedule out,
      SearchParallel s files targetGTID schedule = Some out ->
      exists st,
        runSchedule s files targetGTID (initialCoordinator files) schedule = Some st
        /\ allFinished st = true
        /\ out.2 = None
        /\ Forall (fun r => exists f, f ∈ files
                     /\ searchBinlogFile s f targetGTID = (Some r, None))
             (coordinator.resultChan st)
        /\ match out.1 with
           | Some r =>
               exists earlier later,
                 coordinator.resultChan st = earlier ++ r :: later
                 /\ (forall x, x ∈ earlier -> GNO x < GNO r)
                 /\ (forall x, x ∈ later -> GNO x <= GNO r)
           | None =>
               coordinator.resultChan st = []
               /\ forall f r, f ∈ files ->
                    searchBinlogFile s f targetGTID <> (Some r, None)
           end)
  /\ (forall m schedule1 schedule8 out1 out8,
        (forall f r, f ∈ files ->
           searchBinlogFile s f targetGTID = (Some r, None) -> r = m) ->
        SearchParallel (withParallelism 1 s) files targetGTID schedule1 = Some out1 ->
        SearchParallel (withParallelism 8 s) files targetGTID schedule8 = Some out8 ->
        out1 = out8).
Proof.
  split; [intros schedule out; apply complete_run_selection|].
  intros m schedule1 schedule8 out1 out8 Hone Hrun1 Hrun8.
  destruct (complete_run_outcome _ _ _ _ _ Hrun1) as (p1 & -> & Hpub1 & Hmax1 & Hnone1).
  destruct (complete_run_outcome _ _ _ _ _ Hrun8) as (p8 & -> & Hpub8 & Hmax8 & Hnone8).
  rewrite Forall_forall in Hpub1, Hpub8.
  assert (Hsel : forall p,
            (forall r, r ∈ p -> exists f, f ∈ files
               /\ isMatch s targetGTID f r) ->
            forall r, collectBest p = Some r -> r ∈ p -> r = m /\ exists f, f ∈ files
               /\ isMatch s targetGTID f m).
  { intros p Hp r _ Hin. destruct (Hp r Hin) as (f & Hf & Hm).
    assert (r = m) as -> by (by eapply Hone). eauto. }
  destruct (collectBest p1) as [r1|] eqn:H1; destruct (collectBest p8) as [r8|] eqn:H8.
  - destruct (Hmax1 r1 eq_refl) as [Hin1 _]. destruct (Hmax8 r8 eq_refl) as [Hin8 _].
    destruct (Hsel p1 Hpub1 r1 H1 Hin1) as [-> _].
    destruct (Hsel p8 Hpub8 r8 H8 Hin8) as [-> _]. done.
  - destruct (Hmax1 r1 eq_refl) as [Hin1 _].
    destruct (Hsel p1 Hpub1 r1 H1 Hin1) as [-> (f & Hf & Hm)].
    by destruct (Hnone8 eq_refl f m Hf).
  - destruct (Hmax8 r8 eq_refl) as [Hin8 _].
    destruct (Hsel p8 Hpub8 r8 H8 Hin8) as [-> (f & Hf & Hm)].
    by destruct (Hnone1 eq_refl f m Hf).
  - done.
Qed.

(** ** The claims on the inputs of the tests *)

(** C1, where the statement as written fails: in [scenario.nextInRange]
    transaction 10 of the target set commits at 2000 and a GTID event
    follows, but that event (U:50) is itself in the target set; it opens a
    transaction, the file ends, and the result keeps resume position 2000
    and no next GTID. *)
Lemma later_gtid_inside_target_sets_no_boundary :
  ~ (forall (L : GTIDSetLib) (s : Searcher) (filepath : string)
            (targetGTID : GTIDSet) (pre post : list BinlogEvent) (g : BinlogEvent)
            (st : ScanState) (r : GTIDPosition) (sid : list Byte.byte) (gno : Z),
       events (parserFactory s filepath) = pre ++ g :: post ->
       scanEvents (config s) filepath targetGTID initialState pre = (st, None) ->
       result st = Some r ->
       Payload g = GTIDEvent sid gno ->
       exists r',
         searchBinlogFile s filepath targetGTID = (Some r', None)
         /\ ResumePosition r' = LogPos (Header g)
         /\ NextGTID r' = gtidStr sid gno).
Proof.
  intros Hclaim.
  destruct (Hclaim mysqlLib (scenario.mock scenario.plainConfig scenario.nextInRange)
              "mysql-bin.000001" scenario.target
              (take 2 scenario.nextInRange) []
              (scenario.event 10 3000 100 (GTIDEvent scenario.sid 50))
              {| result := Some (scenario.matchOf "mysql-bin.000001" 900 2000 10 10);
                 currentDatabase := EmptyString; currentTransaction := None |}
              (scenario.matchOf "mysql-bin.000001" 900 2000 10 10)
              scenario.sid 50)
    as (r' & Hsearch & Hresume & _); [reflexivity|vm_compute; reflexivity|reflexivity..|].
  vm_compute in Hsearch. injection Hsearch as <-. discriminate Hresume.
Qed.

(** C1 on [TestResumePosition_HighestGNOInRange]: transaction 50 is the best
    match when U:200 arrives at 2500. *)
Lemma next_gtid_outside_target_finalizes_witness :
  let s := scenario.mock scenario.plainConfig scenario.twoTransactions in
  let best := scenario.matchOf "mysql-bin.000001" 1400 2000 10 50 in
  exists st,
    scanEvents (H := mysqlLib) (config s) "mysql-bin.000001" scenario.target
      initialState (take 4 scenario.twoTransactions) = (st, None)
    /\ result st = Some best
    /\ exists r',
         searchBinlogFile (H := mysqlLib) s "mysql-bin.000001" scenario.target
           = (Some r', None)
         /\ r' = setNext (gtidStr scenario.sid 200) 2500 best
         /\ ResumePosition r' = 2500
         /\ NextGTID r' = gtidStr scenario.sid 200.
Proof.
  intros s best.
  exists {| result := Some best; currentDatabase := EmptyString;
            currentTransaction := None |}.
  split; [vm_compute; reflexivity|]. split; [reflexivity|].
  apply (next_gtid_outside_target_finalizes (H := mysqlLib) s "mysql-bin.000001"
           scenario.target (take 4 scenario.twoTransactions) []
           (scenario.event 10 2500 100 (GTIDEvent scenario.sid 200))
           {| result := Some best; currentDatabase := EmptyString;
              currentTransaction := None |}
           best scenario.sid 200 (scenario.parsed (gtidStr scenario.sid 200)));
    vm_compute; reflexivity.
Defined.

(** C2, where the statement as written fails: in [inputs.interrupted]
    transactions 10 and 50 of the target set both commit and 50 is the
    higher, but a transaction outside the target set starts between them;
    the scan stops there and returns transaction 10. *)
Lemma commit_after_the_stop_is_not_returned :
  ~ (forall (L : GTIDSetLib) (s : Searcher) (filepath : string)
            (targetGTID : GTIDSet) (l1 l2 : list GTIDPosition) (m : GTIDPosition),
       failure (parserFactory s filepath) = None ->
       inRangeCommits (config s) filepath targetGTID
         (events (parserFactory s filepath)) = l1 ++ m :: l2 ->
       (forall x, x ∈ l1 -> GNO x < GNO m) ->
       (forall x, x ∈ l2 -> GNO x < GNO m) ->
       exists r,
         searchBinlogFile s filepath targetGTID = (Some r, None)
         /\ GNO r = GNO m).
Proof.
  intros Hclaim.
  destruct (Hclaim mysqlLib (scenario.mock scenario.plainConfig inputs.interrupted)
              "mysql-bin.000001" scenario.target
              [scenario.matchOf "mysql-bin.000001" 400 600 10 10] []
              (scenario.matchOf "mysql-bin.000001" 1400 2000 10 50))
    as (r & Hsearch & Hgno); [reflexivity|vm_compute; reflexivity| | |].
  - intros x Hx. apply list_elem_of_singleton in Hx. subst x. reflexivity.
  - intros x Hx. inversion Hx.
  - vm_compute in Hsearch. injection Hsearch as <-. discriminate Hgno.
Qed.

(** C2 on [TestResumePosition_HighestGNOInRange] (transactions 10 and 50
    commit, then U:200 stops the scan: 50 is returned, with U:200 as next
    GTID) and on the first four events, where the file ends after the
    second commit. *)
Lemma highest_commit_before_stop_returned_witness :
  let first := scenario.matchOf "mysql-bin.000001" 400 600 10 10 in
  let second := scenario.matchOf "mysql-bin.000001" 1400 2000 10 50 in
  let pre := take 4 scenario.twoTransactions in
  inRangeCommits (H := mysqlLib) scenario.plainConfig "mysql-bin.000001"
    scenario.target pre = [first; second]
  /\ (exists r,
        searchBinlogFile (H := mysqlLib)
          (scenario.mock scenario.plainConfig scenario.twoTransactions)
          "mysql-bin.000001" scenario.target = (Some r, None)
        /\ GNO r = GNO second
        /\ exists sid gno,
             GTIDEvent scenario.sid 200 = GTIDEvent sid gno
             /\ r = setNext (gtidStr sid gno) 2500 second)
  /\ (exists r,
        searchBinlogFile (H := mysqlLib) (scenario.mock scenario.plainConfig pre)
          "mysql-bin.000001" scenario.target = (Some r, None)
        /\ GNO r = GNO second
        /\ r = second).
Proof.
  intros first second pre.
  assert (Hquiet : forall a g b, pre = a ++ g :: b ->
            outsideTarget (H := mysqlLib) scenario.plainConfig scenario.target g
            = true ->
            inRangeCommits (H := mysqlLib) scenario.plainConfig "mysql-bin.000001"
              scenario.target a = []).
  { assert (Hall : Forall (fun g => outsideTarget (H := mysqlLib)
                                      scenario.plainConfig scenario.target g = false)
                      pre).
    { subst pre.
      match goal with
      | |- Forall ?P ?l => let l' := eval vm_compute in l in change (Forall P l')
      end.
      repeat (constructor; [vm_compute; reflexivity|]). constructor. }
    intros a g b Hpre Hout. rewrite Forall_forall in Hall.
    rewrite (Hall g) in Hout; [discriminate Hout|].
    rewrite Hpre. apply elem_of_app. right. left. }
  split; [vm_compute; reflexivity|]. split.
  - apply (highest_commit_before_stop_returned (H := mysqlLib)
             (scenario.mock scenario.plainConfig scenario.twoTransactions)
             "mysql-bin.000001" scenario.target pre
             [scenario.event 10 2500 100 (GTIDEvent scenario.sid 200)]
             [first] [] second);
      [reflexivity|exact Hquiet|vm_compute; reflexivity|vm_compute; reflexivity
      | |intros x Hx; inversion Hx].
    intros x Hx. apply list_elem_of_singleton in Hx. subst x. reflexivity.
  - apply (highest_commit_before_stop_returned (H := mysqlLib)
             (scenario.mock scenario.plainConfig pre)
             "mysql-bin.000001" scenario.target pre [] [first] [] second);
      [reflexivity|exact Hquiet|reflexivity|vm_compute; reflexivity
      | |intros x Hx; inversion Hx].
    intros x Hx. apply list_elem_of_singleton in Hx. subst x. reflexivity.
Defined.

(** C3 on [TestResumePosition_CommitEqualsResume]. *)
Lemma single_commit_resumes_at_commit_witness :
  let s := scenario.mock scenario.plainConfig scenario.oneTransaction in
  exists r,
    searchBinlogFile (H := mysqlLib) s "mysql-bin.000001" scenario.target
      = (Some r, None)
    /\ r = scenario.matchOf "mysql-bin.000001" 900 2000 10 50
    /\ ResumePosition r = CommitPosition r
    /\ CommitPosition r = 2000
    /\ NextGTID r = EmptyString.
Proof.
  intros s.
  apply (single_commit_resumes_at_commit (H := mysqlLib) s "mysql-bin.000001"
           scenario.target (take 1 scenario.oneTransaction) []
           (scenario.event 10 2000 100 XIDEvent)
           (scenario.matchOf "mysql-bin.000001" 900 2000 10 50)).
  - reflexivity.
  - reflexivity.
  - vm_compute; reflexivity.
  - vm_compute; reflexivity.
  - constructor.
Defined.

(** C4, where the statement as written fails: in the remote search of
    [scenario.rotated] the log rotates after the commit at 2000 and the next
    GTID ends at offset 300 of the new file, so the result resumes below its
    commit position; and in the file scan of [scenario.oversized] the start
    position has wrapped above the commit position. *)
Lemma returned_positions_can_be_out_of_order :
  (exists r,
     RemoteSearch (H := mysqlLib) scenario.plainConfig
       (scenario.connection scenario.rotated) scenario.target = (Some r, None)
     /\ CommitPosition r = 2000 /\ ResumePosition r = 300 /\ ~ ordered r)
  /\ (exists r,
        searchBinlogFile (H := mysqlLib)
          (scenario.mock scenario.plainConfig scenario.oversized)
          "mysql-bin.000001" scenario.target = (Some r, None)
        /\ Position r = 4294967246 /\ CommitPosition r = 2000 /\ ~ ordered r).
Proof.
  split; eexists; (split; [vm_compute; reflexivity|]);
    (split; [reflexivity|]); (split; [reflexivity|]);
    unfold ordered; simpl; lia.
Qed.

(** C4 on a stream with ascending offsets, scanned from a file and
    remotely. *)
Lemma ascending_offsets_give_ordered_result_witness :
  let s := scenario.mock scenario.plainConfig scenario.twoTransactions in
  let conn := scenario.connection (map remote.Event scenario.twoTransactions) in
  let r := setNext (gtidStr scenario.sid 200) 2500
             (scenario.matchOf "mysql-bin.000001" 1400 2000 10 50) in
  offsetsAscend 0 scenario.twoTransactions = true
  /\ searchBinlogFile (H := mysqlLib) s "mysql-bin.000001" scenario.target
       = (Some r, None)
  /\ RemoteSearch (H := mysqlLib) scenario.plainConfig conn scenario.target
       = (Some r, None)
  /\ ordered r.
Proof.
  intros s conn r.
  assert (Hasc : offsetsAscend 0 scenario.twoTransactions = true) by reflexivity.
  assert (Hlocal : searchBinlogFile (H := mysqlLib) s "mysql-bin.000001"
                     scenario.target = (Some r, None)) by (vm_compute; reflexivity).
  assert (Hremote : RemoteSearch (H := mysqlLib) scenario.plainConfig conn
                      scenario.target = (Some r, None)) by (vm_compute; reflexivity).
  split; [exact Hasc|]. split; [exact Hlocal|]. split; [exact Hremote|].
  exact (proj1 (ascending_offsets_give_ordered_result (H := mysqlLib) s
                  "mysql-bin.000001" scenario.plainConfig conn scenario.target)
           Hasc r None Hlocal).
Defined.

(** C5, where the statement as written fails: with the end-time bound at
    second 1000, the file scan of [scenario.lateThenMatch] meets an event
    stamped 2000 while it holds no match; it does not stop there, and
    returns the transaction that commits afterwards. *)
Lemma file_scan_goes_on_after_end_time :
  ~ (forall (L : GTIDSetLib) (c : Config) (filepath : string) (targetGTID : GTIDSet)
            (pre post : list BinlogEvent) (e : BinlogEvent) (st : ScanState),
       afterEnd c e = true ->
       scanEvents c filepath targetGTID initialState pre = (st, None) ->
       searchBinlogFile
         {| config := c; parserFactory := MockBinlogParser (pre ++ e :: post) None |}
         filepath targetGTID
       = (result st, None)).
Proof.
  intros Hclaim.
  specialize (Hclaim mysqlLib scenario.endAt1000 "mysql-bin.000001" scenario.target
                [] (drop 1 scenario.lateThenMatch)
                (scenario.event 2000 120 100 GenericEvent) initialState
                eq_refl eq_refl).
  vm_compute in Hclaim. discriminate Hclaim.
Qed.

(** C5 with the end-time bound at second 1000 and an event stamped
    2000. *)
Lemma end_time_stops_remote_search_only_witness :
  let late := scenario.event 2000 120 100 GenericEvent in
  let best := scenario.matchOf "mysql-bin.000001" 900 2000 10 50 in
  afterEnd scenario.endAt1000 late = true
  /\ RemoteSearch (H := mysqlLib) scenario.endAt1000
       (scenario.connection
          (map remote.Event scenario.oneTransaction
           ++ remote.Event late :: map remote.Event scenario.twoTransactions))
       scenario.target
     = (Some best, None)
  /\ searchBinlogFile (H := mysqlLib)
       (scenario.mock scenario.endAt1000 ([] ++ late :: scenario.oneTransaction))
       "mysql-bin.000001" scenario.target
     = searchBinlogFile (H := mysqlLib)
         (scenario.mock scenario.endAt1000 ([] ++ scenario.oneTransaction))
         "mysql-bin.000001" scenario.target.
Proof.
  intros late best.
  destruct (end_time_stops_remote_search_only (H := mysqlLib) scenario.endAt1000
              scenario.target late eq_refl) as [Hremote Hlocal].
  split; [reflexivity|]. split.
  - apply (Hremote
             (scenario.connection
                (map remote.Event scenario.oneTransaction
                 ++ remote.Event late :: map remote.Event scenario.twoTransactions))
             scenario.oneTransaction (map remote.Event scenario.twoTransactions)
             {| scan := {| result := Some best; currentDatabase := EmptyString;
                           currentTransaction := None |};
                startFile := "mysql-bin.000001" |});
      [done|reflexivity|reflexivity|vm_compute; reflexivity|reflexivity].
  - apply (Hlocal "mysql-bin.000001" [] scenario.oneTransaction None).
Defined.

(** C6 on [TestFindStartFileUsingHeaders]. *)
Lemma smart_selector_returns_boundary_file_witness :
  let files := ["bin.001"; "bin.002"; "bin.003"] in
  let P := headerPredicate (H := mysqlLib) scenario.threeHeaders files scenario.target in
  firstTrue P 3 = 2
  /\ monotonic P 3
  /\ FindStartFileUsingHeaders (H := mysqlLib) scenario.threeHeaders files
       scenario.target = ("bin.002", None).
Proof.
  intros files P.
  assert (Hidx : firstTrue P 3 = 2) by (vm_compute; reflexivity).
  assert (Hmono : monotonic P 3).
  { intros i j Hi Hij Hj.
    assert (Hcases : (i = 0 \/ i = 1 \/ i = 2) /\ (j = 0 \/ j = 1 \/ j = 2)) by lia.
    destruct Hcases as [[ -> | [ -> | -> ]] [ -> | [ -> | -> ]]];
      vm_compute; (lia || done). }
  split; [exact Hidx|]. split; [exact Hmono|].
  destruct smart_selector_returns_boundary_file as [Hgeneral _].
  destruct (Hgeneral mysqlLib scenario.threeHeaders files scenario.target
              ltac:(vm_compute; reflexivity) Hmono) as (_ & _ & Hmiddle).
  apply Hmiddle; [|reflexivity]. change (Z.of_nat (length files)) with 3.
  fold P. rewrite Hidx. lia.
Defined.

(** C7, where the statement as written fails: over the two files of
    [scenario.twoMatches], with one slot goroutine 0 publishes transaction 10
    and cancels before goroutine 1 starts, which then leaves without
    scanning; with eight slots both goroutines pass the cancellation check
    before either publishes, and transaction 50 is selected. *)
Lemma completion_order_changes_selection :
  ~ (forall (L : GTIDSetLib) (s : Searcher) (files : list string)
            (targetGTID : GTIDSet) (schedule1 schedule8 : list nat)
            (out1 out8 : option GTIDPosition * option error),
       SearchParallel (withParallelism 1 s) files targetGTID schedule1 = Some out1 ->
       SearchParallel (withParallelism 8 s) files targetGTID schedule8 = Some out8 ->
       out1 = out8).
Proof.
  intros Hclaim.
  specialize (Hclaim mysqlLib (scenario.twoMatches 2) ["bin.001"; "bin.002"]
                scenario.target scenario.oneAfterTheOther scenario.sideBySide
                (Some (scenario.matchOf "bin.001" 900 2000 10 10), None)
                (Some (scenario.matchOf "bin.002" 900 2000 20 50), None)).
  assert (Hne : (Some (scenario.matchOf "bin.001" 900 2000 10 10), @None error)
                <> (Some (scenario.matchOf "bin.002" 900 2000 20 50), None))
    by discriminate.
  apply Hne, Hclaim; vm_compute; reflexivity.
Qed.

(** C7 on the run in which both files are scanned (both matches are in
    the channel, 10 first, and 50 is selected), and on the single file
    bin.001 with one slot and with eight. *)
Lemma highest_published_match_selected_witness :
  let s := scenario.twoMatches 8 in
  let files := ["bin.001"; "bin.002"] in
  let low := scenario.matchOf "bin.001" 900 2000 10 10 in
  let high := scenario.matchOf "bin.002" 900 2000 20 50 in
  let alone := [0; 0; 0; 0; 0]%nat in
  SearchParallel (H := mysqlLib) s files scenario.target scenario.sideBySide
    = Some (Some high, None)
  /\ (exists st,
        runSchedule (H := mysqlLib) s files scenario.target
          (initialCoordinator files) scenario.sideBySide = Some st
        /\ allFinished st = true
        /\ (@None error) = None
        /\ Forall (fun r => exists f, f ∈ files
                     /\ searchBinlogFile (H := mysqlLib) s f scenario.target
                        = (Some r, None)) (coordinator.resultChan st)
        /\ exists earlier later,
             coordinator.resultChan st = earlier ++ high :: later
             /\ (forall x, x ∈ earlier -> GNO x < GNO high)
             /\ (forall x, x ∈ later -> GNO x <= GNO high))
  /\ coordinator.resultChan
       <$> runSchedule (H := mysqlLib) s files scenario.target
             (initialCoordinator files) scenario.sideBySide
     = Some [low; high]
  /\ SearchParallel (H := mysqlLib) (withParallelism 1 s) ["bin.001"]
       scenario.target alone = Some (Some low, None)
  /\ SearchParallel (H := mysqlLib) (withParallelism 8 s) ["bin.001"]
       scenario.target alone = Some (Some low, None).
Proof.
  intros s files low high alone.
  assert (Hrun : SearchParallel (H := mysqlLib) s files scenario.target
                   scenario.sideBySide = Some (Some high, None))
    by (vm_compute; reflexivity).
  assert (Hrun1 : SearchParallel (H := mysqlLib) (withParallelism 1 s) ["bin.001"]
                    scenario.target alone = Some (Some low, None))
    by (vm_compute; reflexivity).
  split; [exact Hrun|]. split; [|split; [vm_compute; reflexivity|split; [exact Hrun1|]]].
  - exact (proj1 (highest_published_match_selected (H := mysqlLib) s files
                    scenario.target)
             scenario.sideBySide (Some high, None) Hrun).
  - destruct (SearchParallel (H := mysqlLib) (withParallelism 8 s) ["bin.001"]
                scenario.target alone) as [out8|] eqn:Hrun8;
      [|vm_compute in Hrun8; discriminate Hrun8].
    rewrite <- (proj2 (highest_published_match_selected (H := mysqlLib) s
                         ["bin.001"] scenario.target)
                  low alone alone (Some low, None) out8); [done| |exact Hrun1|exact Hrun8].
    intros f r Hf Hr. apply list_elem_of_singleton in Hf. subst f.
    vm_compute in Hr. by injection Hr as <-.
Defined.

(** C8 on [TestResumePosition_CommitNotEqualsResume] and
    [TestSearchBinlogFile_Error]. *)
Lemma early_stop_is_not_a_failure_witness :
  let s := scenario.mock scenario.plainConfig scenario.withNextGTID in
  let next := scenario.event 10 2100 100 (GTIDEvent scenario.sid 200) in
  let best := scenario.matchOf "mysql-bin.000001" 900 2000 10 50 in
  (exists r,
     searchBinlogFile (H := mysqlLib) s "mysql-bin.000001" scenario.target
       = (Some r, None)
     /\ r = setNext (gtidStr scenario.sid 200) 2100 best
     /\ ResumePosition r = LogPos (Header next))
  /\ searchBinlogFile (H := mysqlLib) scenario.readError "mysql-bin.000001"
       scenario.target
     = (None, Some (Errorf "read error")).
Proof.
  intros s next best.
  set (st := {| result := Some best; currentDatabase := EmptyString;
                currentTransaction := None |}).
  set (st' := {| result := Some (setNext (gtidStr scenario.sid 200) 2100 best);
                 currentDatabase := EmptyString; currentTransaction := None |}).
  split.
  - destruct (proj1 (early_stop_is_not_a_failure (H := mysqlLib) s
                       "mysql-bin.000001" scenario.target)
                scenario.oneTransaction [] next st st' found_next_gtid)
      as (_ & r & Hsearch & Hres & Hpos);
      [reflexivity|vm_compute; reflexivity|vm_compute; reflexivity|].
    exists r. split; [exact Hsearch|]. split; [|exact Hpos].
    simpl in Hres. by injection Hres as <-.
  - apply (proj2 (early_stop_is_not_a_failure (H := mysqlLib) scenario.readError
                    "mysql-bin.000001" scenario.target)
             {| result := Some best; currentDatabase := EmptyString;
                currentTransaction := None |}
             (Errorf "read error"));
      [vm_compute; reflexivity|reflexivity|discriminate].
Defined.

(** C9 on a file without a header, on a file that cannot be read and on a
    file that opens with its header. *)
Lemma unknown_header_is_not_skipped_witness :
  let s := scenario.threeHeaders in
  let files := ["bin.001"; "bin.002"; "bin.003"; "bin.004"] in
  (* bin.001 of the two-file scenario holds a transaction and no header *)
  headerPredicate (H := mysqlLib) (scenario.twoMatches 2) ["bin.001"]
    scenario.target 0 = false
  (* bin.004 is not there: the probe fails *)
  /\ (CheckPreviousGTIDs (H := mysqlLib) s "bin.004" scenario.target
        = (false, Some (Errorf "file not found in mock: bin.004"))
      /\ headerPredicate (H := mysqlLib) s files scenario.target 3 = false)
  (* bin.003 opens with the header U:1-120 *)
  /\ CheckPreviousGTIDs (H := mysqlLib) s "bin.003" scenario.target = (true, None).
Proof.
  intros s files.
  destruct (unknown_header_is_not_skipped (H := mysqlLib) (scenario.twoMatches 2)
              ["bin.001"] scenario.target 0) as (Hnone & _ & _).
  destruct (unknown_header_is_not_skipped (H := mysqlLib) s files scenario.target 3)
    as (_ & Herror & _).
  destruct (unknown_header_is_not_skipped (H := mysqlLib) s files scenario.target 2)
    as (_ & _ & Hfirst).
  split; [|split].
  - apply Hnone. vm_compute. repeat constructor.
  - split; [vm_compute; reflexivity|].
    apply (Herror (Errorf "file not found in mock: bin.004")).
    vm_compute; reflexivity.
  - change (CheckPreviousGTIDs (H := mysqlLib) s (fileAt files 2) scenario.target
            = (true, None)).
    rewrite (Hfirst [] []
               (scenario.event 0 0 0 (PreviousGTIDsEvent (scenario.U +:+ ":1-120")))
               (scenario.U +:+ ":1-120"));
      [vm_compute; reflexivity|vm_compute; reflexivity|constructor|reflexivity].
Defined.

(** C10 on the GTID event of the tests: 1000 - 100. *)
Lemma start_position_is_uint32_difference_witness :
  let e := scenario.event 10 1000 100 (GTIDEvent scenario.sid 50) in
  exists st' rst' t,
    onEvent (H := mysqlLib) scenario.plainConfig "mysql-bin.000001" scenario.target
      initialState e = (st', None)
    /\ remoteEvent (H := mysqlLib) scenario.plainConfig scenario.target
         {| scan := initialState; startFile := "mysql-bin.000001" |} e
       = Continue rst'
    /\ currentTransaction st' = Some t
    /\ currentTransaction (scan rst') = Some t
    /\ Position t = uint32 (1000 - 100)
    /\ CommitPosition t = 1000.
Proof.
  intros e.
  apply (proj1 start_position_is_uint32_difference mysqlLib scenario.plainConfig
           "mysql-bin.000001" scenario.target initialState e scenario.sid 50
           (scenario.parsed (gtidStr scenario.sid 50)));
    vm_compute; reflexivity.
Defined.

(** * Further properties *)

(** * Further properties *)

(** ** What a scan can return *)

Section TrackerExtras.

Context `{GTIDSetLib}.
Variables (c : Config) (targetGTID : GTIDSet).

(** With nothing found and nothing open, an event outside the target set
    changes neither. *)
Lemma onGTID_outside (file : string) (st : ScanState) (e : BinlogEvent) :
  inTarget targetGTID e = false ->
  result st = None -> currentTransaction st = None ->
  exists st' x,
    onGTID c file targetGTID st e = (st', x) /\ x <> FoundNext
    /\ result st' = None /\ currentTransaction st' = None.
Proof.
  unfold inTarget, onGTID. intros Hout Hres Hcur.
  destruct (Payload e); try (do 2 eexists; split; [reflexivity|done]).
  destruct (ParseMysqlGTIDSet _); [|do 2 eexists; split; [reflexivity|done]].
  rewrite Hout, Hres. do 2 eexists; split; [reflexivity|done].
Qed.

Lemma onEvent_outside (file : string) (st : ScanState) (e : BinlogEvent) :
  inTarget targetGTID e = false ->
  result st = None -> currentTransaction st = None ->
  exists st',
    onEvent c file targetGTID st e = (st', None)
    /\ result st' = None /\ currentTransaction st' = None.
Proof.
  intros Hout Hres Hcur. unfold onEvent.
  destruct (beforeStart c e); [eauto|]. destruct (afterEnd c e); [eauto|].
  destruct (trackDatabase_fields st e) as [Hd1 Hd2].
  destruct (onGTID_outside file (trackDatabase st e) e Hout)
    as (st2 & x & -> & Hx & Hr2 & Hc2);
    [congruence..|].
  destruct x; [|eauto|done].
  eexists; split; [reflexivity|]. unfold trackCommit. by rewrite Hc2.
Qed.

Lemma scan_outside (file : string) (evs : list BinlogEvent) (st : ScanState)
    (failure : option error) :
  Forall (fun e => inTarget targetGTID e = false) evs ->
  result st = None -> currentTransaction st = None ->
  exists st',
    parseEvents (onEvent c file targetGTID) st evs failure = (st', failure)
    /\ result st' = None.
Proof.
  intros Hall. revert st. induction Hall as [|e evs He _ IH]; intros st Hres Hcur; simpl.
  - eauto.
  - destruct (onEvent_outside file st e He Hres Hcur) as (st1 & -> & Hr1 & Hc1).
    by apply IH.
Qed.

Lemma remoteLoop_outside (ds : list remote.Delivery) (st : RemoteState) :
  Forall (fun e => inTarget targetGTID e = false) (deliveredEvents ds) ->
  result (scan st) = None -> currentTransaction (scan st) = None ->
  (remoteLoop c targetGTID st ds).1 = None.
Proof.
  revert st. induction ds as [|d ds IH]; intros st Hall Hres Hcur; simpl; [done|].
  destruct d as [ev| |err]; [|done|done].
  unfold deliveredEvents in Hall. simpl in Hall.
  inversion Hall as [|? ? Hev Hrest]; subst.
  unfold remoteEvent. destruct (beforeStart c ev); [by apply IH|].
  destruct (afterEnd c ev); [done|].
  destruct (trackDatabase_fields (scan st) ev) as [Hd1 Hd2].
  destruct (onGTID_outside (startFile st) (trackDatabase (scan st) ev) ev Hev)
    as (st2 & x & -> & Hx & Hr2 & Hc2); [congruence..|].
  destruct x; [|by apply IH|done].
  apply IH; [done| |]; simpl; unfold remoteTrackCommit; by rewrite Hc2.
Qed.

(** *** Where a returned position comes from *)

Variable all : list BinlogEvent.

Lemma traced_setCommit (pos ts : Z) (p : GTIDPosition) :
  traced c targetGTID all p -> traced c targetGTID all (setCommit pos ts p).
Proof. intros [(e & He & sid & gno & Ho) Hdb]. split; [|done]. exists e. split; [done|]. by exists sid, gno. Qed.

Lemma traced_setNext (gtid : string) (pos : Z) (p : GTIDPosition) :
  traced c targetGTID all p -> traced c targetGTID all (setNext gtid pos p).
Proof. intros [(e & He & sid & gno & Ho) Hdb]. split; [|done]. exists e. split; [done|]. by exists sid, gno. Qed.

Lemma traced_setBinlogFile (f : string) (p : GTIDPosition) :
  traced c targetGTID all p -> traced c targetGTID all (setBinlogFile f p).
Proof. intros [(e & He & sid & gno & Ho) Hdb]. split; [|done]. exists e. split; [done|]. by exists sid, gno. Qed.

Lemma databaseMismatch_false (st : ScanState) :
  databaseMismatch c st = false ->
  FilterDatabase c = EmptyString \/ currentDatabase st = FilterDatabase c.
Proof.
  unfold databaseMismatch. intros Hm. apply andb_false_iff in Hm as [Hm|Hm];
    apply negb_false_iff, String.eqb_eq in Hm; auto.
Qed.

Lemma tracedState_initial : tracedState c targetGTID all initialState.
Proof. split; intros ?; simpl; discriminate. Qed.

Lemma tracedState_trackDatabase (st : ScanState) (e : BinlogEvent) :
  tracedState c targetGTID all st -> tracedState c targetGTID all (trackDatabase st e).
Proof.
  destruct (trackDatabase_fields st e) as [H1 H2].
  intros [Hr Ht]. split; intros ?; rewrite ?H1, ?H2; auto.
Qed.

Lemma tracedState_onGTID (file : string) (st st' : ScanState) (e : BinlogEvent)
    (x : gtidExit) :
  e ∈ all -> tracedState c targetGTID all st ->
  onGTID c file targetGTID st e = (st', x) ->
  tracedState c targetGTID all st'.
Proof.
  intros He [Hr Ht]. unfold onGTID.
  destruct (Payload e) as [sid gno| | | | |] eqn:Hp;
    try (intros; simplify_eq; by split).
  destruct (ParseMysqlGTIDSet (gtidStr sid gno)) as [cur|err] eqn:Hparse;
    [|intros; simplify_eq; by split].
  destruct (Contain targetGTID cur) eqn:Hin.
  - destruct (databaseMismatch c st) eqn:Hdb; intros; simplify_eq.
    + split; [exact Hr|]. simpl. intros ? ?; discriminate.
    + split; [exact Hr|]. simpl. intros t ?; simplify_eq. split.
      * exists e. split; [done|]. exists sid, gno. unfold inTarget.
        by rewrite Hp, Hparse.
      * simpl. by apply databaseMismatch_false.
  - destruct (result st) as [r|] eqn:Hres.
    + destruct (String.eqb (NextGTID r) EmptyString); intros; simplify_eq.
      * split; [|exact Ht]. simpl. intros ? ?; simplify_eq.
        destruct (Hr r eq_refl) as [Htr (e' & He' & Hc & Hc1 & Hc2)].
        split; [by apply traced_setNext|]. exists e'. by split.
      * split; simpl; [by rewrite Hres|intros ? ?; discriminate].
    + intros; simplify_eq. split; simpl; [by rewrite Hres|intros ? ?; discriminate].
Qed.

Lemma tracedState_trackCommit (st : ScanState) (e : BinlogEvent) :
  e ∈ all -> tracedState c targetGTID all st ->
  tracedState c targetGTID all (trackCommit st e).
Proof.
  intros He Hst. unfold trackCommit.
  destruct (currentTransaction st) as [t|] eqn:Hcur; [|exact Hst].
  destruct (isCommit e) eqn:Hc; [|exact Hst].
  destruct Hst as [Hr Ht]. split; simpl; [|intros ? ?; discriminate].
  intros r Hk.
  destruct (keepHighest_cases (result st)
              (setCommit (LogPos (Header e)) (replication.Timestamp (Header e)) t))
    as [Hk'|Hk']; rewrite Hk' in Hk.
  - simplify_eq. split; [apply traced_setCommit; by apply Ht|].
    exists e. by split.
  - by apply Hr.
Qed.

Lemma tracedState_onEvent (file : string) (st st' : ScanState) (e : BinlogEvent)
    (err : option error) :
  e ∈ all -> tracedState c targetGTID all st ->
  onEvent c file targetGTID st e = (st', err) ->
  tracedState c targetGTID all st'.
Proof.
  intros He Hst. unfold onEvent.
  destruct (beforeStart c e); [intros; by simplify_eq|].
  destruct (afterEnd c e); [intros; by simplify_eq|].
  destruct (onGTID c file targetGTID (trackDatabase st e) e) as [st2 x] eqn:Hg.
  pose proof (tracedState_onGTID _ _ _ _ _ He (tracedState_trackDatabase _ e Hst) Hg).
  destruct x; intros; simplify_eq; [by apply tracedState_trackCommit|done|done].
Qed.

Lemma tracedState_scan (file : string) (evs : list BinlogEvent)
    (st st' : ScanState) (failure err : option error) :
  evs ⊆ all -> tracedState c targetGTID all st ->
  parseEvents (onEvent c file targetGTID) st evs failure = (st', err) ->
  tracedState c targetGTID all st'.
Proof.
  revert st. induction evs as [|e evs IH]; intros st Hsub Hst; simpl.
  - intros; by simplify_eq.
  - destruct (onEvent c file targetGTID st e) as [st1 err1] eqn:He.
    assert (e ∈ all) by (apply Hsub; left).
    pose proof (tracedState_onEvent _ _ _ _ _ H0 Hst He) as Hst1.
    destruct err1; [intros; by simplify_eq|].
    apply IH; [|done]. intros y Hy. apply Hsub. by right.
Qed.

Lemma tracedState_remoteLoop (ds : list remote.Delivery) (st : RemoteState)
    (p : GTIDPosition) (err : option error) :
  deliveredEvents ds ⊆ all -> tracedState c targetGTID all (scan st) ->
  remoteLoop c targetGTID st ds = (Some p, err) ->
  traced c targetGTID all p /\ exists e, e ∈ all /\ committedBy e p.
Proof.
  revert st. induction ds as [|d ds IH]; intros st Hsub Hst; simpl.
  - intros; simplify_eq. by apply Hst.
  - destruct d as [ev| |e]; [| |done].
    + unfold deliveredEvents in Hsub. simpl in Hsub.
      assert (Hev : ev ∈ all) by (apply Hsub; left).
      assert (Hrest : deliveredEvents ds ⊆ all).
      { intros y Hy. apply Hsub. by right. }
      unfold remoteEvent. destruct (beforeStart c ev); [by apply IH|].
      destruct (afterEnd c ev); [intros; simplify_eq; by apply Hst|].
      destruct (onGTID c (startFile st) targetGTID (trackDatabase (scan st) ev) ev)
        as [st2 x] eqn:Hg.
      pose proof (tracedState_onGTID _ _ _ _ _ Hev
                    (tracedState_trackDatabase _ ev Hst) Hg) as Hst2.
      destruct x; [|by apply IH|intros; simplify_eq; by apply Hst2].
      apply IH; [done|]. simpl. unfold remoteTrackCommit.
      destruct (currentTransaction st2) as [t|] eqn:Hcur; [|done].
      apply tracedState_trackCommit; [done|].
      destruct Hst2 as [Hr2 Ht2]. split; [exact Hr2|]. simpl.
      intros ? ?; simplify_eq. apply traced_setBinlogFile. by apply Ht2.
    + intros; simplify_eq. by apply Hst.
Qed.

(** *** The file named by a returned position *)

Lemma filed_onEvent (file : string) (st st' : ScanState) (e : BinlogEvent)
    (err : option error) :
  filed file st -> onEvent c file targetGTID st e = (st', err) -> filed file st'.
Proof.
  intros Hst. unfold onEvent.
  destruct (beforeStart c e); [intros; by simplify_eq|].
  destruct (afterEnd c e); [intros; by simplify_eq|].
  destruct (trackDatabase_fields st e) as [Hd1 Hd2].
  assert (Hst1 : filed file (trackDatabase st e)).
  { destruct Hst as [Hr Ht]. split; intros ?; rewrite ?Hd1, ?Hd2; auto. }
  destruct (onGTID c file targetGTID (trackDatabase st e) e) as [st2 x] eqn:Hg.
  assert (Hst2 : filed file st2).
  { destruct Hst1 as [Hr Ht]. revert Hg. unfold onGTID.
    repeat case_match; intros; simplify_eq; split; simpl; try done;
      intros ? ?; simplify_eq; simpl; auto. }
  destruct x; intros; simplify_eq; [|done|done].
  unfold trackCommit. destruct (currentTransaction st2) as [t|] eqn:Hcur; [|done].
  destruct (isCommit e); [|done].
  destruct Hst2 as [Hr Ht]. split; simpl; [|intros ? ?; discriminate].
  intros r Hk.
  destruct (keepHighest_cases (result st2)
              (setCommit (LogPos (Header e)) (replication.Timestamp (Header e)) t))
    as [Hk'|Hk']; rewrite Hk' in Hk; [|by apply Hr].
  simplify_eq. simpl. by apply Ht.
Qed.

Lemma filed_scan (file : string) (evs : list BinlogEvent) (st st' : ScanState)
    (failure err : option error) :
  filed file st ->
  parseEvents (onEvent c file targetGTID) st evs failure = (st', err) ->
  filed file st'.
Proof.
  revert st. induction evs as [|e evs IH]; intros st Hst; simpl.
  - intros; by simplify_eq.
  - destruct (onEvent c file targetGTID st e) as [st1 err1] eqn:He.
    pose proof (filed_onEvent _ _ _ _ _ Hst He).
    destruct err1; [intros; by simplify_eq|]. by apply IH.
Qed.

End TrackerExtras.

(** X1: a stream in which no GTID event parses into the target set
    yields no match, from a file and from a remote connection alike. *)
Theorem no_target_gtid_no_match `{GTIDSetLib}
    (s : Searcher) (filepath : string) (c : Config) (conn : remote.Connection)
    (targetGTID : GTIDSet) :
  (Forall (fun e => inTarget targetGTID e = false)
     (events (parserFactory s filepath)) ->
   (searchBinlogFile s filepath targetGTID).1 = None)
  /\ (Forall (fun e => inTarget targetGTID e = false)
        (deliveredEvents (remote.deliveries conn)) ->
      (RemoteSearch c conn targetGTID).1 = None).
Proof.
  split.
  - intros Hall. unfold searchBinlogFile, ParseFile.
    destruct (scan_outside (config s) targetGTID filepath _ initialState
                (failure (parserFactory s filepath)) Hall eq_refl eq_refl)
      as (st & -> & Hres).
    destruct (failure _) as [e|]; [|done].
    by destruct (negb (String.eqb (Error e) "found_next_gtid")).
  - intros Hall. unfold RemoteSearch.
    destruct (String.eqb (StartFile c) EmptyString); [done|].
    destruct (remote.startSyncError conn); [done|].
    by apply remoteLoop_outside.
Qed.

(** X2: a position returned by the scan of a file names that file and
    carries the identity of a GTID event of the file that parses into the
    target set (its GTID text, server UUID, transaction number and start
    offset) and the end offset and timestamp of a transaction end of the
    file; a position returned by the remote search carries the same, from
    the delivered events. *)
Theorem returned_position_comes_from_the_stream `{GTIDSetLib}
    (s : Searcher) (filepath : string) (c : Config) (conn : remote.Connection)
    (targetGTID : GTIDSet) (r : GTIDPosition) (err : option error) :
  (searchBinlogFile s filepath targetGTID = (Some r, err) ->
   BinlogFile r = filepath
   /\ (exists e, e ∈ events (parserFactory s filepath) /\ openedBy targetGTID e r)
   /\ (exists e, e ∈ events (parserFactory s filepath) /\ committedBy e r))
  /\ (RemoteSearch c conn targetGTID = (Some r, err) ->
      (exists e, e ∈ deliveredEvents (remote.deliveries conn)
                 /\ openedBy targetGTID e r)
      /\ (exists e, e ∈ deliveredEvents (remote.deliveries conn)
                    /\ committedBy e r)).
Proof.
  split.
  - unfold searchBinlogFile, ParseFile.
    destruct (parseEvents _ _ _ _) as [st e] eqn:Hscan.
    pose proof (tracedState_scan (config s) targetGTID _ filepath _ _ _ _ _
                  (reflexivity _) (tracedState_initial _ _ _) Hscan) as [Htr _].
    assert (Hfile : filed filepath initialState) by (split; intros ?; discriminate).
    pose proof (filed_scan (config s) targetGTID _ _ _ _ _ _ Hfile Hscan) as [Hf _].
    intros Hret. assert (Hres : result st = Some r).
    { revert Hret. repeat case_match; intros; simplify_eq; done. }
    destruct (Htr r Hres) as [[Ho _] Hc]. auto.
  - unfold RemoteSearch. repeat case_match; try done. intros Hloop.
    destruct (tracedState_remoteLoop c targetGTID _ (remote.deliveries conn)
                {| scan := initialState; startFile := StartFile c |} r err
                (reflexivity _) (tracedState_initial _ _ _) Hloop) as [[Ho _] Hc].
    auto.
Qed.

(** X3: when a database filter is configured, every returned position,
    from a file or from a remote connection, belongs to that database. *)
Theorem returned_position_passes_database_filter `{GTIDSetLib}
    (s : Searcher) (filepath : string) (c : Config) (conn : remote.Connection)
    (targetGTID : GTIDSet) (r : GTIDPosition) (err : option error) :
  (FilterDatabase (config s) <> EmptyString ->
   searchBinlogFile s filepath targetGTID = (Some r, err) ->
   Database r = FilterDatabase (config s))
  /\ (FilterDatabase c <> EmptyString ->
      RemoteSearch c conn targetGTID = (Some r, err) ->
      Database r = FilterDatabase c).
Proof.
  split.
  - intros Hfilter. unfold searchBinlogFile, ParseFile.
    destruct (parseEvents _ _ _ _) as [st e] eqn:Hscan.
    pose proof (tracedState_scan (config s) targetGTID _ filepath _ _ _ _ _
                  (reflexivity _) (tracedState_initial _ _ _) Hscan) as [Htr _].
    intros Hret. assert (Hres : result st = Some r).
    { revert Hret. repeat case_match; intros; simplify_eq; done. }
    destruct (Htr r Hres) as [[_ [?|?]] _]; done.
  - intros Hfilter. unfold RemoteSearch. repeat case_match; try done. intros Hloop.
    destruct (tracedState_remoteLoop c targetGTID _ (remote.deliveries conn)
                {| scan := initialState; startFile := StartFile c |} r err
                (reflexivity _) (tracedState_initial _ _ _) Hloop)
      as [[_ [?|?]] _]; done.
Qed.

(** ** The remote search beside the file scan *)

Section RemoteExtras.

Context `{GTIDSetLib}.
Variables (c : Config) (targetGTID : GTIDSet).

Lemma setBinlogFile_same (p : GTIDPosition) : setBinlogFile (BinlogFile p) p = p.
Proof. by destruct p. Qed.

Lemma filed_onGTID (file : string) (st st' : ScanState) (e : BinlogEvent)
    (x : gtidExit) (t : GTIDPosition) :
  filed file st -> onGTID c file targetGTID st e = (st', x) ->
  currentTransaction st' = Some t -> BinlogFile t = file.
Proof.
  intros [_ Ht]. unfold onGTID.
  repeat case_match; intros; simplify_eq; simpl in *; simplify_eq; auto.
Qed.

(** On an event that is neither late nor a rotation, one turn of the
    remote loop is one call of the callback of the file scan. *)
Lemma remoteEvent_as_onEvent (file : string) (st : ScanState) (e : BinlogEvent) :
  afterEnd c e = false -> isRotate e = false -> filed file st ->
  remoteEvent c targetGTID {| scan := st; startFile := file |} e
  = match onEvent c file targetGTID st e with
    | (st', None) => Continue {| scan := st'; startFile := file |}
    | (st', Some _) => Return (result st') None
    end.
Proof.
  intros Hae Hrot Hst. unfold remoteEvent, onEvent. simpl. rewrite Hae.
  destruct (beforeStart c e); [done|].
  assert (Hst1 : filed file (trackDatabase st e)).
  { destruct (trackDatabase_fields st e) as [Hd1 Hd2].
    destruct Hst as [Hr Ht]. split; intros ?; rewrite ?Hd1, ?Hd2; auto. }
  destruct (onGTID c file targetGTID (trackDatabase st e) e) as [st2 x] eqn:Hg.
  destruct x; [|done|done].
  assert (Hfile : trackRotation file e = file).
  { unfold trackRotation, isRotate in *. by destruct (Payload e). }
  rewrite Hfile. f_equal. f_equal. unfold remoteTrackCommit.
  destruct (currentTransaction st2) as [t|] eqn:Hcur; [|unfold trackCommit; by rewrite Hcur].
  rewrite <- (filed_onGTID _ _ _ _ _ _ Hst1 Hg Hcur), setBinlogFile_same.
  f_equal. destruct st2; simpl in *; by subst.
Qed.

(** While no rotation and no late event is met, the remote loop and the
    callback of the file scan move in step. *)
Lemma remoteLoop_as_scan (file : string) (evs : list BinlogEvent) (st : ScanState) :
  Forall (fun e => afterEnd c e = false /\ isRotate e = false) evs ->
  filed file st ->
  remoteLoop c targetGTID {| scan := st; startFile := file |}
    (map remote.Event evs)
  = (result (parseEvents (onEvent c file targetGTID) st evs None).1, None).
Proof.
  intros Hall. revert st. induction Hall as [|e evs [Hae Hrot] _ IH]; intros st Hst.
  - done.
  - simpl. rewrite remoteEvent_as_onEvent by done.
    destruct (onEvent c file targetGTID st e) as [st1 [err|]] eqn:He; [done|].
    apply IH. by eapply filed_onEvent.
Qed.

End RemoteExtras.

(** X4: on a stream without rotation events and without events later
    than the end-time bound, delivered in full and then silent, the remote
    search from [StartFile] returns what the scan of a file named
    [StartFile] with the same events returns. *)
Theorem remote_search_agrees_with_file_scan `{GTIDSetLib}
    (c : Config) (conn : remote.Connection) (targetGTID : GTIDSet)
    (evs : list BinlogEvent) :
  StartFile c <> EmptyString ->
  remote.startSyncError conn = None ->
  remote.deliveries conn = map remote.Event evs ->
  Forall (fun e => afterEnd c e = false /\ isRotate e = false) evs ->
  RemoteSearch c conn targetGTID
  = searchBinlogFile {| config := c; parserFactory := MockBinlogParser evs None |}
      (StartFile c) targetGTID.
Proof.
  intros Hfile Hsync Hds Hall. unfold RemoteSearch.
  apply String.eqb_neq in Hfile. rewrite Hfile, Hsync, Hds.
  rewrite remoteLoop_as_scan; [|done|split; intros ?; discriminate].
  unfold searchBinlogFile, ParseFile. simpl.
  destruct (parseEvents _ _ _ _) as [st [e|]] eqn:Hscan; [|done].
  pose proof (scan_error {| config := c; parserFactory := MockBinlogParser evs None |}
                (StartFile c) targetGTID evs initialState st e Hscan) as ->.
  done.
Qed.

(** X5: once the remote loop has taken a prefix of events and goes on, a
    failed read returns the wrapped error and drops the match held so far,
    while an expired deadline, or silence, returns that match with no
    error. *)
Theorem remote_read_failure_drops_the_match `{GTIDSetLib}
    (c : Config) (conn : remote.Connection) (targetGTID : GTIDSet)
    (pre : list BinlogEvent) (post : list remote.Delivery) (st : RemoteState) :
  StartFile c <> EmptyString ->
  remote.startSyncError conn = None ->
  remoteEvents c targetGTID {| scan := initialState; startFile := StartFile c |} pre
    = Continue st ->
  (forall err,
     remote.deliveries conn = map remote.Event pre ++ remote.Failed err :: post ->
     RemoteSearch c conn targetGTID
     = (None, Some (Errorf ("get event error: " +:+ Error err))))
  /\ (remote.deliveries conn = map remote.Event pre ++ remote.DeadlineExceeded :: post ->
      RemoteSearch c conn targetGTID = (result (scan st), None))
  /\ (remote.deliveries conn = map remote.Event pre ->
      RemoteSearch c conn targetGTID = (result (scan st), None)).
Proof.
  intros Hfile Hsync Hpre. apply String.eqb_neq in Hfile.
  unfold RemoteSearch. rewrite Hfile, Hsync.
  split; [|split].
  - intros err ->. by rewrite remoteLoop_events, Hpre.
  - intros ->. by rewrite remoteLoop_events, Hpre.
  - intros ->. rewrite <- (app_nil_r (map _ _)). by rewrite remoteLoop_events, Hpre.
Qed.

(** ** The binary search on any predicate *)

Lemma sortSearchLoop_bounds (f : Z -> bool) (n : Z) (fuel : nat) (i j : Z) :
  n < 2 ^ 63 -> 0 <= i -> i <= j -> j <= n ->
  (Z.to_nat (j - i) <= fuel)%nat ->
  (i = 0 \/ f (i - 1) = false) -> (j = n \/ f j = true) ->
  let r := sortSearchLoop fuel f i j in
  i <= r <= j /\ (r = 0 \/ f (r - 1) = false) /\ (r = n \/ f r = true).
Proof.
  intros Hn. revert i j. induction fuel as [|fuel IH];
    intros i j Hi Hij Hj Hfuel Hlo Hhi.
  - simpl. assert (i = j) by lia. subst. repeat split; (lia || done).
  - cbn [sortSearchLoop]. destruct (i <? j) eqn:Hlt.
    + apply Z.ltb_lt in Hlt. destruct (midpoint i j) as [-> Hh]; [lia..|].
      destruct (f ((i + j) / 2)) eqn:Hfh; simpl.
      * destruct (IH i ((i + j) / 2)) as (Hr & Hr1 & Hr2); try lia; auto.
        repeat split; (lia || done).
      * destruct (IH ((i + j) / 2 + 1) j) as (Hr & Hr1 & Hr2); try lia; auto.
        { right. by replace ((i + j) / 2 + 1 - 1) with ((i + j) / 2) by lia. }
        repeat split; (lia || done).
    + apply Z.ltb_ge in Hlt. assert (i = j) by lia. subst. repeat split; (lia || done).
Qed.

(** X6: whatever the predicate, [sortSearch] returns an index between 0
    and [n] with the predicate false just below it and true at it (where
    these exist), as the comments of the loop say. *)
Theorem sortSearch_boundary (f : Z -> bool) (n : Z) :
  0 <= n < 2 ^ 63 ->
  0 <= sortSearch n f <= n
  /\ (0 < sortSearch n f -> f (sortSearch n f - 1) = false)
  /\ (sortSearch n f < n -> f (sortSearch n f) = true).
Proof.
  intros [Hn0 Hn]. unfold sortSearch.
  destruct (sortSearchLoop_bounds f n (Z.to_nat n) 0 n) as (Hr & Hr1 & Hr2);
    try lia; auto.
  split; [lia|]. split; intros; [destruct Hr1|destruct Hr2]; (lia || done).
Qed.

Lemma sortSearchLoop_ext (f g : Z -> bool) (n : Z) (fuel : nat) (i j : Z) :
  (forall k, 0 <= k < n -> f k = g k) ->
  0 <= i -> j <= n -> n < 2 ^ 63 ->
  sortSearchLoop fuel f i j = sortSearchLoop fuel g i j.
Proof.
  intros Hext. revert i j. induction fuel as [|fuel IH]; intros i j Hi Hj Hn; [done|].
  cbn [sortSearchLoop]. destruct (i <? j) eqn:Hlt; [|done].
  apply Z.ltb_lt in Hlt. destruct (midpoint i j) as [-> Hh]; [lia..|].
  rewrite (Hext ((i + j) / 2)) by lia.
  destruct (g ((i + j) / 2)); simpl; apply IH; lia.
Qed.

(** X7: [sortSearch] consults the predicate at indices from 0 to [n - 1]
    only: two predicates that agree there give the same answer. *)
Theorem sortSearch_probes_in_range (f g : Z -> bool) (n : Z) :
  n < 2 ^ 63 ->
  (forall k, 0 <= k < n -> f k = g k) ->
  sortSearch n f = sortSearch n g.
Proof.
  intros Hn Hext. unfold sortSearch. by apply (sortSearchLoop_ext f g n); try lia.
Qed.

Lemma fileAt_elem (files : list string) (i : Z) :
  0 <= i < Z.of_nat (length files) -> fileAt files i ∈ files.
Proof.
  intros Hi. destruct (lookup_lt_is_Some_2 files (Z.to_nat i)) as [f Hf]; [lia|].
  rewrite (fileAt_lookup files i f) by (lia || done).
  by eapply list_elem_of_lookup_2.
Qed.

Lemma sortSearch_range (f : Z -> bool) (n : Z) :
  0 <= n < 2 ^ 63 -> 0 <= sortSearch n f <= n.
Proof.
  intros [Hn0 Hn]. unfold sortSearch.
  destruct (sortSearchLoop_bounds f n (Z.to_nat n) 0 n) as (Hr & _);
    try lia; auto.
Qed.

Lemma selector_pick `{GTIDSetLib}
    (s : Searcher) (files : list string) (targetGTID : GTIDSet) :
  Z.of_nat (length files) < 2 ^ 63 -> files <> [] ->
  exists f, FindStartFileUsingHeaders s files targetGTID = (f, None) /\ f ∈ files.
Proof.
  intros Hn Hne. unfold FindStartFileUsingHeaders.
  assert (Hpos : 0 < Z.of_nat (length files)) by (destruct files; simpl; [done|lia]).
  destruct (Z.of_nat (length files) =? 0) eqn:Hz; [apply Z.eqb_eq in Hz; lia|].
  pose proof (sortSearch_range (headerPredicate s files targetGTID)
                (Z.of_nat (length files))) as Hidx.
  repeat case_match; eexists; (split; [reflexivity|]); apply fileAt_elem;
    repeat match goal with
           | Hq : (_ =? _) = true |- _ => apply Z.eqb_eq in Hq
           | Hq : (_ =? _) = false |- _ => apply Z.eqb_neq in Hq
           end; lia.
Qed.

(** X8: [FindStartFileUsingHeaders] fails on the empty list and only
    there; on any other list it returns one of the files of the list,
    whatever the headers say. *)
Theorem selector_returns_a_listed_file `{GTIDSetLib}
    (s : Searcher) (files : list string) (targetGTID : GTIDSet) :
  Z.of_nat (length files) < 2 ^ 63 ->
  (files = [] ->
   FindStartFileUsingHeaders s files targetGTID
   = (EmptyString, Some (Errorf "no files to search")))
  /\ (files <> [] ->
      exists f, FindStartFileUsingHeaders s files targetGTID = (f, None)
                /\ f ∈ files).
Proof.
  intros Hn. split; [by intros ->|]. intros Hne. by apply selector_pick.
Qed.

(** ** The coordinator: slots, channels, and whether it returns *)

Section CoordinatorExtras.

Context `{GTIDSetLib}.
Variables (s : Searcher) (files : list string) (targetGTID : GTIDSet).

Import coordinator.

(** Counting the goroutines that satisfy [b], before and after one of them
    moves from [p] to [q]. *)
Lemma count_insert (b : pc -> bool) (l : list pc) (i : nat) (p q : pc) :
  l !! i = Some p ->
  Z.of_nat (length (filter (fun x => b x = true) (<[i := q]> l)))
  = Z.of_nat (length (filter (fun x => b x = true) l))
    - (if b p then 1 else 0) + (if b q then 1 else 0).
Proof.
  revert i. induction l as [|x l IH]; intros i Hi; [done|].
  destruct i as [|i]; simpl in Hi.
  - simplify_eq. simpl. rewrite !filter_cons.
    destruct (b p), (b q); repeat case_decide; simpl; try done; lia.
  - simpl. rewrite !filter_cons. specialize (IH i Hi).
    case_decide; simpl; lia.
Qed.

Lemma count_replicate_false (b : pc -> bool) (n : nat) (p : pc) :
  b p = false -> filter (fun x => b x = true) (replicate n p) = [].
Proof.
  intros Hb. induction n as [|n IH]; [done|]. simpl. rewrite filter_cons.
  case_decide; [congruence|done].
Qed.

Lemma count_le_length (b : pc -> bool) (l : list pc) :
  (length (filter (fun x => b x = true) l) <= length l)%nat.
Proof. apply length_filter. Qed.

(** What one step does: the goroutine moves from [p] to [q], and at most
    one message is sent, by a goroutine that leaves [Scanning]. *)
Lemma stepTask_moves (st st' : State) (i : nat) :
  stepTask s files targetGTID st i = Some st' ->
  exists p q,
    tasks st !! i = Some p
    /\ tasks st' = <[i := q]> (tasks st)
    /\ (p = Queued -> q = Holding /\ inUse st < Parallel (config s))
    /\ (holdsSlot p = true -> holdsSlot q = true \/ q = Finished)
    /\ p <> Finished
    /\ (pastScan p = true -> pastScan q = true)
    /\ (length (resultChan st') + length (errorChan st')
        <= length (resultChan st) + length (errorChan st)
           + (if pastScan p then 0 else if pastScan q then 1 else 0))%nat.
Proof.
  unfold stepTask.
  destruct (tasks st !! i) as [p|]; [|done].
  destruct (files !! i) as [f|]; [|by destruct p].
  destruct p.
  - destruct (inUse st <? Parallel (config s)) eqn:Hlt; [|done].
    apply Z.ltb_lt in Hlt. intros; simplify_eq.
    exists Queued, Holding. simpl. repeat split; (done || lia || auto).
  - intros; simplify_eq. eexists Holding, _. split; [done|]. split; [done|].
    destruct (cancelled st); simpl; repeat split; (done || lia || auto).
  - destruct (searchBinlogFile s f targetGTID) as [[r|] [err|]];
      intros; simplify_eq; eexists Scanning, _; (split; [done|]);
      (split; [done|]); simpl; rewrite ?length_app; simpl;
      repeat split; (done || lia || auto).
  - intros; simplify_eq. exists Cancelling, Exiting. simpl.
    repeat split; (done || lia || auto).
  - intros; simplify_eq. exists Exiting, Finished. simpl.
    repeat split; (done || lia || auto).
  - done.
Qed.

(** The states that a schedule reaches. *)
Lemma run_invariant (P : State -> Prop) (schedule : list nat) (st st' : State) :
  (forall st1 st2 i, P st1 -> stepTask s files targetGTID st1 i = Some st2 -> P st2) ->
  P st -> runSchedule s files targetGTID st schedule = Some st' -> P st'.
Proof.
  intros Hstep. revert st. induction schedule as [|i schedule IH]; intros st Hst; simpl.
  - intros; by simplify_eq.
  - destruct (stepTask s files targetGTID st i) as [st1|] eqn:Hi; [|done].
    apply IH. by eapply Hstep.
Qed.

(** X9: at every point of every run, the goroutines between their send
    to the semaphore and their deferred receive are at most [Parallel]. *)
Theorem slots_never_exceed_parallel (schedule : list nat) (st : State) :
  0 <= Parallel (config s) ->
  runSchedule s files targetGTID (initialCoordinator files) schedule = Some st ->
  inUse st <= Parallel (config s).
Proof.
  intros Hpar.
  apply (run_invariant (fun st => inUse st <= Parallel (config s))).
  - intros st1 st2 i Hle Hstep.
    destruct (stepTask_moves _ _ _ Hstep) as (p & q & Hp & Htasks & Hq & _ & Hfin & _ & _).
    unfold inUse in *. rewrite Htasks, (count_insert holdsSlot _ _ _ q Hp).
    destruct p; simpl in *; try (destruct (holdsSlot q); lia); [|done].
    destruct Hq as [-> ?]; [done|]. simpl. lia.
  - unfold inUse, initialCoordinator. simpl.
    by rewrite count_replicate_false.
Qed.

(** X10: at every point of every run the two channels together hold no
    more messages than there are files: with their capacity
    [len(files)], no send to them ever blocks. *)
Theorem channels_never_overflow (schedule : list nat) (st : State) :
  runSchedule s files targetGTID (initialCoordinator files) schedule = Some st ->
  (length (resultChan st) + length (errorChan st) <= length files)%nat.
Proof.
  intros Hrun.
  assert (Hinv : length (tasks st) = length files
                 /\ (length (resultChan st) + length (errorChan st)
                     <= length (filter (fun x => pastScan x = true) (tasks st)))%nat).
  { revert Hrun.
    apply (run_invariant
             (fun st => length (tasks st) = length files
                /\ (length (resultChan st) + length (errorChan st)
                    <= length (filter (fun x => pastScan x = true) (tasks st)))%nat)).
    - intros st1 st2 i [Hlen Hle] Hstep.
      destruct (stepTask_moves _ _ _ Hstep) as (p & q & Hp & Htasks & _ & _ & _ & Hpast & Hmsg).
      split; [by rewrite Htasks, length_insert|].
      pose proof (count_insert pastScan _ _ _ q Hp) as Hcount.
      rewrite <- Htasks in Hcount.
      destruct (pastScan p); [rewrite Hpast in * by done; lia|].
      destruct (pastScan q); lia.
    - split; [simpl; by rewrite length_replicate|]. simpl. lia. }
  destruct Hinv as [Hlen Hle]. rewrite <- Hlen.
  pose proof (count_le_length pastScan (tasks st)). lia.
Qed.

(** X11: with a width of 0 (or less) and at least one file,
    [SearchParallel] never returns: no goroutine ever gets its slot. *)
Theorem no_slot_no_return (schedule : list nat) :
  Parallel (config s) <= 0 -> files <> [] ->
  SearchParallel s files targetGTID schedule = None.
Proof.
  intros Hpar Hne. unfold SearchParallel.
  destruct (Parallel (config s) <? 0); [done|].
  destruct schedule as [|i schedule]; simpl.
  - destruct files; [done|]. done.
  - unfold stepTask. simpl.
    destruct (replicate (length files) Queued !! i) as [p|] eqn:Hp; [|done].
    apply lookup_replicate in Hp as [-> _].
    destruct (files !! i); [|done].
    assert (Hzero : inUse (initialCoordinator files) = 0).
    { unfold inUse. simpl. by rewrite count_replicate_false. }
    rewrite Hzero. destruct (0 <? Parallel (config s)) eqn:Hlt; [|done].
    apply Z.ltb_lt in Hlt. lia.
Qed.

End CoordinatorExtras.

(** ** The coordinator: a run that returns *)

Section SequentialRun.

Context `{GTIDSetLib}.
Variables (s : Searcher) (files : list string) (targetGTID : GTIDSet).
Hypothesis oneSlot : 1 <= Parallel (config s).

Import coordinator.

(** [k] goroutines through, goroutine [k] at [p], [m] still queued. *)
Local Abbreviation lined k p m := (replicate k Finished ++ p :: replicate m Queued).

Lemma lined_lookup (k m : nat) (p : pc) : lined k p m !! k = Some p.
Proof. apply list_lookup_middle. by rewrite length_replicate. Qed.

Lemma lined_insert (k m : nat) (p q : pc) : <[k := q]> (lined k p m) = lined k q m.
Proof. induction k as [|k IH]; simpl; [done|]. by rewrite IH. Qed.

Lemma lined_inUse (k m : nat) (p : pc) (b : bool) (rc : list GTIDPosition)
    (ec : list error) :
  inUse {| tasks := lined k p m; cancelled := b; resultChan := rc; errorChan := ec |}
  = if holdsSlot p then 1 else 0.
Proof.
  unfold inUse. simpl. rewrite filter_app, filter_cons.
  rewrite !(count_replicate_false holdsSlot) by done.
  destruct (holdsSlot p); case_decide; simpl; (done || congruence).
Qed.

Lemma lined_next (k m : nat) :
  lined k Finished m = replicate (S k) Finished ++ replicate m Queued.
Proof. induction k as [|k IH]; simpl; [done|]. by rewrite IH. Qed.

Lemma runSchedule_app (st : State) (l1 l2 : list nat) :
  runSchedule s files targetGTID st (l1 ++ l2)
  = match runSchedule s files targetGTID st l1 with
    | Some st' => runSchedule s files targetGTID st' l2
    | None => None
    end.
Proof.
  revert st. induction l1 as [|i l1 IH]; intros st; simpl; [done|].
  destruct (stepTask s files targetGTID st i); [apply IH|done].
Qed.

(** The state with goroutine [k] at [p]. *)
Local Abbreviation at_ k p m b rc ec :=
  {| tasks := lined k p m; cancelled := b; resultChan := rc; errorChan := ec |}.

Lemma step_queued (k m : nat) (f : string) (b : bool) (rc : list GTIDPosition)
    (ec : list error) :
  files !! k = Some f ->
  stepTask s files targetGTID (at_ k Queued m b rc ec) k
  = Some (at_ k Holding m b rc ec).
Proof.
  intros Hf. unfold stepTask. cbn [tasks]. rewrite lined_lookup, Hf, lined_inUse.
  cbn [holdsSlot]. destruct (0 <? Parallel (config s)) eqn:Hlt;
    [|apply Z.ltb_ge in Hlt; lia].
  unfold setTask. cbn [tasks cancelled resultChan errorChan]. by rewrite lined_insert.
Qed.

Lemma step_holding (k m : nat) (f : string) (b : bool) (rc : list GTIDPosition)
    (ec : list error) :
  files !! k = Some f ->
  stepTask s files targetGTID (at_ k Holding m b rc ec) k
  = Some (at_ k (if b then Exiting else Scanning) m b rc ec).
Proof.
  intros Hf. unfold stepTask, setTask. cbn [tasks cancelled resultChan errorChan].
  by rewrite lined_lookup, Hf, lined_insert.
Qed.

Lemma step_scanning (k m : nat) (f : string) (b : bool) (rc : list GTIDPosition)
    (ec : list error) :
  files !! k = Some f ->
  stepTask s files targetGTID (at_ k Scanning m b rc ec) k
  = Some match searchBinlogFile s f targetGTID with
         | (_, Some err) =>
             at_ k Exiting m b rc
               (ec ++ [wrapError ("error scanning " +:+ f +:+ ": ") err])
         | (Some r, None) => at_ k Cancelling m b (rc ++ [r]) ec
         | (None, None) => at_ k Exiting m b rc ec
         end.
Proof.
  intros Hf. unfold stepTask, setTask. cbn [tasks cancelled resultChan errorChan].
  rewrite lined_lookup, Hf.
  destruct (searchBinlogFile s f targetGTID) as [[r|] [err|]];
    cbn [tasks cancelled resultChan errorChan]; by rewrite lined_insert.
Qed.

Lemma step_cancelling (k m : nat) (f : string) (b : bool) (rc : list GTIDPosition)
    (ec : list error) :
  files !! k = Some f ->
  stepTask s files targetGTID (at_ k Cancelling m b rc ec) k
  = Some (at_ k Exiting m true rc ec).
Proof.
  intros Hf. unfold stepTask. cbn [tasks cancelled resultChan errorChan].
  by rewrite lined_lookup, Hf, lined_insert.
Qed.

Lemma step_exiting (k m : nat) (f : string) (b : bool) (rc : list GTIDPosition)
    (ec : list error) :
  files !! k = Some f ->
  stepTask s files targetGTID (at_ k Exiting m b rc ec) k
  = Some (at_ k Finished m b rc ec).
Proof.
  intros Hf. unfold stepTask, setTask. cbn [tasks cancelled resultChan errorChan].
  by rewrite lined_lookup, Hf, lined_insert.
Qed.

(** Goroutine [k] alone, from its start to its end: what it leaves
    behind. *)
Lemma run_one (k m : nat) (f : string) (b : bool) (rc : list GTIDPosition)
    (ec : list error) :
  files !! k = Some f ->
  exists ec',
    runSchedule s files targetGTID (at_ k Queued m b rc ec)
      (if b then replicate 3 k
       else match searchBinlogFile s f targetGTID with
            | (Some _, None) => replicate 5 k
            | _ => replicate 4 k
            end)
    = Some (at_ k Finished m
              (b || match searchBinlogFile s f targetGTID with
                    | (Some _, None) => true
                    | _ => false
                    end)
              (rc ++ (if b then []
                      else match searchBinlogFile s f targetGTID with
                           | (Some r, None) => [r]
                           | _ => []
                           end))
              ec').
Proof.
  intros Hf. destruct b.
  - exists ec. cbn [replicate runSchedule].
    rewrite (step_queued _ _ f), (step_holding _ _ f), (step_exiting _ _ f) by done.
    by rewrite app_nil_r.
  - pose proof (step_scanning k m f false rc ec Hf) as Hscan.
    destruct (searchBinlogFile s f targetGTID) as [[r|] [err|]];
      eexists; cbn [replicate runSchedule];
      rewrite (step_queued _ _ f), (step_holding _ _ f), Hscan by done;
      rewrite ?(step_cancelling _ _ f) by done;
      rewrite (step_exiting _ _ f) by done;
      rewrite ?app_nil_r; reflexivity.
Qed.

Lemma run_rest (rest done : list string) (b : bool) (rc : list GTIDPosition)
    (ec : list error) :
  files = done ++ rest ->
  exists b' ec',
    runSchedule s files targetGTID
      {| tasks := replicate (length done) Finished ++ replicate (length rest) Queued;
         cancelled := b; resultChan := rc; errorChan := ec |}
      (sequentialFrom s targetGTID (length done) b rest)
    = Some {| tasks := replicate (length files) Finished; cancelled := b';
              resultChan := rc ++ (if b then []
                                   else option_list (firstMatch s targetGTID rest));
              errorChan := ec' |}.
Proof.
  revert done b rc ec. induction rest as [|f rest IH]; intros done b rc ec Hfiles.
  - exists b, ec. simpl. rewrite Hfiles, !app_nil_r. destruct b; by rewrite app_nil_r.
  - assert (Hf : files !! length done = Some f).
    { rewrite Hfiles. by apply list_lookup_middle. }
    destruct (run_one (length done) (length rest) f b rc ec Hf) as [ec1 Hone].
    assert (Hnext : files = (done ++ [f]) ++ rest) by (by rewrite <- app_assoc).
    cbn [sequentialFrom firstMatch length].
    change (replicate (S (length rest)) Queued)
      with (Queued :: replicate (length rest) Queued).
    assert (Hstep : forall b0 rc0,
              (exists b' ec',
                 runSchedule s files targetGTID
                   {| tasks := replicate (S (length done)) Finished
                               ++ replicate (length rest) Queued;
                      cancelled := b0; resultChan := rc0; errorChan := ec1 |}
                   (sequentialFrom s targetGTID (S (length done)) b0 rest)
                 = Some {| tasks := replicate (length files) Finished;
                           cancelled := b';
                           resultChan :=
                             rc0 ++ (if b0 then []
                                     else option_list (firstMatch s targetGTID rest));
                           errorChan := ec' |})).
    { intros b0 rc0. destruct (IH (done ++ [f]) b0 rc0 ec1 Hnext) as (b' & ec' & Hrest).
      rewrite length_app in Hrest. simpl in Hrest.
      replace (length done + 1)%nat with (S (length done)) in Hrest by lia.
      eauto. }
    destruct b.
    + destruct (Hstep true rc) as (b' & ec' & Hrest). exists b', ec'.
      rewrite runSchedule_app, Hone, lined_next.
      cbn [orb]. rewrite !app_nil_r in *. exact Hrest.
    + destruct (searchBinlogFile s f targetGTID) as [[r|] [err|]] eqn:Hscan.
      * destruct (Hstep false rc) as (b' & ec' & Hrest). exists b', ec'.
        rewrite runSchedule_app, Hone, lined_next.
        cbn [orb]. rewrite !app_nil_r in *. exact Hrest.
      * destruct (Hstep true (rc ++ [r])) as (b' & ec' & Hrest). exists b', ec'.
        rewrite runSchedule_app, Hone, lined_next.
        cbn [orb option_list]. rewrite !app_nil_r in *. exact Hrest.
      * destruct (Hstep false rc) as (b' & ec' & Hrest). exists b', ec'.
        rewrite runSchedule_app, Hone, lined_next.
        cbn [orb]. rewrite !app_nil_r in *. exact Hrest.
      * destruct (Hstep false rc) as (b' & ec' & Hrest). exists b', ec'.
        rewrite runSchedule_app, Hone, lined_next.
        cbn [orb]. rewrite !app_nil_r in *. exact Hrest.
Qed.

(** X12: with at least one slot, the schedule that runs the goroutines
    one after the other in the order of the files is a complete run, and
    [SearchParallel] returns under it the match of the first file that has
    one (the later files are not scanned), or nothing when no file has. *)
Theorem sequential_run_returns_first_match :
  SearchParallel s files targetGTID (sequentialFrom s targetGTID 0 false files)
  = Some (firstMatch s targetGTID files, None).
Proof.
  unfold SearchParallel.
  destruct (Parallel (config s) <? 0) eqn:Hneg; [apply Z.ltb_lt in Hneg; lia|].
  destruct (run_rest files [] false [] [] eq_refl) as (b' & ec' & Hrun).
  simpl in Hrun. unfold initialCoordinator. rewrite Hrun.
  unfold allFinished. simpl.
  assert (Hall : forallb isFinished (replicate (length files) Finished) = true).
  { generalize (length files). intros n. induction n as [|n IH]; [done|]. exact IH. }
  rewrite Hall. unfold collectBest. by destruct (firstMatch s targetGTID files).
Qed.

End SequentialRun.

(** ** main.go: the files handed to the search *)

Section StartFileFacts.

Import cli.

Variable Base : string -> string.

Lemma filterLoop_found (startFile : string) (files acc : list string) :
  filterLoop Base startFile acc true files = (acc ++ files, true).
Proof.
  revert acc. induction files as [|f files IH]; intros acc; simpl.
  - by rewrite app_nil_r.
  - by rewrite IH, <- app_assoc.
Qed.

Lemma filterLoop_absent (startFile : string) (files acc : list string) :
  Forall (fun g => isStartFile Base startFile g = false) files ->
  filterLoop Base startFile acc false files = (acc, false).
Proof.
  induction 1 as [|f files Hf _ IH]; simpl; [done|]. by rewrite Hf.
Qed.

Lemma filterLoop_split (startFile : string) (pre post acc : list string)
    (f : string) :
  Forall (fun g => isStartFile Base startFile g = false) pre ->
  isStartFile Base startFile f = true ->
  filterLoop Base startFile acc false (pre ++ f :: post) = (acc ++ f :: post, true).
Proof.
  induction 1 as [|g pre Hg _ IH]; intros Hf; simpl.
  - rewrite Hf, filterLoop_found. by rewrite <- app_assoc.
  - rewrite Hg. by apply IH.
Qed.

Lemma first_start_file (startFile : string) (files : list string) :
  Forall (fun g => isStartFile Base startFile g = false) files
  \/ exists pre f post,
       files = pre ++ f :: post
       /\ Forall (fun g => isStartFile Base startFile g = false) pre
       /\ isStartFile Base startFile f = true.
Proof.
  induction files as [|g files IH]; [by left|].
  destruct (isStartFile Base startFile g) eqn:Hg.
  - right. by exists [], g, files.
  - destruct IH as [Hall|(pre & f & post & -> & Hpre & Hf)].
    + left. by constructor.
    + right. exists (g :: pre), f, post. repeat split; [|done]. by constructor.
Qed.

Lemma filter_outcome (startFile : string) (files : list string) :
  startFile <> EmptyString ->
  (filterFromStartFile Base startFile files
   = Err (Errorf ("start file '" +:+ startFile +:+ "' not found in binlog files"))
   /\ Forall (fun g => isStartFile Base startFile g = false) files)
  \/ exists pre f post,
       files = pre ++ f :: post
       /\ filterFromStartFile Base startFile files = Ok (f :: post)
       /\ Forall (fun g => isStartFile Base startFile g = false) pre
       /\ isStartFile Base startFile f = true.
Proof.
  intros Hne. unfold filterFromStartFile.
  destruct (String.eqb_spec startFile EmptyString) as [|_]; [done|]. cbn [negb].
  destruct (first_start_file startFile files)
    as [Hall|(pre & f & post & -> & Hpre & Hf)].
  - left. by rewrite filterLoop_absent.
  - right. exists pre, f, post. by rewrite filterLoop_split.
Qed.

(** X13: with a start file set, the files kept are the listed files from
    the first one that ends in the start file or has it as base name, that
    one included and nothing before it; the filter fails exactly when no
    listed file is such. *)
Theorem start_file_filter_keeps_the_tail (startFile : string)
    (files : list string) :
  startFile <> EmptyString ->
  match filterFromStartFile Base startFile files with
  | Ok kept =>
      exists pre f,
        files = pre ++ kept /\ head kept = Some f
        /\ isStartFile Base startFile f = true
        /\ Forall (fun g => isStartFile Base startFile g = false) pre
  | Err err =>
      err = Errorf ("start file '" +:+ startFile +:+ "' not found in binlog files")
      /\ Forall (fun g => isStartFile Base startFile g = false) files
  end.
Proof.
  intros Hne.
  destruct (filter_outcome startFile files Hne)
    as [[-> Hall]|(pre & f & post & -> & -> & Hpre & Hf)]; [done|].
  by exists pre, f.
Qed.

Context `{GTIDSetLib}.

(** X14: when no start file is given, the file that
    [FindStartFileUsingHeaders] selects is always found again by the filter
    that follows (the error "start file not found" cannot come up), the
    files to scan are a tail of the listed files, and the selected file is
    one of them. *)
Theorem auto_selected_file_is_scanned (s : Searcher) (files : list string)
    (targetGTID : GTIDSet) :
  (forall f, Base f <> EmptyString) ->
  Z.of_nat (length files) < 2 ^ 63 ->
  files <> [] ->
  exists found kept,
    FindStartFileUsingHeaders s files targetGTID = (found, None)
    /\ filesToScan Base s EmptyString files (Ok targetGTID) = Ok kept
    /\ kept `suffix_of` files
    /\ found ∈ kept.
Proof.
  intros HBase Hn Hne.
  destruct (selector_pick s files targetGTID Hn Hne) as (found & Hsel & Hin).
  exists found. unfold filesToScan, smartStartFile. cbn [String.eqb].
  assert (Hpos : (0 <? Z.of_nat (length files)) = true).
  { apply Z.ltb_lt. destruct files; simpl; [done|lia]. }
  rewrite Hpos, Hsel.
  destruct (String.eqb_spec found EmptyString) as [->|Hfound]; cbn [negb].
  - exists files. by unfold filterFromStartFile.
  - assert (Hstart : isStartFile Base (Base found) found = true).
    { unfold isStartFile. rewrite String.eqb_refl. apply orb_true_r. }
    destruct (filter_outcome (Base found) files (HBase found))
      as [[_ Hall]|(pre & f & post & -> & -> & Hpre & Hf)].
    + rewrite Forall_forall in Hall. specialize (Hall found Hin). congruence.
    + exists (f :: post). split_and!; [done|done|by eexists|].
      apply elem_of_app in Hin as [Hin|Hin]; [|done].
      rewrite Forall_forall in Hpre. specialize (Hpre found Hin). congruence.
Qed.

End StartFileFacts.

(** ** main.go: the check of the configuration *)

(** X15: [validateConfig] stats the binlog directory whatever the mode.
    Where the empty path does not exist, a configuration with a host is
    therefore never accepted: either the directory is set as well, or it
    is empty and reported missing, or an earlier check fails. *)
Theorem remote_configuration_is_rejected (notExist : string -> bool)
    (cfg : cli.Flags) :
  notExist EmptyString = true ->
  cli.Host cfg <> EmptyString ->
  exists err, cli.validateConfig notExist cfg = Some err.
Proof.
  intros Hstat Hhost. unfold cli.validateConfig.
  destruct (String.eqb_spec (cli.Host cfg) EmptyString) as [|_]; [done|].
  destruct (String.eqb_spec (cli.BinlogDir cfg) EmptyString) as [Hdir|_];
    cbn [andb negb orb]; [|by eexists].
  rewrite Hdir, Hstat. repeat case_match; by eexists.
Qed.

(** X16: a configuration that [validateConfig] accepts is a local one:
    no host, a binlog directory that exists, exactly one of the GTID and
    the GTID file, and a known output format. *)
Theorem accepted_configuration_is_local (notExist : string -> bool)
    (cfg : cli.Flags) :
  notExist EmptyString = true ->
  cli.validateConfig notExist cfg = None ->
  cli.Host cfg = EmptyString
  /\ cli.BinlogDir cfg <> EmptyString
  /\ notExist (cli.BinlogDir cfg) = false
  /\ (cli.TargetGTID cfg = EmptyString <-> cli.GTIDFile cfg <> EmptyString)
  /\ cli.IsValid (cli.OutputFormat cfg) = true.
Proof.
  intros Hstat. unfold cli.validateConfig.
  destruct (String.eqb_spec (cli.Host cfg) EmptyString) as [Hhost|Hhost];
    destruct (String.eqb_spec (cli.BinlogDir cfg) EmptyString) as [Hdir|Hdir];
    cbn [andb negb orb]; try done.
  - destruct (String.eqb_spec (cli.TargetGTID cfg) EmptyString) as [Hg|Hg];
      destruct (String.eqb_spec (cli.GTIDFile cfg) EmptyString) as [Hf|Hf];
      cbn [andb negb orb]; try done;
      destruct (notExist (cli.BinlogDir cfg)) eqn:Hexists; try done;
      destruct (cli.IsValid (cli.OutputFormat cfg)) eqn:Hfmt; try done;
      intros _; split_and!; try done; split; intros; done.
  - rewrite Hdir, Hstat. repeat case_match; done.
Qed.

(** ** parser/gtid.go: the active master and the filter by UUID *)

Section ParserFacts.

Import mysql parser.

Lemma infoOf_some (uuid : string) (intervals : list Interval) (info : UUIDInfo) :
  infoOf uuid intervals = Some info ->
  UUID info = uuid /\ highest intervals = Some (MaxTransaction info).
Proof.
  unfold infoOf, highest. destruct intervals as [|first rest]; [done|].
  destruct (last (first :: rest)); [|done]. intros; by simplify_eq.
Qed.

Lemma infoOf_none (uuid : string) (intervals : list Interval) :
  infoOf uuid intervals = None <-> intervals = [].
Proof.
  unfold infoOf. destruct intervals as [|first rest]; [done|].
  destruct (last (first :: rest)) eqn:Hlast; [done|].
  by apply last_None in Hlast.
Qed.

Lemma highest_none (intervals : list Interval) :
  highest intervals = None <-> intervals = [].
Proof. unfold highest. rewrite fmap_None. apply last_None. Qed.

Lemma foldl_higher (first : UUIDInfo) (rest : list UUIDInfo) :
  (foldl higher first rest = first \/ foldl higher first rest ∈ rest)
  /\ MaxTransaction first <= MaxTransaction (foldl higher first rest)
  /\ forall info, info ∈ rest ->
       MaxTransaction info <= MaxTransaction (foldl higher first rest).
Proof.
  revert first. induction rest as [|x rest IH]; intros first; simpl.
  - split; [by left|]. split; [lia|]. intros info Hin. by apply elem_of_nil in Hin.
  - destruct (IH (higher first x)) as (Hin & Hle & Hall).
    assert (Hx : MaxTransaction first <= MaxTransaction (higher first x)
                 /\ MaxTransaction x <= MaxTransaction (higher first x)
                 /\ (higher first x = first \/ higher first x = x)).
    { unfold higher. destruct (MaxTransaction first <? MaxTransaction x) eqn:Hlt;
        [apply Z.ltb_lt in Hlt|apply Z.ltb_ge in Hlt]; repeat split; (lia || auto). }
    destruct Hx as (Hf & Hxle & Hcase). split_and!.
    + destruct Hin as [->|Hin]; [|right; by right].
      destruct Hcase as [->| ->]; [by left|right; by left].
    + lia.
    + intros info Hinfo. apply elem_of_cons in Hinfo as [->|Hinfo]; [lia|auto].
Qed.

Lemma ExtractUUIDs_elem (ranged : list (string * list Interval)) (info : UUIDInfo) :
  info ∈ ExtractUUIDs ranged
  <-> exists uuid intervals,
        (uuid, intervals) ∈ ranged /\ infoOf uuid intervals = Some info.
Proof.
  unfold ExtractUUIDs. rewrite list_elem_of_omap. split.
  - intros ([uuid intervals] & Hin & Hinfo). by exists uuid, intervals.
  - intros (uuid & intervals & Hin & Hinfo). by exists (uuid, intervals).
Qed.

Lemma ranged_lookup (set : MysqlGTIDSet) (ranged : list (string * list Interval))
    (uuid : string) (intervals : list Interval) :
  ranged ≡ₚ map_to_list set ->
  (uuid, intervals) ∈ ranged <-> set !! uuid = Some intervals.
Proof. intros ->. apply elem_of_map_to_list. Qed.

Lemma active_master_info (ranged : list (string * list Interval)) (uuid : string) :
  FindActiveMasterUUID ranged = Ok uuid ->
  exists info intervals,
    (uuid, intervals) ∈ ranged /\ infoOf uuid intervals = Some info
    /\ forall info', info' ∈ ExtractUUIDs ranged ->
         MaxTransaction info' <= MaxTransaction info.
Proof.
  unfold FindActiveMasterUUID.
  destruct (ExtractUUIDs ranged) as [|first rest] eqn:Hinfos; [done|].
  intros Huuid. simplify_eq.
  destruct (foldl_higher first rest) as (Hin & Hle & Hall).
  assert (Hbest : foldl higher first rest ∈ ExtractUUIDs ranged).
  { rewrite Hinfos. destruct Hin as [->|Hin]; [by left|by right]. }
  apply ExtractUUIDs_elem in Hbest as (uuid & intervals & Hranged & Hinfo).
  destruct (infoOf_some _ _ _ Hinfo) as [-> _].
  exists (foldl higher first rest), intervals. split_and!; [done..|].
  intros info' Hin'. apply elem_of_cons in Hin' as [->|Hin']; [lia|auto].
Qed.

Lemma FilterByUUID_found (ranged : list (string * list Interval))
    (uuid : string) (intervals : list Interval) :
  NoDup ranged.*1 -> (uuid, intervals) ∈ ranged ->
  FilterByUUID ranged uuid = Ok {[ uuid := intervals ]}.
Proof.
  induction ranged as [|[u ivs] ranged IH]; intros Hnodup Hin; simpl.
  - by apply elem_of_nil in Hin.
  - apply NoDup_cons in Hnodup as [Hfresh Hnodup].
    destruct (String.eqb_spec u uuid) as [->|Hne].
    + apply elem_of_cons in Hin as [Heq|Hin]; [by simplify_eq|].
      exfalso. apply Hfresh. apply list_elem_of_fmap. by exists (uuid, intervals).
    + apply elem_of_cons in Hin as [Heq|Hin]; [by simplify_eq|]. by apply IH.
Qed.

Lemma FilterByUUID_absent (ranged : list (string * list Interval)) (uuid : string) :
  uuid ∉ ranged.*1 ->
  FilterByUUID ranged uuid
  = Err (Errorf ("UUID " +:+ uuid +:+ " not found in GTID set")).
Proof.
  induction ranged as [|[u ivs] ranged IH]; intros Hout; simpl; [done|].
  apply not_elem_of_cons in Hout as [Hne Hout].
  destruct (String.eqb_spec u uuid) as [->|_]; [done|]. by apply IH.
Qed.

Lemma filter_by_uuid (set : MysqlGTIDSet) (ranged : list (string * list Interval))
    (uuid : string) :
  ranged ≡ₚ map_to_list set ->
  FilterByUUID ranged uuid
  = match set !! uuid with
    | Some intervals => Ok {[ uuid := intervals ]}
    | None => Err (Errorf ("UUID " +:+ uuid +:+ " not found in GTID set"))
    end.
Proof.
  intros Hperm.
  assert (Hnodup : NoDup ranged.*1).
  { rewrite Hperm. apply NoDup_fst_map_to_list. }
  destruct (set !! uuid) as [intervals|] eqn:Hset.
  - apply FilterByUUID_found; [done|]. by apply (ranged_lookup set).
  - apply FilterByUUID_absent. intros Hin.
    apply list_elem_of_fmap in Hin as ([u ivs] & Hu & Hin). simpl in Hu. subst u.
    apply (ranged_lookup set _ _ _ Hperm) in Hin. congruence.
Qed.

(** X17: in whatever order the sets of the target are ranged over,
    [FindActiveMasterUUID] returns a UUID of the target whose highest
    transaction number (as a [uint64]) is not below that of any other, and
    it fails exactly when no UUID of the target has an interval. *)
Theorem active_master_has_highest_transaction (set : MysqlGTIDSet)
    (ranged : list (string * list Interval)) :
  ranged ≡ₚ map_to_list set ->
  match FindActiveMasterUUID ranged with
  | Ok uuid =>
      exists intervals top,
        set !! uuid = Some intervals /\ highest intervals = Some top
        /\ forall uuid' intervals' top',
             set !! uuid' = Some intervals' -> highest intervals' = Some top' ->
             top' <= top
  | Err err =>
      err = Errorf "no UUIDs found in GTID set"
      /\ forall uuid intervals, set !! uuid = Some intervals -> intervals = []
  end.
Proof.
  intros Hperm.
  destruct (FindActiveMasterUUID ranged) as [uuid|err] eqn:Hfind.
  - destruct (active_master_info _ _ Hfind) as (info & intervals & Hin & Hinfo & Hmax).
    apply infoOf_some in Hinfo as [_ Htop].
    exists intervals, (MaxTransaction info).
    split_and!; [by apply (ranged_lookup _ _ _ _ Hperm)|done|].
    intros uuid' intervals' top' Hset' Htop'.
    apply (ranged_lookup _ _ _ _ Hperm) in Hset'.
    destruct (infoOf uuid' intervals') as [info'|] eqn:Hinfo'.
    + assert (Hin' : info' ∈ ExtractUUIDs ranged)
        by (apply ExtractUUIDs_elem; eauto).
      apply infoOf_some in Hinfo' as [_ Htop'']. rewrite Htop' in Htop''.
      simplify_eq. auto.
    + apply infoOf_none in Hinfo'. subst. done.
  - revert Hfind. unfold FindActiveMasterUUID.
    destruct (ExtractUUIDs ranged) as [|first rest] eqn:Hinfos; [|done].
    intros; simplify_eq. split; [done|]. intros uuid intervals Hset.
    apply (ranged_lookup _ _ _ _ Hperm) in Hset.
    destruct (infoOf uuid intervals) as [info|] eqn:Hinfo;
      [|by apply (infoOf_none uuid)].
    assert (Hin : info ∈ ExtractUUIDs ranged)
      by (apply ExtractUUIDs_elem; eauto).
    rewrite Hinfos in Hin. by apply elem_of_nil in Hin.
Qed.

(** X18: [FilterByUUID] does not depend on the order in which the sets
    are ranged over: when the target has the UUID it returns the set that
    holds that one UUID with the intervals the target has for it, and when
    the target has not it fails. *)
Theorem filter_by_uuid_any_order (set : MysqlGTIDSet)
    (ranged ranged' : list (string * list Interval)) (uuid : string) :
  ranged ≡ₚ map_to_list set -> ranged' ≡ₚ map_to_list set ->
  FilterByUUID ranged uuid = FilterByUUID ranged' uuid
  /\ (forall intervals, set !! uuid = Some intervals ->
        FilterByUUID ranged uuid = Ok {[ uuid := intervals ]})
  /\ (set !! uuid = None ->
      FilterByUUID ranged uuid
      = Err (Errorf ("UUID " +:+ uuid +:+ " not found in GTID set"))).
Proof.
  intros Hperm Hperm'.
  rewrite (filter_by_uuid set ranged uuid Hperm), (filter_by_uuid set ranged' uuid Hperm').
  split_and!; [done| |by intros ->]. by intros intervals ->.
Qed.

End ParserFacts.

(** ** main.go: the active master, then the filter *)

(** X19: with [-find-active-master], the filter by UUID that follows the
    detection cannot fail: the target is either left as it is (the
    detected UUID is the empty string) or narrowed to the detected UUID
    with the intervals the target has for it. *)
Theorem detected_master_is_always_filtered
    (rangeInfos rangeFilter
       : mysql.MysqlGTIDSet -> list (string * list mysql.Interval))
    (cfg : cli.Flags) (targetGTID : mysql.MysqlGTIDSet) (filterUUID : string) :
  rangeInfos targetGTID ≡ₚ map_to_list targetGTID ->
  rangeFilter targetGTID ≡ₚ map_to_list targetGTID ->
  cli.FindActiveMaster cfg = true ->
  cli.activeMasterFilter rangeInfos cfg targetGTID = Ok filterUUID ->
  exists filtered,
    cli.filterTarget rangeFilter filterUUID targetGTID = Ok filtered
    /\ ((filterUUID = EmptyString /\ filtered = targetGTID)
        \/ exists intervals,
             targetGTID !! filterUUID = Some intervals
             /\ filtered = {[ filterUUID := intervals ]}).
Proof.
  intros Hinfos Hfilter Hflag. unfold cli.activeMasterFilter, cli.filterTarget.
  rewrite Hflag.
  destruct (parser.FindActiveMasterUUID (rangeInfos targetGTID)) as [uuid|err]
    eqn:Hfind; [|done].
  intros; simplify_eq.
  destruct (active_master_info _ _ Hfind) as (info & intervals & Hin & _).
  apply (ranged_lookup _ _ _ _ Hinfos) in Hin.
  destruct (String.eqb_spec filterUUID EmptyString) as [->|_]; cbn [negb].
  - exists targetGTID. split; [done|]. by left.
  - rewrite (filter_by_uuid targetGTID _ filterUUID Hfilter), Hin.
    eexists. split; [done|]. right. by exists intervals.
Qed.

(** ** [GetBinlogFiles] *)

Lemma HasSuffix_spec (s suffix : string) :
  gostrings.HasSuffix s suffix = true <-> exists pre, s = pre +:+ suffix.
Proof.
  induction s as [|c s IH]; cbn [gostrings.HasSuffix].
  - rewrite orb_false_r, String.eqb_eq. split.
    + intros <-. by exists EmptyString.
    + intros (pre & Hpre). destruct pre; simpl in Hpre; [done|discriminate].
  - rewrite orb_true_iff, IH, String.eqb_eq. split.
    + intros [<-|(pre & ->)].
      * by exists EmptyString.
      * by exists (String c pre).
    + intros (pre & Hpre). destruct pre as [|c' pre]; simpl in Hpre.
      * by left.
      * right. exists pre. by injection Hpre.
Qed.

Lemma stringLe_total : Total gosort.stringLe.
Proof. intros a b. apply String.leb_total. Qed.

Lemma GetBinlogFiles_elem (Join : string -> string -> string)
    (Glob : string -> res (list string)) (dir pattern : string)
    (files : list string) (f : string) :
  GetBinlogFiles Join Glob dir pattern = Ok files ->
  f ∈ files ->
  exists globbed, Glob (Join dir pattern) = Ok globbed
                  /\ f ∈ globbed /\ gostrings.HasSuffix f ".index" = false.
Proof.
  unfold GetBinlogFiles. destruct (Glob (Join dir pattern)) as [globbed|]; [|done].
  intros Hfiles Hin. simplify_eq. exists globbed. split; [done|].
  unfold gosort.Strings in Hin. rewrite sorting.merge_sort_Permutation in Hin.
  by apply list_elem_of_filter in Hin as [? ?].
Qed.

(** X20: when the directory can be listed, [GetBinlogFiles] returns the
    listed names that do not end in ".index", each as often as it is
    listed, in ascending order; when it cannot, the error of the listing,
    wrapped. *)
Theorem binlog_files_are_sorted_and_not_index (Join : string -> string -> string)
    (Glob : string -> res (list string)) (dir pattern : string) :
  match Glob (Join dir pattern) with
  | Ok globbed =>
      exists files,
        GetBinlogFiles Join Glob dir pattern = Ok files
        /\ Sorted.Sorted gosort.stringLe files
        /\ files ≡ₚ filter (fun f => gostrings.HasSuffix f ".index" = false) globbed
        /\ forall f, f ∈ files
                     <-> f ∈ globbed /\ forall pre, f <> pre +:+ ".index"
  | Err err =>
      GetBinlogFiles Join Glob dir pattern
      = Err (wrapError "failed to glob files: " err)
  end.
Proof.
  unfold GetBinlogFiles. destruct (Glob (Join dir pattern)) as [globbed|err]; [|done].
  eexists. split; [reflexivity|]. unfold gosort.Strings. split_and!.
  - apply sorting.Sorted_merge_sort. apply stringLe_total.
  - apply sorting.merge_sort_Permutation.
  - intros f. rewrite sorting.merge_sort_Permutation, list_elem_of_filter.
    rewrite <- not_true_iff_false, HasSuffix_spec. split.
    + intros [Hno Hin]. split; [done|]. intros pre ->. apply Hno. by exists pre.
    + intros [Hin Hno]. split; [|done]. intros (pre & ->). by apply (Hno pre).
Qed.

(** ** [findGTIDPosition] *)

Lemma search_names_the_file `{GTIDSetLib} (s : Searcher) (filepath : string)
    (targetGTID : GTIDSet) (r : GTIDPosition) (err : option error) :
  searchBinlogFile s filepath targetGTID = (Some r, err) ->
  BinlogFile r = filepath.
Proof.
  unfold searchBinlogFile, ParseFile.
  destruct (parseEvents _ _ _ _) as [st e] eqn:Hscan.
  assert (Hfile : filed filepath initialState) by (split; intros ?; discriminate).
  pose proof (filed_scan (config s) targetGTID _ _ _ _ _ _ Hfile Hscan) as [Hf _].
  intros Hret. apply Hf. revert Hret. repeat case_match; intros; by simplify_eq.
Qed.

Section ProgramFacts.

Variable notExist : string -> bool.
Variable TrimSpace : string -> string.
Variable Base : string -> string.
Variable Join : string -> string -> string.
Variable Glob : string -> res (list string).
Variable onDisk : BinlogParser.
Variable server : remote.Connection.
Variables rangeInfos rangeFilter
  : mysql.MysqlGTIDSet -> list (string * list mysql.Interval).
Variable schedule : list nat.

Local Abbreviation run cfg :=
  (cli.findGTIDPosition TrimSpace Base Join Glob onDisk server
     rangeInfos rangeFilter schedule cfg).

(** X21: [validateConfig] accepts a configuration with a GTID file and
    no GTID, but [findGTIDPosition] parses the GTID only: on every such
    configuration it fails at once, with nothing listed, read or
    connected to. *)
Theorem gtid_file_mode_never_searches (cfg : cli.Flags) :
  cli.validateConfig notExist cfg = None ->
  cli.GTIDFile cfg <> EmptyString ->
  run cfg
  = Some (None,
          Some (Errorf "invalid GTID format: GTID string cannot be empty")).
Proof.
  intros Hvalid Hfile.
  assert (Htarget : cli.TargetGTID cfg = EmptyString).
  { revert Hvalid. unfold cli.validateConfig.
    destruct (String.eqb_spec (cli.TargetGTID cfg) EmptyString) as [|_]; [done|].
    destruct (String.eqb_spec (cli.GTIDFile cfg) EmptyString) as [|_]; [done|].
    cbn [negb andb]. repeat case_match; done. }
  unfold cli.findGTIDPosition, parser.ParseGTID. by rewrite Htarget.
Qed.

(** X22: a position that the local search returns comes without error
    and names one of the listed files, not an index file, that is among
    the files handed to the goroutines. *)
Theorem local_result_names_a_listed_file (cfg : cli.Flags) (r : GTIDPosition)
    (err : option error) :
  cli.Host cfg = EmptyString ->
  run cfg = Some (Some r, err) ->
  err = None
  /\ exists globbed,
       Glob (Join (cli.BinlogDir cfg) (cli.FilePattern cfg)) = Ok globbed
       /\ BinlogFile r ∈ globbed
       /\ gostrings.HasSuffix (BinlogFile r) ".index" = false.
Proof.
  intros Hhost. unfold cli.findGTIDPosition. rewrite Hhost. cbn [String.eqb negb].
  destruct (parser.ParseGTID _ _) as [targetGTID|]; [|done].
  destruct (GetBinlogFiles _ _ _ _) as [binlogFiles|] eqn:Hfiles; [|done].
  destruct (_ =? 0); [done|].
  set (startFile := cli.smartStartFile _ _ _ _ _).
  pose proof (String.eqb_spec startFile EmptyString) as Hstart.
  destruct (cli.filterFromStartFile Base startFile binlogFiles) as [kept|]
    eqn:Hkept; [|done].
  destruct (cli.activeMasterFilter _ _ _) as [filterUUID|]; [|done].
  destruct (cli.filterTarget _ _ _) as [filtered|]; [|done].
  intros Hrun.
  destruct (complete_run_outcome (H := mysqlLib) _ _ _ _ _ Hrun)
    as (published & Hout & Hpub & Hbest & _).
  simplify_eq. split; [done|].
  destruct (Hbest r) as [Hin _]; [congruence|].
  rewrite Forall_forall in Hpub. destruct (Hpub r Hin) as (f & Hf & Hmatch).
  rewrite (search_names_the_file _ _ _ _ _ Hmatch).
  assert (Hsub : f ∈ binlogFiles).
  { inversion Hstart as [Heq Hb|Hne Hb].
    - revert Hkept. unfold cli.filterFromStartFile. rewrite <- Hb. cbn [negb].
      intros; by simplify_eq.
    - destruct (filter_outcome Base startFile binlogFiles Hne)
        as [[Herr _]|(pre & g & post & -> & Hok & _)]; [congruence|].
      rewrite Hok in Hkept. simplify_eq. apply elem_of_app. by right. }
  by apply (GetBinlogFiles_elem Join Glob _ _ _ _ Hfiles).
Qed.

End ProgramFacts.

(** ** The time window *)

Section TimeWindow.

Context `{GTIDSetLib}.
Variables (c : Config) (targetGTID : GTIDSet).

Lemma onEvent_outside_window (file : string) (st : ScanState) (e : BinlogEvent) :
  inWindow c e = false -> onEvent c file targetGTID st e = (st, None).
Proof.
  unfold inWindow, onEvent. destruct (beforeStart c e); [done|].
  by destruct (afterEnd c e).
Qed.

Lemma scan_in_window (file : string) (evs : list BinlogEvent) (st : ScanState)
    (failure : option error) :
  parseEvents (onEvent c file targetGTID) st
    (filter (fun e => inWindow c e = true) evs) failure
  = parseEvents (onEvent c file targetGTID) st evs failure.
Proof.
  revert st. induction evs as [|e evs IH]; intros st; [done|].
  rewrite filter_cons. destruct (inWindow c e) eqn:Hw.
  - rewrite decide_True by done. cbn [parseEvents].
    destruct (onEvent c file targetGTID st e) as [st' [err|]]; [done|apply IH].
  - rewrite decide_False by done. cbn [parseEvents].
    rewrite onEvent_outside_window by done. apply IH.
Qed.

Lemma remoteEvent_early (st : RemoteState) (ev : BinlogEvent) :
  beforeStart c ev = true -> remoteEvent c targetGTID st ev = Continue st.
Proof. unfold remoteEvent. by intros ->. Qed.

Lemma remoteLoop_not_early (ds : list remote.Delivery) (st : RemoteState) :
  remoteLoop c targetGTID st (filter (fun d => notEarly c d = true) ds)
  = remoteLoop c targetGTID st ds.
Proof.
  revert st. induction ds as [|d ds IH]; intros st; [done|].
  rewrite filter_cons. destruct (notEarly c d) eqn:Hd.
  - rewrite decide_True by done. destruct d as [ev| |err]; cbn [remoteLoop]; [|done..].
    destruct (remoteEvent c targetGTID st ev); [apply IH|done].
  - rewrite decide_False by done. destruct d as [ev| |err]; [|done..].
    cbn [notEarly] in Hd. apply negb_false_iff in Hd. cbn [remoteLoop].
    rewrite remoteEvent_early by done. apply IH.
Qed.

End TimeWindow.

(** X23: the scan of a file does not see the events outside the time
    window: a file with these events taken out gives the same answer.
    The remote search does not see the events from before the start
    time. *)
Theorem events_outside_the_window_are_not_seen `{GTIDSetLib}
    (s s' : Searcher) (filepath : string) (c : Config)
    (conn conn' : remote.Connection) (targetGTID : GTIDSet) :
  (config s' = config s ->
   failure (parserFactory s' filepath) = failure (parserFactory s filepath) ->
   events (parserFactory s' filepath)
   = filter (fun e => inWindow (config s) e = true)
       (events (parserFactory s filepath)) ->
   searchBinlogFile s' filepath targetGTID = searchBinlogFile s filepath targetGTID)
  /\ (remote.startSyncError conn' = remote.startSyncError conn ->
      remote.deliveries conn'
      = filter (fun d => notEarly c d = true) (remote.deliveries conn) ->
      RemoteSearch c conn' targetGTID = RemoteSearch c conn targetGTID).
Proof.
  split.
  - intros Hc Hf He. unfold searchBinlogFile, ParseFile.
    by rewrite Hc, Hf, He, scan_in_window.
  - intros Hs Hd. unfold RemoteSearch. by rewrite Hs, Hd, remoteLoop_not_early.
Qed.

(** ** The further properties on concrete inputs *)

(** X1 on a file, and on a connection, that hold transaction 200 only. *)
Lemma no_target_gtid_no_match_witness :
  (searchBinlogFile (H := mysqlLib)
     (scenario.mock scenario.plainConfig inputs.outsideOnly)
     "mysql-bin.000001" scenario.target).1 = None
  /\ (RemoteSearch (H := mysqlLib) scenario.plainConfig
        (scenario.connection (map remote.Event inputs.outsideOnly))
        scenario.target).1 = None.
Proof.
  destruct (no_target_gtid_no_match (H := mysqlLib)
              (scenario.mock scenario.plainConfig inputs.outsideOnly)
              "mysql-bin.000001" scenario.plainConfig
              (scenario.connection (map remote.Event inputs.outsideOnly))
              scenario.target) as [Hfile Hremote].
  split; [apply Hfile|apply Hremote];
    match goal with
    | |- Forall ?P ?l => let l' := eval vm_compute in l in change (Forall P l')
    end;
    repeat (constructor; [vm_compute; reflexivity|]); constructor.
Defined.

(** X2 on the transaction of the tests. *)
Lemma returned_position_comes_from_the_stream_witness :
  let s := scenario.mock scenario.plainConfig scenario.oneTransaction in
  let r := scenario.matchOf "mysql-bin.000001" 900 2000 10 50 in
  (BinlogFile r = "mysql-bin.000001"
   /\ (exists e, e ∈ events (parserFactory s "mysql-bin.000001")
                 /\ openedBy (H := mysqlLib) scenario.target e r)
   /\ (exists e, e ∈ events (parserFactory s "mysql-bin.000001")
                 /\ committedBy e r))
  /\ ((exists e, e ∈ deliveredEvents (map remote.Event scenario.oneTransaction)
                 /\ openedBy (H := mysqlLib) scenario.target e r)
      /\ (exists e, e ∈ deliveredEvents (map remote.Event scenario.oneTransaction)
                    /\ committedBy e r)).
Proof.
  intros s r.
  destruct (returned_position_comes_from_the_stream (H := mysqlLib) s
              "mysql-bin.000001" scenario.plainConfig
              (scenario.connection (map remote.Event scenario.oneTransaction))
              scenario.target r None) as [Hfile Hremote].
  split; [apply Hfile|apply Hremote]; vm_compute; reflexivity.
Defined.

(** X3 with the filter on [shop]. *)
Lemma returned_position_passes_database_filter_witness :
  searchBinlogFile (H := mysqlLib) (scenario.mock inputs.shopOnly inputs.inShop)
    "mysql-bin.000001" scenario.target = (Some inputs.inShopMatch, None)
  /\ Database inputs.inShopMatch = "shop".
Proof.
  split; [vm_compute; reflexivity|].
  destruct (returned_position_passes_database_filter (H := mysqlLib)
              (scenario.mock inputs.shopOnly inputs.inShop) "mysql-bin.000001"
              inputs.shopOnly
              (scenario.connection (map remote.Event inputs.inShop))
              scenario.target inputs.inShopMatch None) as [Hfile _].
  apply Hfile; [discriminate|vm_compute; reflexivity].
Defined.

(** X4 on the transaction followed by the next GTID. *)
Lemma remote_search_agrees_with_file_scan_witness :
  RemoteSearch (H := mysqlLib) scenario.plainConfig
    (scenario.connection (map remote.Event scenario.withNextGTID))
    scenario.target
  = searchBinlogFile (H := mysqlLib)
      {| config := scenario.plainConfig;
         parserFactory := MockBinlogParser scenario.withNextGTID None |}
      "mysql-bin.000001" scenario.target.
Proof.
  apply (remote_search_agrees_with_file_scan (H := mysqlLib) scenario.plainConfig
           (scenario.connection (map remote.Event scenario.withNextGTID))
           scenario.target scenario.withNextGTID);
    [discriminate|reflexivity|reflexivity|].
  vm_compute. repeat constructor.
Defined.

(** X5: the connection breaks after the commit. *)
Lemma remote_read_failure_drops_the_match_witness :
  RemoteSearch (H := mysqlLib) scenario.plainConfig
    (scenario.connection
       (map remote.Event scenario.oneTransaction
        ++ [remote.Failed (Errorf "connection reset")]))
    scenario.target
  = (None, Some (Errorf "get event error: connection reset")).
Proof.
  destruct (remote_read_failure_drops_the_match (H := mysqlLib) scenario.plainConfig
              (scenario.connection
                 (map remote.Event scenario.oneTransaction
                  ++ [remote.Failed (Errorf "connection reset")]))
              scenario.target scenario.oneTransaction []
              inputs.afterOneTransaction) as [Hfailed _];
    [discriminate|reflexivity|vm_compute; reflexivity|].
  apply (Hfailed (Errorf "connection reset")). reflexivity.
Defined.

(** X6 on the predicate "at least 2" over five indices. *)
Lemma sortSearch_boundary_witness :
  0 <= sortSearch 5 (fun i => 2 <=? i) <= 5
  /\ (0 < sortSearch 5 (fun i => 2 <=? i) ->
      (2 <=? sortSearch 5 (fun i => 2 <=? i) - 1) = false)
  /\ (sortSearch 5 (fun i => 2 <=? i) < 5 ->
      (2 <=? sortSearch 5 (fun i => 2 <=? i)) = true).
Proof. apply (sortSearch_boundary (fun i => 2 <=? i) 5). lia. Defined.

(** X7: a predicate that differs from "at least 2" from index 5 on. *)
Lemma sortSearch_probes_in_range_witness :
  sortSearch 5 (fun i => 2 <=? i) = sortSearch 5 (fun i => (2 <=? i) && (i <? 5)).
Proof.
  apply (sortSearch_probes_in_range (fun i => 2 <=? i)
           (fun i => (2 <=? i) && (i <? 5)) 5); [lia|].
  intros k Hk. replace (k <? 5) with true by (symmetry; apply Z.ltb_lt; lia).
  by rewrite andb_true_r.
Defined.

(** X8 on the three headers of the tests and a file that is not there. *)
Lemma selector_returns_a_listed_file_witness :
  exists f,
    FindStartFileUsingHeaders (H := mysqlLib) scenario.threeHeaders
      inputs.fourFiles scenario.target = (f, None)
    /\ f ∈ inputs.fourFiles.
Proof.
  destruct (selector_returns_a_listed_file (H := mysqlLib) scenario.threeHeaders
              inputs.fourFiles scenario.target) as [_ Hsome];
    [vm_compute; reflexivity|].
  apply Hsome. discriminate.
Defined.

(** X9 after both goroutines took their slot. *)
Lemma slots_never_exceed_parallel_witness :
  exists st,
    runSchedule (H := mysqlLib) (scenario.twoMatches 2) inputs.twoFiles
      scenario.target (initialCoordinator inputs.twoFiles) [0; 1; 0]%nat = Some st
    /\ coordinator.inUse st <= 2.
Proof.
  eexists. split; [vm_compute; reflexivity|].
  apply (slots_never_exceed_parallel (H := mysqlLib) (scenario.twoMatches 2)
           inputs.twoFiles scenario.target [0; 1; 0]%nat);
    [vm_compute; discriminate|vm_compute; reflexivity].
Defined.

(** X10 after both goroutines published. *)
Lemma channels_never_overflow_witness :
  exists st,
    runSchedule (H := mysqlLib) (scenario.twoMatches 2) inputs.twoFiles
      scenario.target (initialCoordinator inputs.twoFiles)
      [0; 1; 0; 1; 0; 1]%nat = Some st
    /\ (length (coordinator.resultChan st) + length (coordinator.errorChan st)
        <= length inputs.twoFiles)%nat.
Proof.
  eexists. split; [vm_compute; reflexivity|].
  apply (channels_never_overflow (H := mysqlLib) (scenario.twoMatches 2)
           inputs.twoFiles scenario.target [0; 1; 0; 1; 0; 1]%nat).
  vm_compute; reflexivity.
Defined.

(** X11 with [-parallel 0]. *)
Lemma no_slot_no_return_witness :
  SearchParallel (H := mysqlLib) (scenario.twoMatches 0) inputs.twoFiles
    scenario.target scenario.oneAfterTheOther = None.
Proof.
  apply (no_slot_no_return (H := mysqlLib) (scenario.twoMatches 0) inputs.twoFiles
           scenario.target scenario.oneAfterTheOther);
    [vm_compute; discriminate|discriminate].
Defined.

(** X12 on the two files with a match each: the match of the first. *)
Lemma sequential_run_returns_first_match_witness :
  SearchParallel (H := mysqlLib) (scenario.twoMatches 2) inputs.twoFiles
    scenario.target
    (sequentialFrom (H := mysqlLib) (scenario.twoMatches 2) scenario.target 0 false
       inputs.twoFiles)
  = Some (firstMatch (H := mysqlLib) (scenario.twoMatches 2) scenario.target
            inputs.twoFiles, None).
Proof.
  apply (sequential_run_returns_first_match (H := mysqlLib) (scenario.twoMatches 2)
           inputs.twoFiles scenario.target).
  vm_compute; discriminate.
Defined.

(** X13 with [-start-file bin.002]. *)
Lemma start_file_filter_keeps_the_tail_witness :
  exists pre f,
    inputs.fourFiles = pre ++ ["bin.002"; "bin.003"; "bin.004"]
    /\ head ["bin.002"; "bin.003"; "bin.004"] = Some f
    /\ cli.isStartFile inputs.flatBase "bin.002" f = true
    /\ Forall (fun g => cli.isStartFile inputs.flatBase "bin.002" g = false) pre.
Proof.
  pose proof (start_file_filter_keeps_the_tail inputs.flatBase "bin.002"
                inputs.fourFiles) as Hkept.
  change (cli.filterFromStartFile inputs.flatBase "bin.002" inputs.fourFiles)
    with (Ok ["bin.002"; "bin.003"; "bin.004"] : res (list string)) in Hkept.
  apply Hkept. discriminate.
Defined.

(** X14 on the three headers of the tests. *)
Lemma auto_selected_file_is_scanned_witness :
  exists found kept,
    FindStartFileUsingHeaders (H := mysqlLib) scenario.threeHeaders
      inputs.fourFiles scenario.target = (found, None)
    /\ cli.filesToScan (H := mysqlLib) inputs.flatBase scenario.threeHeaders
         EmptyString inputs.fourFiles (Ok scenario.target) = Ok kept
    /\ kept `suffix_of` inputs.fourFiles
    /\ found ∈ kept.
Proof.
  apply (auto_selected_file_is_scanned (H := mysqlLib) inputs.flatBase
           scenario.threeHeaders inputs.fourFiles scenario.target).
  - intros f. unfold inputs.flatBase. by destruct f.
  - vm_compute; reflexivity.
  - discriminate.
Defined.

(** X15 on a host with user, password and start file. *)
Lemma remote_configuration_is_rejected_witness :
  exists err, cli.validateConfig inputs.onlyEmptyMissing inputs.remoteFlags = Some err.
Proof.
  apply (remote_configuration_is_rejected inputs.onlyEmptyMissing inputs.remoteFlags);
    [reflexivity|discriminate].
Defined.

(** X16 on a directory and a GTID. *)
Lemma accepted_configuration_is_local_witness :
  cli.Host inputs.localFlags = EmptyString
  /\ cli.BinlogDir inputs.localFlags <> EmptyString
  /\ inputs.onlyEmptyMissing (cli.BinlogDir inputs.localFlags) = false
  /\ (cli.TargetGTID inputs.localFlags = EmptyString
      <-> cli.GTIDFile inputs.localFlags <> EmptyString)
  /\ cli.IsValid (cli.OutputFormat inputs.localFlags) = true.
Proof.
  apply (accepted_configuration_is_local inputs.onlyEmptyMissing inputs.localFlags);
    [reflexivity|vm_compute; reflexivity].
Defined.

(** X17 on U:1-100 and V:1-5. *)
Lemma active_master_has_highest_transaction_witness :
  exists intervals top,
    inputs.twoServers !! scenario.U = Some intervals
    /\ parser.highest intervals = Some top
    /\ forall uuid' intervals' top',
         inputs.twoServers !! uuid' = Some intervals' ->
         parser.highest intervals' = Some top' -> top' <= top.
Proof.
  pose proof (active_master_has_highest_transaction inputs.twoServers
                (inputs.backwards inputs.twoServers)) as Hmaster.
  change (parser.FindActiveMasterUUID (inputs.backwards inputs.twoServers))
    with (Ok scenario.U : res string) in Hmaster.
  apply Hmaster. unfold inputs.backwards. apply reverse_Permutation.
Defined.

(** X18 on the same set, ranged over forwards and backwards: the
    filter on V gives the set V:1-5 either way. *)
Lemma filter_by_uuid_any_order_witness :
  parser.FilterByUUID (inputs.forwards inputs.twoServers) inputs.V
  = parser.FilterByUUID (inputs.backwards inputs.twoServers) inputs.V
  /\ parser.FilterByUUID (inputs.backwards inputs.twoServers) inputs.V
     = Ok {[ inputs.V := [{| mysql.Start := 1; mysql.Stop := 6 |}] ]}.
Proof.
  destruct (filter_by_uuid_any_order inputs.twoServers
              (inputs.forwards inputs.twoServers)
              (inputs.backwards inputs.twoServers) inputs.V) as [Hsame [Hfound _]];
    [reflexivity|apply reverse_Permutation|].
  split; [exact Hsame|]. rewrite <- Hsame. apply Hfound. vm_compute; reflexivity.
Defined.

(** X19 on the same set. *)
Lemma detected_master_is_always_filtered_witness :
  exists filtered,
    cli.filterTarget inputs.backwards scenario.U inputs.twoServers = Ok filtered
    /\ ((scenario.U = EmptyString /\ filtered = inputs.twoServers)
        \/ exists intervals,
             inputs.twoServers !! scenario.U = Some intervals
             /\ filtered = {[ scenario.U := intervals ]}).
Proof.
  apply (detected_master_is_always_filtered inputs.forwards inputs.backwards
           inputs.activeMasterFlags inputs.twoServers scenario.U);
    [reflexivity|apply reverse_Permutation|reflexivity|vm_compute; reflexivity].
Defined.

(** X21 on a configuration with [-gtid-file]. *)
Lemma gtid_file_mode_never_searches_witness :
  cli.findGTIDPosition (fun text => text) inputs.flatBase inputs.join inputs.listing
    (parserFactory (scenario.twoMatches 2)) (scenario.connection [])
    inputs.forwards inputs.backwards scenario.oneAfterTheOther inputs.gtidFileFlags
  = Some (None,
          Some (Errorf "invalid GTID format: GTID string cannot be empty")).
Proof.
  apply (gtid_file_mode_never_searches inputs.onlyEmptyMissing);
    [vm_compute; reflexivity|discriminate].
Defined.

(** X22 on the directory with two binlog files and the index file: the
    selection starts at the last file, whose match is returned. *)
Lemma local_result_names_a_listed_file_witness :
  cli.findGTIDPosition (fun text => text) inputs.flatBase inputs.join inputs.listing
    (parserFactory (scenario.twoMatches 2)) (scenario.connection [])
    inputs.forwards inputs.backwards [0; 0; 0; 0; 0]%nat inputs.autoFlags
  = Some (Some (scenario.matchOf "bin.002" 900 2000 20 50), None)
  /\ exists globbed,
       inputs.listing (inputs.join "/var/lib/mysql" "bin.*") = Ok globbed
       /\ "bin.002" ∈ globbed
       /\ gostrings.HasSuffix "bin.002" ".index" = false.
Proof.
  destruct (local_result_names_a_listed_file (fun text => text) inputs.flatBase
           inputs.join inputs.listing (parserFactory (scenario.twoMatches 2))
           (scenario.connection []) inputs.forwards inputs.backwards
           [0; 0; 0; 0; 0]%nat inputs.autoFlags
           (scenario.matchOf "bin.002" 900 2000 20 50) None) as [_ Hlisted];
    [reflexivity|vm_compute; reflexivity|].
  split; [vm_compute; reflexivity|exact Hlisted].
Defined.

(** X23 on the file with a late event and on a connection with an early
    one. *)
Lemma events_outside_the_window_are_not_seen_witness :
  searchBinlogFile (H := mysqlLib) (scenario.mock scenario.endAt1000 inputs.matchOnly)
    "mysql-bin.000001" scenario.target
  = searchBinlogFile (H := mysqlLib)
      (scenario.mock scenario.endAt1000 scenario.lateThenMatch)
      "mysql-bin.000001" scenario.target
  /\ RemoteSearch (H := mysqlLib) inputs.startAt5
       (scenario.connection (map remote.Event scenario.oneTransaction))
       scenario.target
     = RemoteSearch (H := mysqlLib) inputs.startAt5
         (scenario.connection inputs.earlyThenMatch) scenario.target.
Proof.
  destruct (events_outside_the_window_are_not_seen (H := mysqlLib)
              (scenario.mock scenario.endAt1000 scenario.lateThenMatch)
              (scenario.mock scenario.endAt1000 inputs.matchOnly)
              "mysql-bin.000001" inputs.startAt5
              (scenario.connection inputs.earlyThenMatch)
              (scenario.connection (map remote.Event scenario.oneTransaction))
              scenario.target) as [Hfile Hremote].
  split; [apply Hfile|apply Hremote]; vm_compute; reflexivity.
Defined.
